(** * Structured Cognitive Loop with Human-in-the-Loop: a shallow embedding

    The development follows [hitl_module.py] and [scl_core.py].  Python
    class instances become records, methods become state-passing
    functions, and the dictionaries that the program shares and mutates
    in place (proposed actions, cognition outputs, ambient contexts) live
    in an object store addressed by location, so that aliasing between
    the loop, its traces and the frozen snapshots is visible.

    Conventions:
    - console output ([print]) is not modelled;
    - the UI callbacks of [HITLManager] are [None] in the source and stay so;
    - payloads exchanged with tools are JSON-like trees; no code path
      inspects a payload number, so floats are left out of payloads;
    - an absent dictionary key and a key bound to [None] are identified
      (the source only reads such keys through [dict.get]);
    - the collaborators of the loop (reasoning oracle, tools, console
      operator, wall clock) are functions of a logical clock that every
      clock reading advances, so that they may answer differently each
      time. *)

From Stdlib Require Import ZArith QArith Ascii DecimalString DecimalNat DecimalZ.
From stdpp Require Import gmap strings list fin_maps.

Open Scope Z_scope.
Set Warnings "-register-all".

(** ** Payload values *)

Inductive tree : Type :=
| TNone
| TBool (b : bool)
| TInt (z : Z)
| TStr (s : string)
| TList (ts : list tree)
| TDict (kvs : list (string * tree)).

Fixpoint tree_eq_dec (a b : tree) {struct a} : {a = b} + {a <> b}.
Proof.
  decide equality.
  - apply Bool.bool_dec.
  - apply Z.eq_dec.
  - apply String.string_dec.
  - apply (List.list_eq_dec tree_eq_dec).
  - apply List.list_eq_dec. decide equality. apply String.string_dec.
Defined.

#[global] Instance tree_eq_decision : EqDecision tree := tree_eq_dec.

(** ** The object store

    Locations index append-only lists of cells; a cell is created once and
    afterwards only updated in place. *)

Definition loc := nat.

(** [{"tool_name": ..., "parameters": ...}] *)
Record Action : Type := mkAction {
  tool_name : option string;
  parameters : option tree
}.

#[global] Instance Action_eq_decision : EqDecision Action.
Proof. solve_decision. Defined.

(** The empty dictionary [{}] used as a default proposed action. *)
Definition empty_action : Action := mkAction None None.

(** The dictionary returned by the reasoning oracle. *)
Record CogOut : Type := mkCogOut {
  reasoning : option string;
  proposed_action : option loc;
  evidence_refs : option (list string);
  is_final_action : bool;
  confidence : option Q;
  control_validated : bool
}.

Definition empty_cog : CogOut := mkCogOut None None None false None false.

(** Values bound in the ambient context dictionary. *)
Inductive cval : Type :=
| CTree (t : tree)
| CAct (a : loc).

#[global] Instance cval_eq_decision : EqDecision cval.
Proof. solve_decision. Defined.

Record World : Type := mkWorld {
  acts : list Action;
  cogs : list CogOut;
  ctxs : list (gmap string cval);
  clock : nat;
  wall_clock : nat -> string
}.

Definition get_act (w : World) (a : loc) : Action := default empty_action (acts w !! a).
Definition get_cog (w : World) (c : loc) : CogOut := default empty_cog (cogs w !! c).
Definition get_ctx (w : World) (c : loc) : gmap string cval := default ∅ (ctxs w !! c).

Definition alloc_act (w : World) (a : Action) : World * loc :=
  (mkWorld (acts w ++ [a]) (cogs w) (ctxs w) (clock w) (wall_clock w), length (acts w)).
Definition alloc_cog (w : World) (c : CogOut) : World * loc :=
  (mkWorld (acts w) (cogs w ++ [c]) (ctxs w) (clock w) (wall_clock w), length (cogs w)).
Definition alloc_ctx (w : World) (c : gmap string cval) : World * loc :=
  (mkWorld (acts w) (cogs w) (ctxs w ++ [c]) (clock w) (wall_clock w), length (ctxs w)).

Definition set_act (w : World) (l : loc) (a : Action) : World :=
  mkWorld (<[l:=a]> (acts w)) (cogs w) (ctxs w) (clock w) (wall_clock w).
Definition set_cog (w : World) (l : loc) (c : CogOut) : World :=
  mkWorld (acts w) (<[l:=c]> (cogs w)) (ctxs w) (clock w) (wall_clock w).
Definition set_ctx (w : World) (l : loc) (c : gmap string cval) : World :=
  mkWorld (acts w) (cogs w) (<[l:=c]> (ctxs w)) (clock w) (wall_clock w).

(** [datetime.now().isoformat()]: a reading of the wall clock; every
    reading advances the logical clock. *)
Definition now (w : World) : World * string :=
  (mkWorld (acts w) (cogs w) (ctxs w) (S (clock w)) (wall_clock w), wall_clock w (clock w)).

(** ** Number formatting *)

Definition str_nat (n : nat) : string := NilEmpty.string_of_uint (Nat.to_uint n).
Definition str_Z (z : Z) : string := NilZero.string_of_int (Z.to_int z).

Fixpoint zeros (n : nat) : string :=
  match n with O => "" | S k => String "0"%char (zeros k) end.

(** [f"{n:0{width}d}"] for a non-negative [n]. *)
Definition fmt_0d (width : nat) (n : nat) : string :=
  let s := str_nat n in zeros (width - String.length s) +:+ s.

(** [f"{z:0{width}d}"]: the sign, when there is one, counts in the width. *)
Definition fmt_0dZ (width : nat) (z : Z) : string :=
  if z <? 0 then "-" +:+ fmt_0d (width - 1) (Z.abs_nat z) else fmt_0d width (Z.abs_nat z).

(** Nearest integer, ties to even. *)
Definition round_half_even (q : Q) : Z :=
  let n := Qnum q in
  let d := Z.pos (Qden q) in
  let fl := n / d in
  match 2 * (n mod d) ?= d with
  | Lt => fl
  | Gt => fl + 1
  | Eq => if Z.even fl then fl else fl + 1
  end.

(** [f"{q:.2f}"] on the exact value of the float (a negative value that
    rounds to zero prints without its sign here). *)
Definition fmt_2f (q : Q) : string :=
  let c := round_half_even (q * 100)%Q in
  let a := Z.abs c in
  (if c <? 0 then "-" else "") +:+ str_Z (a / 100) +:+ "." +:+ fmt_0d 2 (Z.abs_nat (a mod 100)).

Definition Qltb (a b : Q) : bool := negb (Qle_bool b a).

(** ** hitl_module.py *)

Inductive HITLEventType : Type :=
| APPROVAL_REQUESTED | APPROVED | REJECTED | MODIFIED
| STATE_FROZEN | STATE_THAWED | TIMEOUT | DELEGATED.

#[global] Instance HITLEventType_eq_decision : EqDecision HITLEventType.
Proof. solve_decision. Defined.

Inductive InterventionLevel : Type :=
| NONE | NOTIFY | CONFIRM | APPROVE | BLOCK.

#[global] Instance InterventionLevel_eq_decision : EqDecision InterventionLevel.
Proof. solve_decision. Defined.

Definition level_value (l : InterventionLevel) : string :=
  match l with
  | NONE => "none" | NOTIFY => "notify" | CONFIRM => "confirm"
  | APPROVE => "approve" | BLOCK => "block"
  end.

(** The entries of [HITLPolicy.policies] that [evaluate] reads.  The source
    dictionary also holds [confirm_on_external_action],
    [confirm_on_cost_threshold], [confirm_on_loop_retry] and
    [confirm_on_conflicting_evidence], which no code path consults. *)
Record Policies : Type := mkPolicies {
  high_risk_tools : list string;
  always_confirm_tools : list string;
  confirm_on_final_action : bool;
  confirm_on_confidence_below : Q;
  confirm_after_n_loops : Z;
  confirm_on_missing_evidence : bool
}.

(** A custom handler is called with the cognition output and the context. *)
Definition Handler : Type := World -> loc -> loc -> InterventionLevel * string.

Record HITLPolicy : Type := mkHITLPolicy {
  policies : Policies;
  custom_handlers : gmap string Handler
}.

Definition default_policies : Policies :=
  mkPolicies ["send_email"; "cancel_trip"; "make_payment"; "delete_data"]
             ["generate_image"] true (7 # 10)%Q 10 true.

Definition HITLPolicy_init : HITLPolicy := mkHITLPolicy default_policies ∅.

Definition register_handler (p : HITLPolicy) (tool : string) (h : Handler) : HITLPolicy :=
  mkHITLPolicy (policies p) (<[tool:=h]> (custom_handlers p)).

(** [cognition_output.get("proposed_action", {})] *)
Definition cog_action (w : World) (c : CogOut) : Action :=
  match proposed_action c with
  | Some a => get_act w a
  | None => empty_action
  end.

(** Python truthiness of [cognition_output.get("evidence_refs")]. *)
Definition has_evidence_refs (c : CogOut) : bool :=
  match evidence_refs c with
  | Some (_ :: _) => true
  | _ => false
  end.

Definition evaluate (p : HITLPolicy) (w : World) (cog ctx : loc) (loop_counter : Z)
  : InterventionLevel * string :=
  let cognition_output := get_cog w cog in
  let tool := default "" (tool_name (cog_action w cognition_output)) in
  if bool_decide (tool ∈ high_risk_tools (policies p)) then
    (APPROVE, "High-risk tool: " +:+ tool)
  else if bool_decide (tool ∈ always_confirm_tools (policies p)) then
    (CONFIRM, "Confirmation required for: " +:+ tool)
  else if confirm_on_final_action (policies p) && is_final_action cognition_output then
    (CONFIRM, "Final action requires confirmation")
  else if confirm_after_n_loops (policies p) <=? loop_counter then
    (NOTIFY, "Extended loop count: " +:+ str_Z loop_counter)
  else
    let conf := default 1%Q (confidence cognition_output) in
    if Qltb conf (confirm_on_confidence_below (policies p)) then
      (CONFIRM, "Low confidence: " +:+ fmt_2f conf)
    else if confirm_on_missing_evidence (policies p) && negb (has_evidence_refs cognition_output) then
      (NOTIFY, "Missing evidence citations")
    else
      match custom_handlers p !! tool with
      | Some h => h w cog ctx
      | None => (NONE, "")
      end.

(** *** Data captured by a snapshot

    The working store and the governance rules belong to [scl_core.py];
    their value types are needed by [FrozenCognitiveState]. *)

(** An entry of [Memory.store]: [{"value", "timestamp", "evidence_id"}]. *)
Record StoreEntry : Type := mkStoreEntry {
  se_value : tree;
  se_timestamp : string;
  se_evidence_id : option string
}.

#[global] Instance StoreEntry_eq_decision : EqDecision StoreEntry.
Proof. solve_decision. Defined.

(** [Memory.get_snapshot()]: [{"store": ..., "history_length": ...}]. *)
Record MemorySnapshot : Type := mkMemorySnapshot {
  ms_store : option (gmap string StoreEntry);
  ms_history_length : nat
}.

(** [MetaPrompt.rules] *)
Record Rules : Type := mkRules {
  must_cite_stored_evidence : bool;
  no_final_answer_without_control_pass : bool;
  single_final_action : bool;
  avoid_redundant_tool_calls : bool;
  validate_conditional_branches : bool;
  require_hitl_for_high_risk : bool;
  log_all_human_decisions : bool
}.

(** [MetaPrompt.get_state()]: [{"rules": ..., "instructions": ...}]. *)
Record MetaPromptState : Type := mkMetaPromptState {
  mps_rules : Rules;
  mps_instructions : string
}.

(** *** Deep copies

    [copy.deepcopy] of a dictionary rebuilds it out of fresh cells.  The
    cells reachable from a cognition output or a context are its proposed
    actions, whose payloads are immutable trees. *)

Definition deepcopy_act (w : World) (a : loc) : World * loc :=
  alloc_act w (get_act w a).

Definition deepcopy_cog (w : World) (c : loc) : World * loc :=
  let co := get_cog w c in
  match proposed_action co with
  | Some a =>
      let '(w1, a') := deepcopy_act w a in
      alloc_cog w1 (mkCogOut (reasoning co) (Some a') (evidence_refs co)
                             (is_final_action co) (confidence co) (control_validated co))
  | None => alloc_cog w co
  end.

Definition deepcopy_cval (w : World) (v : cval) : World * cval :=
  match v with
  | CTree t => (w, CTree t)
  | CAct a => let '(w1, a') := deepcopy_act w a in (w1, CAct a')
  end.

Fixpoint deepcopy_items (w : World) (kvs : list (string * cval)) : World * list (string * cval) :=
  match kvs with
  | [] => (w, [])
  | (k, v) :: rest =>
      let '(w1, v') := deepcopy_cval w v in
      let '(w2, rest') := deepcopy_items w1 rest in
      (w2, (k, v') :: rest')
  end.

Definition deepcopy_ctx (w : World) (c : loc) : World * loc :=
  let '(w1, kvs) := deepcopy_items w (map_to_list (get_ctx w c)) in
  alloc_ctx w1 (list_to_map kvs).

(** *** Snapshots and audit events *)

Record FrozenCognitiveState : Type := mkFrozen {
  fz_freeze_id : string;
  fz_freeze_timestamp : string;
  fz_loop_counter : Z;
  fz_pending_action : loc;
  fz_cognition_output : loc;
  fz_memory_snapshot : MemorySnapshot;
  fz_evidence_cache : gmap string tree;
  fz_context : loc;
  fz_metaprompt_state : MetaPromptState;
  fz_intervention_reason : string;
  fz_intervention_level : InterventionLevel
}.

Record HITLTrace : Type := mkHITLTrace {
  tr_trace_id : string;
  tr_timestamp : string;
  tr_event_type : HITLEventType;
  tr_freeze_id : option string;
  tr_pending_action : loc;
  tr_human_decision : option string;
  tr_human_feedback : option string;
  tr_modified_action : option loc;
  tr_decision_rationale : option string;
  tr_actor : string
}.

Record HITLManager : Type := mkHITLManager {
  policy : HITLPolicy;
  frozen_states : gmap string FrozenCognitiveState;
  hitl_traces : list HITLTrace;
  freeze_counter : nat;
  trace_counter : nat
}.

Definition HITLManager_init (p : HITLPolicy) : HITLManager :=
  mkHITLManager p ∅ [] 0 0.

Definition _generate_freeze_id (m : HITLManager) : HITLManager * string :=
  let n := S (freeze_counter m) in
  (mkHITLManager (policy m) (frozen_states m) (hitl_traces m) n (trace_counter m),
   "FREEZE-" +:+ fmt_0d 4 n).

Definition _generate_trace_id (m : HITLManager) : HITLManager * string :=
  let n := S (trace_counter m) in
  (mkHITLManager (policy m) (frozen_states m) (hitl_traces m) (freeze_counter m) n,
   "HITL-" +:+ fmt_0d 4 n).

Definition check_intervention (m : HITLManager) (w : World) (cog ctx : loc) (loop_counter : Z)
  : InterventionLevel * string :=
  evaluate (policy m) w cog ctx loop_counter.

Definition _log_trace (w : World) (m : HITLManager)
    (event_type : HITLEventType) (freeze_id : option string) (pending_action : loc)
    (human_decision human_feedback : option string) (modified_action : option loc)
    (decision_rationale : option string) (actor : string)
  : World * HITLManager * HITLTrace :=
  let '(m1, trace_id) := _generate_trace_id m in
  let '(w1, ts) := now w in
  let trace := mkHITLTrace trace_id ts event_type freeze_id pending_action human_decision
                           human_feedback modified_action decision_rationale actor in
  (w1,
   mkHITLManager (policy m1) (frozen_states m1) (hitl_traces m1 ++ [trace])
                 (freeze_counter m1) (trace_counter m1),
   trace).

(** [memory_state], [evidence_cache] and [metaprompt_state] are deep-copied
    on entry and the copies are never shared, so they are carried by value;
    [cognition_output] and [context] are references to live dictionaries. *)
Definition freeze_state (w : World) (m : HITLManager)
    (loop_counter : Z) (cognition_output : loc) (memory_state : MemorySnapshot)
    (evidence_cache : gmap string tree) (context : loc)
    (metaprompt_state : MetaPromptState)
    (intervention_level : InterventionLevel) (intervention_reason : string)
  : World * HITLManager * FrozenCognitiveState :=
  let '(m1, freeze_id) := _generate_freeze_id m in
  let '(w1, ts) := now w in
  let '(w2, pending) :=
    match proposed_action (get_cog w1 cognition_output) with
    | Some a => (w1, a)
    | None => alloc_act w1 empty_action
    end in
  let '(w3, cog') := deepcopy_cog w2 cognition_output in
  let '(w4, ctx') := deepcopy_ctx w3 context in
  let frozen := mkFrozen freeze_id ts loop_counter pending cog' memory_state evidence_cache
                         ctx' metaprompt_state intervention_reason intervention_level in
  let m2 := mkHITLManager (policy m1) (<[freeze_id:=frozen]> (frozen_states m1))
                          (hitl_traces m1) (freeze_counter m1) (trace_counter m1) in
  let '(w5, m3, _) := _log_trace w4 m2 STATE_FROZEN (Some freeze_id) pending
                                 None None None None "system" in
  (w5, m3, frozen).

Definition thaw_state (w : World) (m : HITLManager) (freeze_id : string)
  : World * HITLManager * option FrozenCognitiveState :=
  match frozen_states m !! freeze_id with
  | None => (w, m, None)
  | Some frozen =>
      let '(w1, m1, _) := _log_trace w m STATE_THAWED (Some freeze_id) (fz_pending_action frozen)
                                     None None None None "system" in
      (w1, m1, Some frozen)
  end.

(** The approval request handed to the decision source.  The source
    truncates the task and the printed last action result to 200 characters
    for display; the request carries them whole here. *)
Record Request : Type := mkRequest {
  rq_freeze_id : string;
  rq_timestamp : string;
  rq_intervention_level : string;
  rq_intervention_reason : string;
  rq_pending_action : loc;
  rq_cognition_reasoning : string;
  rq_evidence_refs : list string;
  rq_loop_counter : Z;
  rq_task : option cval;
  rq_last_action : option cval;
  rq_options : list string
}.

Definition request_approval (w : World) (m : HITLManager) (frozen_state : FrozenCognitiveState)
  : World * HITLManager * Request :=
  let '(w1, m1, _) := _log_trace w m APPROVAL_REQUESTED (Some (fz_freeze_id frozen_state))
                                 (fz_pending_action frozen_state) None None None None "system" in
  let '(w2, ts) := now w1 in
  let co := get_cog w2 (fz_cognition_output frozen_state) in
  let ctx := get_ctx w2 (fz_context frozen_state) in
  (w2, m1,
   mkRequest (fz_freeze_id frozen_state) ts
             (level_value (fz_intervention_level frozen_state))
             (fz_intervention_reason frozen_state)
             (fz_pending_action frozen_state)
             (default "" (reasoning co))
             (default [] (evidence_refs co))
             (fz_loop_counter frozen_state)
             (ctx !! "task") (ctx !! "last_action_result")
             ["approve"; "reject"; "modify"]).

Inductive NextAction : Type :=
| NAExecute (proposed : loc)
| NARetry (rejection_feedback : string) (virtual_rejection_cycle : bool).

Inductive DecisionResult : Type :=
| DError (error : string)
| DProcessed (decision trace_id freeze_id : string) (next_action : NextAction).

(** Truthiness of an optional dictionary: [None] and [{}] are falsy. *)
Definition truthy_act (w : World) (a : option loc) : option loc :=
  match a with
  | Some l => if decide (get_act w l = empty_action) then None else Some l
  | None => None
  end.

Definition _determine_next_action (w : World) (decision : string)
    (frozen : FrozenCognitiveState) (modified_action : option loc) : NextAction :=
  if decide (decision = "approve") then NAExecute (fz_pending_action frozen)
  else if decide (decision = "modify") then
    NAExecute (default (fz_pending_action frozen) (truthy_act w modified_action))
  else
    NARetry (default "" (reasoning (get_cog w (fz_cognition_output frozen)))) true.

Definition decision_event (decision : string) : option HITLEventType :=
  if decide (decision = "approve") then Some APPROVED
  else if decide (decision = "reject") then Some REJECTED
  else if decide (decision = "modify") then Some MODIFIED
  else None.

Definition process_human_decision (w : World) (m : HITLManager)
    (freeze_id decision : string) (feedback : option string)
    (modified_action : option loc) (rationale : option string)
  : World * HITLManager * DecisionResult :=
  match frozen_states m !! freeze_id with
  | None => (w, m, DError ("Frozen state not found: " +:+ freeze_id))
  | Some frozen =>
      match decision_event decision with
      | None => (w, m, DError ("Invalid decision: " +:+ decision))
      | Some event_type =>
          let '(w1, m1, trace) :=
            _log_trace w m event_type (Some freeze_id) (fz_pending_action frozen)
                       (Some decision) feedback modified_action rationale "human" in
          (w1, m1,
           DProcessed decision (tr_trace_id trace) freeze_id
                      (_determine_next_action w1 decision frozen modified_action))
      end
  end.

(** The dictionary built by [create_virtual_rejection_cycle]. *)
Record RejectionCycle : Type := mkRejectionCycle {
  rc_cycle_type : string;
  rc_original_cognition : loc;
  rc_rejection_reason : string;
  rc_context_update : gmap string cval;
  rc_memory_state : MemorySnapshot;
  rc_evidence_cache : gmap string tree
}.

Definition create_virtual_rejection_cycle (frozen : FrozenCognitiveState)
    (rejection_reason : string) : RejectionCycle :=
  mkRejectionCycle "virtual_rejection" (fz_cognition_output frozen) rejection_reason
    (<["human_rejected" := CTree (TBool true)]>
       (<["rejection_reason" := CTree (TStr rejection_reason)]>
          (<["previous_proposal" := CAct (fz_pending_action frozen)]>
             (<["retry_guidance" :=
                  CTree (TStr "Consider alternative approaches based on human feedback")]> ∅))))
    (fz_memory_snapshot frozen) (fz_evidence_cache frozen).

Definition cleanup_frozen_state (m : HITLManager) (freeze_id : string) : HITLManager :=
  mkHITLManager (policy m) (delete freeze_id (frozen_states m)) (hitl_traces m)
                (freeze_counter m) (trace_counter m).

(** *** Audit log views

    [to_dict] goes through [dataclasses.asdict], which copies every
    dictionary it meets: a reference is replaced by the contents its cell
    has at that moment. *)

Inductive rval : Type :=
| RTree (t : tree)
| RAct (a : Action).

Definition resolve_cval (w : World) (v : cval) : rval :=
  match v with
  | CTree t => RTree t
  | CAct a => RAct (get_act w a)
  end.

Definition resolve_ctx (w : World) (c : loc) : gmap string rval :=
  resolve_cval w <$> get_ctx w c.

Record CogView : Type := mkCogView {
  cv_reasoning : option string;
  cv_proposed_action : option Action;
  cv_evidence_refs : option (list string);
  cv_is_final_action : bool;
  cv_confidence : option Q;
  cv_control_validated : bool
}.

Definition resolve_cog (w : World) (c : loc) : CogView :=
  let co := get_cog w c in
  mkCogView (reasoning co) (get_act w <$> proposed_action co) (evidence_refs co)
            (is_final_action co) (confidence co) (control_validated co).

Record FrozenView : Type := mkFrozenView {
  fv_freeze_id : string;
  fv_freeze_timestamp : string;
  fv_loop_counter : Z;
  fv_pending_action : Action;
  fv_cognition_output : CogView;
  fv_memory_snapshot : MemorySnapshot;
  fv_evidence_cache : gmap string tree;
  fv_context : gmap string rval;
  fv_metaprompt_state : MetaPromptState;
  fv_intervention_reason : string;
  fv_intervention_level : string
}.

Definition frozen_to_dict (w : World) (f : FrozenCognitiveState) : FrozenView :=
  mkFrozenView (fz_freeze_id f) (fz_freeze_timestamp f) (fz_loop_counter f)
               (get_act w (fz_pending_action f)) (resolve_cog w (fz_cognition_output f))
               (fz_memory_snapshot f) (fz_evidence_cache f) (resolve_ctx w (fz_context f))
               (fz_metaprompt_state f) (fz_intervention_reason f)
               (level_value (fz_intervention_level f)).

Definition event_value (e : HITLEventType) : string :=
  match e with
  | APPROVAL_REQUESTED => "approval_requested" | APPROVED => "approved"
  | REJECTED => "rejected" | MODIFIED => "modified"
  | STATE_FROZEN => "state_frozen" | STATE_THAWED => "state_thawed"
  | TIMEOUT => "timeout" | DELEGATED => "delegated"
  end.

Record HITLTraceView : Type := mkHITLTraceView {
  tv_trace_id : string;
  tv_timestamp : string;
  tv_event_type : string;
  tv_freeze_id : option string;
  tv_pending_action : Action;
  tv_human_decision : option string;
  tv_human_feedback : option string;
  tv_modified_action : option Action;
  tv_decision_rationale : option string;
  tv_actor : string
}.

Definition trace_to_dict (w : World) (t : HITLTrace) : HITLTraceView :=
  mkHITLTraceView (tr_trace_id t) (tr_timestamp t) (event_value (tr_event_type t))
                  (tr_freeze_id t) (get_act w (tr_pending_action t)) (tr_human_decision t)
                  (tr_human_feedback t) (get_act w <$> tr_modified_action t)
                  (tr_decision_rationale t) (tr_actor t).

Definition count_events (e : HITLEventType) (ts : list HITLTrace) : nat :=
  length (filter (λ t, tr_event_type t = e) ts).

Record Statistics : Type := mkStatistics {
  total_interventions : nat;
  approvals : nat;
  rejections : nat;
  modifications : nat;
  frozen_states_count : nat
}.

Record AuditLog : Type := mkAuditLog {
  hitl_events : list HITLTraceView;
  al_frozen_states : gmap string FrozenView;
  statistics : Statistics
}.

Definition get_audit_log (w : World) (m : HITLManager) : AuditLog :=
  mkAuditLog (trace_to_dict w <$> hitl_traces m)
             (frozen_to_dict w <$> frozen_states m)
             (mkStatistics (length (hitl_traces m))
                           (count_events APPROVED (hitl_traces m))
                           (count_events REJECTED (hitl_traces m))
                           (count_events MODIFIED (hitl_traces m))
                           (size (frozen_states m))).

(** *** The console handler

    [h_input] stands for the operator at the console: the choice entered
    for a displayed request at a given logical time.  Entries the source
    rejects and asks again for (an unknown letter, malformed JSON) are not
    choices. *)

Inductive HumanChoice : Type :=
| HApprove (rationale : option string)
| HReject (feedback : string)
| HModify (mod_params : tree).

Record InteractiveHITLHandler : Type := mkHandler {
  auto_approve : bool;
  h_input : nat -> Request -> HumanChoice
}.

Definition _auto_approve (w : World) (m : HITLManager) (request : Request)
  : World * HITLManager * DecisionResult :=
  process_human_decision w m (rq_freeze_id request) "approve" None None
                         (Some "Auto-approved for testing").

Definition _interactive_prompt (h : InteractiveHITLHandler) (w : World) (m : HITLManager)
    (request : Request) : World * HITLManager * DecisionResult :=
  match h_input h (clock w) request with
  | HApprove rationale =>
      process_human_decision w m (rq_freeze_id request) "approve" None None rationale
  | HReject feedback =>
      process_human_decision w m (rq_freeze_id request) "reject" (Some feedback) None
                             (Some "Human rejected action")
  | HModify mod_params =>
      let '(w1, modified_action) :=
        alloc_act w (mkAction (tool_name (get_act w (rq_pending_action request)))
                              (Some mod_params)) in
      process_human_decision w1 m (rq_freeze_id request) "modify" None (Some modified_action)
                             (Some "Human modified action parameters")
  end.

Definition handle_intervention (h : InteractiveHITLHandler) (w : World) (m : HITLManager)
    (request : Request) : World * HITLManager * DecisionResult :=
  if auto_approve h then _auto_approve w m request
  else _interactive_prompt h w m request.

(** ** scl_core.py *)

Inductive ModuleType : Type :=
| RETRIEVAL | COGNITION | CONTROL | ACTION | MEMORY | HITL.

Definition module_value (m : ModuleType) : string :=
  match m with
  | RETRIEVAL => "Retrieval" | COGNITION => "Cognition" | CONTROL => "Control"
  | ACTION => "Action" | MEMORY => "Memory" | HITL => "HITL"
  end.

(** What a loop trace holds as input or output state: a dictionary built
    for the trace alone, or a reference to a dictionary that lives on. *)
Inductive sval : Type :=
| SVTree (t : tree)
| SVCtx (c : loc)
| SVCog (c : loc)
| SVAct (a : loc)
| SVDecision (r : DecisionResult).

Record LoopTrace : Type := mkLoopTrace {
  lt_loop_id : string;
  lt_timestamp : string;
  lt_module : string;
  lt_input_state : sval;
  lt_output_state : sval;
  lt_decision : option string;
  lt_validation_result : option bool;
  lt_evidence_refs : option (list string);
  lt_hitl_event : option DecisionResult
}.

(** *** MetaPrompt *)

Record MetaPrompt : Type := mkMetaPrompt {
  rules : Rules;
  instructions : string
}.

Definition default_instructions : string :=
  "You are operating under Soft Symbolic Control within a Structured Cognitive Loop.
MANDATORY CONSTRAINTS:
1. Always consult Memory before proposing actions
2. Cite evidence from Retrieval/Memory in all reasoning
3. Never execute final actions without Control validation
4. Apply conditional logic exactly as specified
5. Avoid redundant tool calls by checking Memory first
6. High-risk actions require Human-in-the-Loop approval
REASONING PROTOCOL:
- State current goal explicitly
- Reference stored evidence by ID
- Propose action with clear rationale
- Wait for Control validation before execution
- Accept and incorporate human feedback when provided".

Definition MetaPrompt_init : MetaPrompt :=
  mkMetaPrompt (mkRules true true true true true true true) default_instructions.

Definition rule_names : list string :=
  ["must_cite_stored_evidence"; "no_final_answer_without_control_pass";
   "single_final_action"; "avoid_redundant_tool_calls"; "validate_conditional_branches";
   "require_hitl_for_high_risk"; "log_all_human_decisions"].

Definition get_state (mp : MetaPrompt) : MetaPromptState :=
  mkMetaPromptState (rules mp) (instructions mp).

Fixpoint join (sep : string) (l : list string) : string :=
  match l with
  | [] => ""
  | [x] => x
  | x :: rest => x +:+ sep +:+ join sep rest
  end.

(** The violations [MetaPrompt.validate] accumulates, in order. *)
Definition issues (mp : MetaPrompt) (co : CogOut) : list string :=
  (if must_cite_stored_evidence (rules mp) && negb (has_evidence_refs co)
   then ["Missing evidence citations"] else [])
  ++ (if is_final_action co && negb (control_validated co)
      then ["Final action without Control validation"] else []).

Definition validate (mp : MetaPrompt) (co : CogOut) : bool * string :=
  let is_valid := bool_decide (length (issues mp co) = 0%nat) in
  (is_valid, if is_valid then "PASS" else "VIOLATIONS: " +:+ join "; " (issues mp co)).

(** *** Memory *)

Record Memory : Type := mkMemory {
  store : gmap string StoreEntry;
  history : list LoopTrace;
  evidence_cache : gmap string tree
}.

Definition Memory_init : Memory := mkMemory ∅ [] ∅.

Definition write (w : World) (mem : Memory) (key : string) (value : tree)
    (evidence_id : option string) : World * Memory :=
  let '(w1, ts) := now w in
  (w1, mkMemory (<[key := mkStoreEntry value ts evidence_id]> (store mem))
                (history mem) (evidence_cache mem)).

Definition read (mem : Memory) (key : string) : option tree :=
  se_value <$> store mem !! key.

Definition has_evidence (mem : Memory) (evidence_id : string) : bool :=
  bool_decide (is_Some (evidence_cache mem !! evidence_id)).

Definition store_evidence (mem : Memory) (evidence_id : string) (data : tree) : Memory :=
  mkMemory (store mem) (history mem) (<[evidence_id := data]> (evidence_cache mem)).

Definition get_evidence (mem : Memory) (evidence_id : string) : option tree :=
  evidence_cache mem !! evidence_id.

Definition log_trace (mem : Memory) (trace : LoopTrace) : Memory :=
  mkMemory (store mem) (history mem ++ [trace]) (evidence_cache mem).

(** [available_evidence] lists the keys of the cache; the model does not
    track the insertion order of a dictionary. *)
Record StateSummary : Type := mkStateSummary {
  stored_values : gmap string tree;
  available_evidence : list string;
  loop_count : nat
}.

Definition get_state_summary (mem : Memory) : StateSummary :=
  mkStateSummary (se_value <$> store mem) ((map_to_list (evidence_cache mem)).*1)
                 (length (history mem)).

Definition get_snapshot (mem : Memory) : MemorySnapshot :=
  mkMemorySnapshot (Some (store mem)) (length (history mem)).

Definition restore_snapshot (mem : Memory) (snapshot : MemorySnapshot) : Memory :=
  mkMemory (default ∅ (ms_store snapshot)) (history mem) (evidence_cache mem).

Definition get_evidence_snapshot (mem : Memory) : gmap string tree := evidence_cache mem.

Definition restore_evidence (mem : Memory) (evidence_snapshot : gmap string tree) : Memory :=
  mkMemory (store mem) (history mem) evidence_snapshot.

(** *** ToolRegistry

    A registered function is opaque: given the logical time and its keyword
    arguments it returns a result or raises an [Exception], the message of
    the exception being what [str(e)] yields.  What [except Exception]
    does not catch (an interrupt, an exit) is not modelled. *)

Record ToolEntry : Type := mkToolEntry {
  te_function : nat -> tree -> tree + string;
  te_description : string;
  te_name : string
}.

Definition register (tools : gmap string ToolEntry) (name : string)
    (func : nat -> tree -> tree + string) (description : string) : gmap string ToolEntry :=
  <[name := mkToolEntry func description name]> tools.

Definition get_tool_descriptions (tools : gmap string ToolEntry) : list (string * string) :=
  (λ kv, (te_name kv.2, te_description kv.2)) <$> map_to_list tools.

Definition execute (tools : gmap string ToolEntry) (t : nat) (name : string) (kwargs : tree)
  : tree + string :=
  match tools !! name with
  | None => inr ("Tool '" +:+ name +:+ "' not registered")
  | Some e => te_function e t kwargs
  end.

(** *** The loop object *)

(** The material interpolated into the cognition prompt. *)
Record Prompt : Type := mkPrompt {
  pr_instructions : string;
  pr_hitl_context : option (option rval * option rval);
  pr_state_summary : StateSummary;
  pr_available_tools : list (string * string);
  pr_context : gmap string rval
}.

(** The reasoning oracle is opaque and may answer differently each time:
    its answer depends on the logical time and on the prompt.  It returns
    a fresh dictionary. *)
Record SCL : Type := mkSCL {
  cognition_engine : nat -> Prompt -> CogView;
  tools : gmap string ToolEntry;
  metaprompt : MetaPrompt;
  memory : Memory;
  max_loops : Z;
  loop_counter : Z;
  hitl_manager : HITLManager;
  hitl_mode : string;
  hitl_handler : option InteractiveHITLHandler;
  _is_resumed : bool;
  _resume_context : option (gmap string cval);
  world : World
}.

(** [StructuredCognitiveLoopWithHITL.__init__]; [console] is the operator
    behind an interactive handler. *)
Definition SCL_init (engine : nat -> Prompt -> CogView) (registry : gmap string ToolEntry)
    (mp : MetaPrompt) (hitl_policy : HITLPolicy) (max : Z) (mode : string)
    (console : nat -> Request -> HumanChoice) (w : World) : SCL :=
  mkSCL engine registry mp Memory_init max 0 (HITLManager_init hitl_policy) mode
        (if decide (mode = "auto") then Some (mkHandler true console)
         else if decide (mode = "interactive") then Some (mkHandler false console)
         else None)
        false None w.

Definition set_memory (s : SCL) (mem : Memory) : SCL :=
  mkSCL (cognition_engine s) (tools s) (metaprompt s) mem (max_loops s) (loop_counter s)
        (hitl_manager s) (hitl_mode s) (hitl_handler s) (_is_resumed s) (_resume_context s)
        (world s).

Definition set_loop_counter (s : SCL) (n : Z) : SCL :=
  mkSCL (cognition_engine s) (tools s) (metaprompt s) (memory s) (max_loops s) n
        (hitl_manager s) (hitl_mode s) (hitl_handler s) (_is_resumed s) (_resume_context s)
        (world s).

Definition set_hitl_manager (s : SCL) (m : HITLManager) : SCL :=
  mkSCL (cognition_engine s) (tools s) (metaprompt s) (memory s) (max_loops s) (loop_counter s)
        m (hitl_mode s) (hitl_handler s) (_is_resumed s) (_resume_context s) (world s).

Definition set_is_resumed (s : SCL) (b : bool) : SCL :=
  mkSCL (cognition_engine s) (tools s) (metaprompt s) (memory s) (max_loops s) (loop_counter s)
        (hitl_manager s) (hitl_mode s) (hitl_handler s) b (_resume_context s) (world s).

Definition set_resume_context (s : SCL) (rc : option (gmap string cval)) : SCL :=
  mkSCL (cognition_engine s) (tools s) (metaprompt s) (memory s) (max_loops s) (loop_counter s)
        (hitl_manager s) (hitl_mode s) (hitl_handler s) (_is_resumed s) rc (world s).

Definition set_world (s : SCL) (w : World) : SCL :=
  mkSCL (cognition_engine s) (tools s) (metaprompt s) (memory s) (max_loops s) (loop_counter s)
        (hitl_manager s) (hitl_mode s) (hitl_handler s) (_is_resumed s) (_resume_context s) w.

(** [context[key] = value] and [context.pop(key, None)] on a live context. *)
Definition ctx_set (w : World) (ctx : loc) (key : string) (v : cval) : World :=
  set_ctx w ctx (<[key := v]> (get_ctx w ctx)).

Definition ctx_pop (w : World) (ctx : loc) (key : string) : World :=
  set_ctx w ctx (delete key (get_ctx w ctx)).

(** [context.update(patch)] *)
Definition ctx_update (w : World) (ctx : loc) (patch : gmap string cval) : World :=
  set_ctx w ctx (patch ∪ get_ctx w ctx).

Definition retrieval_plan : tree :=
  TDict [("evidence_needed", TList [TStr "SF_weather"; TStr "Miami_weather"; TStr "Atlanta_weather"]);
         ("base_temperature", TInt 55);
         ("conditions_parsed", TBool true);
         ("tools_required", TList [TStr "get_weather"; TStr "send_email";
                                   TStr "generate_image"; TStr "cancel_trip"])].

Definition retrieval (s : SCL) (task : string) : SCL * tree :=
  let plan := retrieval_plan in
  let '(w1, mem1) := write (world s) (memory s) "task" (TStr task) None in
  let '(w2, mem2) := write w1 mem1 "retrieval_plan" plan None in
  let '(w3, ts) := now w2 in
  let trace := mkLoopTrace "R-001" ts (module_value RETRIEVAL)
                           (SVTree (TDict [("task", TStr task)])) (SVTree plan)
                           None None None None in
  (set_world (set_memory s (log_trace mem2 trace)) w3, plan).

(** Python truthiness of a payload and of a context value. *)
Definition truthy_tree (t : tree) : bool :=
  match t with
  | TNone => false
  | TBool b => b
  | TInt z => negb (z =? 0)
  | TStr s => negb (String.eqb s "")
  | TList ts => negb (bool_decide (ts = []))
  | TDict kvs => negb (bool_decide (kvs = []))
  end.

Definition truthy_cval (w : World) (v : option cval) : bool :=
  match v with
  | None => false
  | Some (CTree t) => truthy_tree t
  | Some (CAct a) => negb (bool_decide (get_act w a = empty_action))
  end.

(** The response dictionary of the oracle, placed in fresh cells. *)
Definition alloc_response (w : World) (r : CogView) : World * loc :=
  match cv_proposed_action r with
  | Some a =>
      let '(w1, la) := alloc_act w a in
      alloc_cog w1 (mkCogOut (cv_reasoning r) (Some la) (cv_evidence_refs r)
                             (cv_is_final_action r) (cv_confidence r) (cv_control_validated r))
  | None =>
      alloc_cog w (mkCogOut (cv_reasoning r) None (cv_evidence_refs r)
                            (cv_is_final_action r) (cv_confidence r) (cv_control_validated r))
  end.

Definition cognition_prompt (s : SCL) (context : loc) : Prompt :=
  let w := world s in
  let ctx := get_ctx w context in
  mkPrompt (instructions (metaprompt s))
           (if truthy_cval w (ctx !! "human_rejected")
            then Some (resolve_cval w <$> ctx !! "rejection_reason",
                       resolve_cval w <$> ctx !! "retry_guidance")
            else None)
           (get_state_summary (memory s))
           (get_tool_descriptions (tools s))
           (resolve_ctx w context).

Definition cognition (s : SCL) (context : loc) : SCL * loc :=
  let s1 := set_loop_counter s (loop_counter s + 1) in
  let loop_id := "CCAM-" +:+ fmt_0dZ 3 (loop_counter s1) in
  let response := cognition_engine s1 (clock (world s1)) (cognition_prompt s1 context) in
  let '(w1, cog) := alloc_response (world s1) response in
  let '(w2, ts) := now w1 in
  let trace := mkLoopTrace loop_id ts (module_value COGNITION) (SVCtx context) (SVCog cog)
                           None None (cv_evidence_refs response) None in
  (set_world (set_memory s1 (log_trace (memory s1) trace)) w2, cog).

Section Loop.

(** [json.dumps(_, sort_keys=True)], a function of the standard library. *)
Variable json_dumps : tree -> string.

Definition evidence_key (tool : string) (params : tree) : string :=
  "evidence_" +:+ tool +:+ "_" +:+ json_dumps params.

(** Python truthiness of [proposed_action.get("tool_name")]. *)
Definition truthy_name (a : Action) : option string :=
  match tool_name a with
  | Some t => if String.eqb t "" then None else Some t
  | None => None
  end.

(** The key of the duplicate-call check; the source derives one only for a
    truthy tool name. *)
Definition duplicate_key (w : World) (co : CogOut) : option string :=
  let pa := cog_action w co in
  match truthy_name pa with
  | Some t => Some (evidence_key t (default (TDict []) (parameters pa)))
  | None => None
  end.

Definition mark_validated (co : CogOut) : CogOut :=
  mkCogOut (reasoning co) (proposed_action co) (evidence_refs co) (is_final_action co)
           (confidence co) true.

Definition control (s : SCL) (cognition_output : loc) : SCL * (bool * string) :=
  let w0 := world s in
  let w1 := if is_final_action (get_cog w0 cognition_output)
            then set_cog w0 cognition_output (mark_validated (get_cog w0 cognition_output))
            else w0 in
  let co := get_cog w1 cognition_output in
  let '(is_valid, message) := validate (metaprompt s) co in
  let '(is_valid, message) :=
    match duplicate_key w1 co with
    | Some evidence_id =>
        if has_evidence (memory s) evidence_id
        then (false, "REJECTED: Redundant tool call (evidence already in Memory)")
        else (is_valid, message)
    | None => (is_valid, message)
    end in
  let '(w2, ts) := now w1 in
  let trace := mkLoopTrace ("CTL-" +:+ fmt_0dZ 3 (loop_counter s)) ts (module_value CONTROL)
                           (SVCog cognition_output)
                           (SVTree (TDict [("validation", TBool is_valid);
                                           ("message", TStr message)]))
                           None (Some is_valid) None None in
  (set_world (set_memory s (log_trace (memory s) trace)) w2, (is_valid, message)).

(** *** Equality of payloads

    [hitl_check] compares the action to execute with the proposed one by
    Python's [!=].  On dictionaries [==] ignores the order of the keys, on
    numbers it identifies [True] with [1] and [False] with [0], and
    values of different kinds are never equal. *)

(** [d.get(k)] on a dictionary payload. *)
Fixpoint dict_get (k : string) (kvs : list (string * tree)) : option tree :=
  match kvs with
  | [] => None
  | (k', v) :: rest => if String.eqb k k' then Some v else dict_get k rest
  end.

Fixpoint py_eq (a b : tree) {struct a} : bool :=
  match a, b with
  | TNone, TNone => true
  | TBool x, TBool y => Bool.eqb x y
  | TBool x, TInt z => Z.b2z x =? z
  | TInt z, TBool x => z =? Z.b2z x
  | TInt x, TInt y => x =? y
  | TStr x, TStr y => String.eqb x y
  | TList xs, TList ys =>
      (fix elements (xs ys : list tree) : bool :=
         match xs, ys with
         | [], [] => true
         | x :: xs', y :: ys' => py_eq x y && elements xs' ys'
         | _, _ => false
         end) xs ys
  | TDict kvs, TDict kvs' =>
      (length kvs =? length kvs')%nat
      && (fix items (kvs : list (string * tree)) : bool :=
            match kvs with
            | [] => true
            | (k, v) :: rest =>
                match dict_get k kvs' with
                | Some v' => py_eq v v'
                | None => false
                end && items rest
            end) kvs
  | _, _ => false
  end.

(** [==] on two action dictionaries. *)
Definition act_py_eq (a b : Action) : bool :=
  bool_decide (tool_name a = tool_name b)
  && match parameters a, parameters b with
     | None, None => true
     | Some p, Some q => py_eq p q
     | _, _ => false
     end.

(** [not (modified != cognition_output.get("proposed_action"))]: a
    dictionary equals itself, and otherwise the contents are compared;
    [None], the value of a missing proposal, equals no dictionary. *)
Definition same_action (w : World) (modified : loc) (proposed : option loc) : bool :=
  match proposed with
  | Some a => bool_decide (modified = a) || act_py_eq (get_act w modified) (get_act w a)
  | None => false
  end.

(** Second component of the result of [hitl_check]: [None], a modified
    action, or [{"virtual_rejection": True}]. *)
Inductive Modified : Type :=
| MNone
| MAction (a : loc)
| MVirtualRejection.

Definition hitl_check (s : SCL) (cognition_output context : loc) : SCL * (bool * Modified) :=
  if decide (hitl_mode s = "disabled") then (s, (true, MNone))
  else
    let '(intervention_level, reason) :=
      check_intervention (hitl_manager s) (world s) cognition_output context (loop_counter s) in
    if decide (intervention_level = NONE) then (s, (true, MNone))
    else
      let '(w1, m1, frozen_state) :=
        freeze_state (world s) (hitl_manager s) (loop_counter s) cognition_output
                     (get_snapshot (memory s)) (get_evidence_snapshot (memory s)) context
                     (get_state (metaprompt s)) intervention_level reason in
      let '(w2, m2, request) := request_approval w1 m1 frozen_state in
      let handled :=
        match hitl_handler s with
        | Some h => Some (handle_intervention h w2 m2 request)
        | None =>
            if decide (intervention_level = NOTIFY)
            then Some (process_human_decision w2 m2 (fz_freeze_id frozen_state) "approve"
                                              None None (Some "Auto-approved (notify level)"))
            else None
        end in
      match handled with
      | None => (set_world (set_hitl_manager s m2) w2, (false, MNone))
      | Some (w3, m3, result) =>
          let '(w4, ts) := now w3 in
          let hitl_trace :=
            mkLoopTrace ("HITL-" +:+ fmt_0dZ 3 (loop_counter s)) ts (module_value HITL)
                        (SVTree (TDict [("freeze_id", TStr (fz_freeze_id frozen_state));
                                        ("level", TStr (level_value intervention_level))]))
                        (SVDecision result) None None None (Some result) in
          let s1 := set_memory s (log_trace (memory s) hitl_trace) in
          match result with
          | DProcessed _ _ _ (NAExecute modified) =>
              let '(w5, m4, _) := thaw_state w4 m3 (fz_freeze_id frozen_state) in
              let s2 := set_world (set_hitl_manager s1 m4) w5 in
              if same_action w5 modified (proposed_action (get_cog w5 cognition_output))
              then (s2, (true, MNone))
              else (s2, (true, MAction modified))
          | DProcessed _ _ _ (NARetry _ _) =>
              let '(w5, m4, _) := thaw_state w4 m3 (fz_freeze_id frozen_state) in
              let rejection_cycle :=
                create_virtual_rejection_cycle frozen_state "Human rejected the action" in
              (set_resume_context (set_world (set_hitl_manager s1 m4) w5)
                                  (Some (rc_context_update rejection_cycle)),
               (false, MVirtualRejection))
          | DError _ => (set_world (set_hitl_manager s1 m3) w4, (false, MNone))
          end
      end.

Definition no_action_result : tree :=
  TDict [("status", TStr "no_action"); ("result", TNone)].

Definition error_result (e : string) : tree :=
  TDict [("status", TStr "error"); ("message", TStr ("Action execution failed: " +:+ e))].

Definition action (s : SCL) (cognition_output : loc) (modified_action : option loc)
  : SCL * tree :=
  let w := world s in
  let proposed :=
    match truthy_act w modified_action with
    | Some l => Some l
    | None => proposed_action (get_cog w cognition_output)
    end in
  match proposed with
  | None => (s, no_action_result)
  | Some l =>
      let pa := get_act w l in
      match truthy_name pa with
      | None => (s, no_action_result)
      | Some tool =>
          let params := default (TDict []) (parameters pa) in
          match execute (tools s) (clock w) tool params with
          | inl result =>
              let evidence_id := evidence_key tool params in
              let mem1 := store_evidence (memory s) evidence_id result in
              let '(w1, ts) := now w in
              let trace :=
                mkLoopTrace ("ACT-" +:+ fmt_0dZ 3 (loop_counter s)) ts (module_value ACTION)
                            (SVAct l)
                            (SVTree (TDict [("result", result);
                                            ("evidence_id", TStr evidence_id)]))
                            None None None None in
              (set_world (set_memory s (log_trace mem1 trace)) w1, result)
          | inr e => (s, error_result e)
          end
      end
  end.

(** Which statement ended the [while] loop: the [break] after a final
    action, the [break] of a blocked intervention, or the loop condition. *)
Inductive LoopExit : Type :=
| ExitCompleted
| ExitBlocked
| ExitExhausted.

Definition modified_arg (m : Modified) : option loc :=
  match m with
  | MAction a => Some a
  | _ => None
  end.

(** Python truthiness of [self._resume_context]. *)
Definition pending_resume (s : SCL) : option (gmap string cval) :=
  match _resume_context s with
  | Some rc => if decide (rc = ∅) then None else Some rc
  | None => None
  end.

Definition merge_resume_context (s : SCL) (context : loc) : SCL :=
  match pending_resume s with
  | Some rc => set_resume_context (set_world s (ctx_update (world s) context rc)) None
  | None => s
  end.

Definition clear_rejection (w : World) (context : loc) : World :=
  ctx_pop (ctx_pop (ctx_pop w context "human_rejected") context "rejection_reason")
          context "retry_guidance".

(** The loops of [run] and of [_continue_execution] have the same body,
    except that only [run] merges a pending [_resume_context] at the top of
    an iteration ([merge] tells which loop this is).  [iteration] is one
    pass through that body: it ends in a [break] ([Some] exit) or goes on
    with the next test of the loop condition ([None]). *)
Definition iteration (merge : bool) (s : SCL) (context : loc) : SCL * option LoopExit :=
  let s0 := if merge then merge_resume_context s context else s in
  let '(s1, cognition_output) := cognition s0 context in
  let s2 := set_world s1 (clear_rejection (world s1) context) in
  let '(s3, (is_valid, validation_msg)) := control s2 cognition_output in
  if negb is_valid then
    (set_world s3 (ctx_set (world s3) context "last_rejection" (CTree (TStr validation_msg))),
     None)
  else
    let '(s4, (should_proceed, modified_action)) := hitl_check s3 cognition_output context in
    if negb should_proceed then
      match modified_action with
      | MVirtualRejection => (s4, None)
      | _ => (s4, Some ExitBlocked)
      end
    else
      let '(s5, action_result) := action s4 cognition_output (modified_arg modified_action) in
      let s6 := set_world s5 (ctx_set (world s5) context "last_action_result"
                                      (CTree action_result)) in
      if is_final_action (get_cog (world s6) cognition_output)
      then (s6, Some ExitCompleted)
      else (s6, None).

(** Each iteration advances the loop counter, so [max_loops - loop_counter]
    iterations are enough; [fuel] is that bound. *)
Fixpoint ccam_loop (merge : bool) (fuel : nat) (s : SCL) (context : loc) : SCL * LoopExit :=
  match fuel with
  | O => (s, ExitExhausted)
  | S fuel' =>
      if loop_counter s <? max_loops s then
        let '(s', exit) := iteration merge s context in
        match exit with
        | Some e => (s', e)
        | None => ccam_loop merge fuel' s' context
        end
      else (s, ExitExhausted)
  end.

Definition loop_fuel (s : SCL) : nat := Z.to_nat (max_loops s - loop_counter s).

(** *** The audit report *)

Inductive sview : Type :=
| VwTree (t : tree)
| VwCtx (c : gmap string rval)
| VwCog (c : CogView)
| VwAct (a : Action)
| VwDecision (r : DecisionResult) (proposed : option Action).

Definition decision_view (w : World) (r : DecisionResult) : sview :=
  VwDecision r match r with
               | DProcessed _ _ _ (NAExecute a) => Some (get_act w a)
               | _ => None
               end.

Definition resolve_sval (w : World) (v : sval) : sview :=
  match v with
  | SVTree t => VwTree t
  | SVCtx c => VwCtx (resolve_ctx w c)
  | SVCog c => VwCog (resolve_cog w c)
  | SVAct a => VwAct (get_act w a)
  | SVDecision r => decision_view w r
  end.

Record LoopTraceView : Type := mkLoopTraceView {
  lv_loop_id : string;
  lv_timestamp : string;
  lv_module : string;
  lv_input_state : sview;
  lv_output_state : sview;
  lv_decision : option string;
  lv_validation_result : option bool;
  lv_evidence_refs : option (list string);
  lv_hitl_event : option sview
}.

Definition loop_trace_asdict (w : World) (t : LoopTrace) : LoopTraceView :=
  mkLoopTraceView (lt_loop_id t) (lt_timestamp t) (lt_module t)
                  (resolve_sval w (lt_input_state t)) (resolve_sval w (lt_output_state t))
                  (lt_decision t) (lt_validation_result t) (lt_evidence_refs t)
                  (decision_view w <$> lt_hitl_event t).

Record Summary : Type := mkSummary {
  total_loops : Z;
  policy_violations : nat;
  hitl_interventions : nat;
  hitl_approvals : nat;
  hitl_rejections : nat;
  final_state : StateSummary
}.

Record Report : Type := mkReport {
  rp_task : option tree;
  rp_policies : list string;
  rp_hitl_mode : string;
  rp_log : list LoopTraceView;
  rp_hitl_log : AuditLog;
  rp_summary : Summary
}.

Definition _generate_audit_report (s : SCL) : Report :=
  let hitl_audit := get_audit_log (world s) (hitl_manager s) in
  mkReport (read (memory s) "task") rule_names (hitl_mode s)
           (loop_trace_asdict (world s) <$> history (memory s))
           hitl_audit
           (mkSummary (loop_counter s)
                      (length (filter (λ t, lt_validation_result t = Some false)
                                      (history (memory s))))
                      (total_interventions (statistics hitl_audit))
                      (approvals (statistics hitl_audit))
                      (rejections (statistics hitl_audit))
                      (get_state_summary (memory s))).

(** The part of [run] before its loop: the retrieval stage and the creation
    of the context dictionary. *)
Definition run_start (s : SCL) (task : string) : SCL * loc :=
  let '(s1, retrieval_result) := retrieval s task in
  let '(w, context) :=
    alloc_ctx (world s1)
              (<["task" := CTree (TStr task)]>
                 (<["retrieval_plan" := CTree retrieval_result]>
                    (<["status" := CTree (TStr "in_progress")]> ∅))) in
  (set_world s1 w, context).

(** [run], together with the way its loop ended. *)
Definition run_exit (s : SCL) (task : string) : SCL * LoopExit :=
  let '(s2, context) := run_start s task in
  ccam_loop true (loop_fuel s2) s2 context.

Definition run (s : SCL) (task : string) : SCL * Report :=
  let '(s', _) := run_exit s task in (s', _generate_audit_report s').

Definition _continue_execution (s : SCL) (context : loc) : SCL * Report :=
  let '(s', _) := ccam_loop false (loop_fuel s) s context in
  (s', _generate_audit_report s').

(** Lines 631-633 of [resume_from_freeze]: the state is restored from the
    snapshot. *)
Definition restore_from (s : SCL) (frozen : FrozenCognitiveState) : SCL :=
  let mem1 := restore_snapshot (memory s) (fz_memory_snapshot frozen) in
  let mem2 := restore_evidence mem1 (fz_evidence_cache frozen) in
  set_loop_counter (set_memory s mem2) (fz_loop_counter frozen).

(** What [resume_from_freeze] does once the state is restored. *)
Definition resume_continue (s : SCL) (frozen : FrozenCognitiveState)
    (next_action : NextAction) (feedback : option string) : SCL * Report :=
  let '(w1, m1, _) := thaw_state (world s) (hitl_manager s) (fz_freeze_id frozen) in
  let s1 := set_world (set_hitl_manager s m1) w1 in
  let context := fz_context frozen in
  match next_action with
  | NAExecute modified =>
      let '(s2, action_result) := action s1 (fz_cognition_output frozen) (Some modified) in
      let s3 := set_world s2 (ctx_set (world s2) context "last_action_result"
                                      (CTree action_result)) in
      if negb (is_final_action (get_cog (world s3) (fz_cognition_output frozen)))
      then _continue_execution (set_is_resumed s3 true) context
      else (s3, _generate_audit_report s3)
  | NARetry _ _ =>
      let patch : gmap string cval :=
        <["human_rejected" := CTree (TBool true)]>
          (<["rejection_reason" :=
               CTree (TStr (default "Action rejected by human" feedback))]>
             (<["retry_guidance" :=
                  CTree (TStr "Consider alternative approaches based on human feedback")]>
                ∅)) in
      let s2 := set_world s1 (ctx_update (world s1) context patch) in
      _continue_execution (set_is_resumed s2 true) context
  end.

Definition resume_from_freeze (s : SCL) (freeze_id decision : string)
    (feedback : option string) (modified_action : option loc) (rationale : option string)
  : SCL * (Report + string) :=
  let '(w1, m1, result) :=
    process_human_decision (world s) (hitl_manager s) freeze_id decision feedback
                           modified_action rationale in
  let s1 := set_world (set_hitl_manager s m1) w1 in
  match result with
  | DError e => (s1, inr e)
  | DProcessed _ _ _ next_action =>
      match frozen_states (hitl_manager s1) !! freeze_id with
      | None => (s1, inr "Frozen state not found after processing")
      | Some frozen =>
          let '(s2, report) :=
            resume_continue (restore_from s1 frozen) frozen next_action feedback in
          (s2, inl report)
      end
  end.

End Loop.

(** * Statements

    Predicates and readings of the design document that the theorems are
    stated with, and the concrete scenarios they are tried on. *)

(** Reading a decimal numeral back. *)
Definition parse_nat (s : string) : option nat :=
  Nat.of_uint <$> NilEmpty.uint_of_string s.

Definition freeze_id_of (n : nat) : string := "FREEZE-" +:+ fmt_0d 4 n.

(** [t] is the event of kind [e] about the snapshot [fid]. *)
Definition is_event (e : HITLEventType) (fid : string) (t : HITLTrace) : Prop :=
  tr_event_type t = e ∧ tr_freeze_id t = Some fid.

(** The invariant of the audit log kept by the suspension manager:
    state-frozen events carry identifiers that were allocated, no two of
    them carry the same one, every stored snapshot has its state-frozen
    event, and a state-thawed event comes after the state-frozen event of
    its snapshot. *)
Record audit_ok (m : HITLManager) : Prop := mkAuditOk {
  ao_allocated : ∀ i t, hitl_traces m !! i = Some t → tr_event_type t = STATE_FROZEN →
      ∃ k, (1 ≤ k ≤ freeze_counter m)%nat ∧ tr_freeze_id t = Some (freeze_id_of k);
  ao_unique : ∀ i j t t', hitl_traces m !! i = Some t → hitl_traces m !! j = Some t' →
      tr_event_type t = STATE_FROZEN → tr_event_type t' = STATE_FROZEN →
      tr_freeze_id t = tr_freeze_id t' → i = j;
  ao_stored : ∀ fid f, frozen_states m !! fid = Some f →
      ∃ i t, hitl_traces m !! i = Some t ∧ is_event STATE_FROZEN fid t;
  ao_thawed : ∀ j t fid, hitl_traces m !! j = Some t → is_event STATE_THAWED fid t →
      ∃ i t', (i < j)%nat ∧ hitl_traces m !! i = Some t' ∧ is_event STATE_FROZEN fid t'
}.

Definition is_decision_event (e : HITLEventType) : bool :=
  match e with
  | APPROVED | REJECTED | MODIFIED => true
  | _ => false
  end.

(** Every recorded decision is attributed to a human. *)
Definition decisions_by_human (m : HITLManager) : Prop :=
  ∀ t, t ∈ hitl_traces m → is_decision_event (tr_event_type t) = true → tr_actor t = "human".

(** What the rule table of the intervention policy says: the rules in
    their order of precedence, each with its guard and its outcome. *)
Definition spec_rules (p : HITLPolicy) (w : World) (cog ctx : loc) (loop_counter : Z)
  : list (bool * (InterventionLevel * string)) :=
  let co := get_cog w cog in
  let tool := default "" (tool_name (cog_action w co)) in
  let conf := default 1%Q (confidence co) in
  [ (bool_decide (tool ∈ high_risk_tools (policies p)),
     (APPROVE, "High-risk tool: " +:+ tool));
    (bool_decide (tool ∈ always_confirm_tools (policies p)),
     (CONFIRM, "Confirmation required for: " +:+ tool));
    (is_final_action co && confirm_on_final_action (policies p),
     (CONFIRM, "Final action requires confirmation"));
    (confirm_after_n_loops (policies p) <=? loop_counter,
     (NOTIFY, "Extended loop count: " +:+ str_Z loop_counter));
    (Qltb conf (confirm_on_confidence_below (policies p)),
     (CONFIRM, "Low confidence: " +:+ fmt_2f conf));
    (negb (has_evidence_refs co) && confirm_on_missing_evidence (policies p),
     (NOTIFY, "Missing evidence citations"));
    (bool_decide (is_Some (custom_handlers p !! tool)),
     match custom_handlers p !! tool with
     | Some h => h w cog ctx
     | None => (NONE, "")
     end) ].

(** First match wins. *)
Fixpoint first_match {A : Type} (rules : list (bool * A)) (otherwise : A) : A :=
  match rules with
  | [] => otherwise
  | (guard, outcome) :: rest => if guard then outcome else first_match rest otherwise
  end.

Definition is_processed (r : DecisionResult) : bool :=
  match r with
  | DProcessed _ _ _ _ => true
  | DError _ => false
  end.

(** "A terminal decision succeeds at most once": after a call that
    succeeded, the same call fails. *)
Definition decision_at_most_once : Prop :=
  ∀ w m fid d fb ma ra,
    is_processed (process_human_decision w m fid d fb ma ra).2 = true →
    let '(w1, m1, _) := process_human_decision w m fid d fb ma ra in
    is_processed (process_human_decision w1 m1 fid d fb ma ra).2 = false.

(** "The summary marks a loop-exhausted run": some reading of the summary
    tells whether the loop ended on its counter. *)
Definition summary_marks_exhaustion (json_dumps : tree -> string) : Prop :=
  ∃ marker : Summary → bool, ∀ s task,
    let '(s', exit) := run_exit json_dumps s task in
    marker (rp_summary (_generate_audit_report s')) = true ↔ exit = ExitExhausted.



(** ** Predicates of the further properties *)

(** [execute(tool_name, **parameters)] passes the parameters of a call as
    keyword arguments: they are a dictionary, and no key clashes with a
    parameter of [execute] itself. *)
Definition keyword_arguments (params : tree) : Prop :=
  ∃ kvs, params = TDict kvs ∧ ("self" ∉ fst <$> kvs) ∧ ("tool_name" ∉ fst <$> kvs).

(** The identifier of the [n]-th audit event. *)
Definition trace_id_of (n : nat) : string := "HITL-" +:+ fmt_0d 4 n.

(** Audit events are numbered in the order of the log. *)
Definition traces_numbered (m : HITLManager) : Prop :=
  trace_counter m = length (hitl_traces m)
  ∧ ∀ i t, hitl_traces m !! i = Some t → tr_trace_id t = trace_id_of (S i).

(** Every identifier issued so far names a stored snapshot, and only
    those do; each has its state-frozen event. *)
Definition snapshots_kept (m : HITLManager) : Prop :=
  (∀ fid, is_Some (frozen_states m !! fid)
          ↔ ∃ k, (1 ≤ k ≤ freeze_counter m)%nat ∧ fid = freeze_id_of k)
  ∧ count_events STATE_FROZEN (hitl_traces m) = freeze_counter m.

(** Cells are only ever added to the object store. *)
Definition world_ext (w w' : World) : Prop :=
  acts w `prefix_of` acts w' ∧ cogs w `prefix_of` cogs w' ∧ ctxs w `prefix_of` ctxs w'.

(** [v'] is a copy of [v] made out of cells that [w0] does not have. *)
Definition copied_from (w0 w : World) (v v' : cval) : Prop :=
  match v, v' with
  | CTree t, CTree t' => t = t'
  | CAct a, CAct a' =>
      (length (acts w0) ≤ a')%nat ∧ acts w !! a' = Some (get_act w0 a)
  | _, _ => False
  end.

(** The traces that the [n]-th pass through the loop body appends to the
    history: a Cognition trace and a Control trace, then, only when
    Control passed, at most one HITL trace and at most one Action trace. *)
Definition iteration_traces (n : Z) (seg : list LoopTrace) : Prop :=
  ∃ c k hs acs,
    seg = c :: k :: hs ++ acs
    ∧ lt_module c = module_value COGNITION ∧ lt_loop_id c = "CCAM-" +:+ fmt_0dZ 3 n
    ∧ lt_validation_result c = None
    ∧ lt_module k = module_value CONTROL ∧ lt_loop_id k = "CTL-" +:+ fmt_0dZ 3 n
    ∧ is_Some (lt_validation_result k)
    ∧ (lt_validation_result k = Some false → hs = [] ∧ acs = [])
    ∧ (length hs ≤ 1)%nat ∧ (length acs ≤ 1)%nat
    ∧ Forall (λ t, lt_module t = module_value HITL ∧ lt_validation_result t = None
                   ∧ lt_loop_id t = "HITL-" +:+ fmt_0dZ 3 n) hs
    ∧ Forall (λ t, lt_module t = module_value ACTION ∧ lt_validation_result t = None
                   ∧ lt_loop_id t = "ACT-" +:+ fmt_0dZ 3 n) acs.

(** The traces of consecutive passes, the first of them numbered [n]. *)
Fixpoint loop_traces (n : Z) (segs : list (list LoopTrace)) : Prop :=
  match segs with
  | [] => True
  | seg :: rest => iteration_traces n seg ∧ loop_traces (n + 1) rest
  end.

(** Every Action trace from position [old] on comes after a Control trace
    of the same pass that reported success, with at most the trace of an
    intervention in between. *)
Definition actions_validated (old : nat) (h : list LoopTrace) : Prop :=
  ∀ i t, (old ≤ i)%nat → h !! i = Some t → lt_module t = module_value ACTION →
    ∃ j k n, (old ≤ j < i)%nat ∧ (i ≤ j + 2)%nat ∧ h !! j = Some k
      ∧ lt_module k = module_value CONTROL ∧ lt_validation_result k = Some true
      ∧ lt_loop_id k = "CTL-" +:+ fmt_0dZ 3 n ∧ lt_loop_id t = "ACT-" +:+ fmt_0dZ 3 n.

(** The traces a component of the loop has written. *)
Definition count_module (m : ModuleType) (h : list LoopTrace) : nat :=
  length (filter (λ t, lt_module t = module_value m) h).

(** What [policy_violations] of the summary counts. *)
Definition count_violations (h : list LoopTrace) : nat :=
  length (filter (λ t, lt_validation_result t = Some false) h).

(** The decisions recorded in an audit log. *)
Definition count_decisions (ts : list HITLTrace) : nat :=
  (count_events APPROVED ts + count_events REJECTED ts + count_events MODIFIED ts)%nat.

(** ** Scenarios *)

Definition demo_world : World := mkWorld [] [] [] 0 (λ _, "2025-01-01T00:00:00").

Definition demo_json (t : tree) : string :=
  match t with
  | TDict [] => "{}"
  | _ => "{...}"
  end.

Definition demo_tools : gmap string ToolEntry :=
  register (register ∅ "get_weather" (λ _ _, inl (TStr "sunny")) "Get current weather")
           "send_email" (λ _ _, inr "SMTP server unreachable") "Send email notification".

Definition demo_response (tool : string) (final : bool) : CogView :=
  mkCogView (Some "reasoning") (Some (mkAction (Some tool) None)) (Some ["weather_sf"])
            final None false.

Definition demo_scl (tool : string) (final : bool) (mode : string) (max : Z) : SCL :=
  SCL_init (λ _ _, demo_response tool final) demo_tools MetaPrompt_init HITLPolicy_init
           max mode (λ _ _, HApprove None) demo_world.

(** A live cognition output proposing [send_email], and its context. *)
Definition live_world : World :=
  mkWorld [mkAction (Some "send_email") (Some (TDict [("recipient", TStr "test-scl@test.com")]))]
          [mkCogOut (Some "All weather data collected.") (Some 0%nat)
                    (Some ["weather_sf"; "weather_miami"]) true None false]
          [{["status" := CTree (TStr "pending_email")]}]
          0 (λ _, "2025-01-01T00:00:00").

Definition live_frozen : World * HITLManager * FrozenCognitiveState :=
  freeze_state live_world (HITLManager_init HITLPolicy_init) 3 0%nat
               (mkMemorySnapshot (Some ∅) 0) ∅ 0%nat (get_state MetaPrompt_init)
               APPROVE "High-risk tool: send_email".

(** A loop whose evidence cache already holds the result of the call its
    final cognition output proposes. *)
Definition dup_scl : SCL :=
  let s := demo_scl "get_weather" true "disabled" 5 in
  set_world (set_memory s (store_evidence (memory s) "evidence_get_weather_{}" (TStr "sunny")))
            (alloc_response (world s) (demo_response "get_weather" true)).1.

(** A run that stops on a blocked intervention: no handler is attached and
    [send_email] is high-risk. *)
Definition blocked_scl : SCL :=
  (run demo_json (demo_scl "send_email" true "manual" 5) "task").1.

(** A run in automatic mode whose final action needs a confirmation. *)
Abbreviation approved_scl :=
  ((run demo_json (demo_scl "get_weather" true "auto" 5) "task").1) (only parsing).

(** The stages of the first iteration of a run in automatic mode whose
    final action, [send_email], raises. *)
Abbreviation fail_start :=
  (run_start (demo_scl "send_email" true "auto" 5) "task") (only parsing).

Abbreviation fail_cognition :=
  (cognition (if true then merge_resume_context fail_start.1 fail_start.2 else fail_start.1)
             fail_start.2) (only parsing).

Abbreviation fail_control :=
  (control demo_json
           (set_world fail_cognition.1 (clear_rejection (world fail_cognition.1) fail_start.2))
           fail_cognition.2) (only parsing).

Abbreviation fail_hitl :=
  (hitl_check fail_control.1 fail_cognition.2 fail_start.2) (only parsing).

(** A loop holding one final proposal of [tool] (cognition output 0,
    action 0) and its context (context 0), as [hitl_check] and [action]
    meet them. *)
Definition proposal_scl (tool mode : string) (console : nat -> Request -> HumanChoice) : SCL :=
  let s := SCL_init (λ _ _, demo_response tool true) demo_tools MetaPrompt_init HITLPolicy_init
                    5 mode console demo_world in
  set_world s (alloc_ctx (alloc_response (world s) (demo_response tool true)).1
                         {["task" := CTree (TStr "task")]}).1.

(** A loop holding one final proposal of [get_weather] with the
    parameters [{"n": 1}], and an operator who answers every request by
    modifying them to [{"n": true}]. *)
Definition flag_scl : SCL :=
  let response :=
    mkCogView (Some "reasoning")
              (Some (mkAction (Some "get_weather") (Some (TDict [("n", TInt 1)]))))
              (Some ["weather_sf"]) true None false in
  let s := SCL_init (λ _ _, response) demo_tools MetaPrompt_init HITLPolicy_init
                    5 "interactive" (λ _ _, HModify (TDict [("n", TBool true)])) demo_world in
  set_world s (alloc_ctx (alloc_response (world s) response).1
                         {["task" := CTree (TStr "task")]}).1.

(** A store in which the context keeps a reference to the proposed
    action, as it does after a rejection. *)
Definition aliased_world : World :=
  mkWorld [mkAction (Some "send_email") (Some (TDict [("recipient", TStr "test-scl@test.com")]))]
          [mkCogOut (Some "All weather data collected.") (Some 0%nat)
                    (Some ["weather_sf"]) true None false]
          [{["previous_proposal" := CAct 0%nat]}]
          0 (λ _, "2025-01-01T00:00:00").

(** * Proofs *)

Ltac destruct_lets :=
  repeat match goal with
  | |- context [let '(_, _) := ?e in _] => destruct e eqn:?
  | |- context [match ?e with (_, _) => _ end] => destruct e eqn:?
  end.

Lemma parse_str_nat n : parse_nat (str_nat n) = Some n.
Proof.
  unfold parse_nat, str_nat. rewrite NilEmpty.usu. simpl. f_equal. apply Unsigned.of_to.
Qed.

Lemma parse_zeros k s : parse_nat (zeros k +:+ s) = parse_nat s.
Proof.
  induction k as [|k IH]; [reflexivity|].
  unfold parse_nat in *. simpl.
  destruct (NilEmpty.uint_of_string (zeros k +:+ s)) eqn:E1,
           (NilEmpty.uint_of_string s) eqn:E2; simpl in *; try congruence.
  rewrite <- IH. reflexivity.
Qed.

Lemma fmt_0d_inj w a b : fmt_0d w a = fmt_0d w b → a = b.
Proof.
  intros H. apply (f_equal parse_nat) in H. unfold fmt_0d in H.
  rewrite !parse_zeros, !parse_str_nat in H. congruence.
Qed.

Lemma freeze_id_of_inj a b : freeze_id_of a = freeze_id_of b → a = b.
Proof. unfold freeze_id_of. intros H. simpl in H. injection H. apply fmt_0d_inj. Qed.

(** ** The manager's operations on the audit log *)

Lemma log_trace_traces w m e fid pa hd hf ma dr actor :
  let '(w', m', t) := _log_trace w m e fid pa hd hf ma dr actor in
  hitl_traces m' = hitl_traces m ++ [t] ∧ frozen_states m' = frozen_states m ∧
  freeze_counter m' = freeze_counter m ∧ policy m' = policy m ∧
  tr_event_type t = e ∧ tr_freeze_id t = fid ∧ tr_actor t = actor ∧
  acts w' = acts w ∧ cogs w' = cogs w ∧ ctxs w' = ctxs w.
Proof. unfold _log_trace, now. simpl. repeat split; reflexivity. Qed.

Lemma audit_ok_log w m e fid pa hd hf ma dr actor :
  audit_ok m → e ≠ STATE_FROZEN →
  (e = STATE_THAWED → ∃ id f, fid = Some id ∧ frozen_states m !! id = Some f) →
  audit_ok (_log_trace w m e fid pa hd hf ma dr actor).1.2.
Proof.
  intros [A1 A2 A3 A4] Hne Hth.
  pose proof (log_trace_traces w m e fid pa hd hf ma dr actor) as L.
  destruct (_log_trace w m e fid pa hd hf ma dr actor) as [[w' m'] t]. simpl.
  destruct L as (Ht & Hf & Hc & _ & He & Hid & _).
  split; rewrite ?Ht, ?Hf, ?Hc.
  - intros i t0 Hi Hfz. apply lookup_snoc_Some in Hi as [[_ Hi]|[_ <-]]; [eauto|congruence].
  - intros i j t0 t1 Hi Hj F0 F1 Heq.
    apply lookup_snoc_Some in Hi as [[_ Hi]|[_ <-]]; [|congruence].
    apply lookup_snoc_Some in Hj as [[_ Hj]|[_ <-]]; [|congruence]. eauto.
  - intros id f Hs. destruct (A3 _ _ Hs) as (i & t0 & Hi & Hev).
    exists i, t0. split; [|done]. by apply lookup_app_l_Some.
  - intros j t0 id Hj [Hty Hfid].
    apply lookup_snoc_Some in Hj as [[_ Hj]|[-> <-]].
    + destruct (A4 j t0 id Hj (conj Hty Hfid)) as (i & t' & Hlt & Hi & Hev).
      exists i, t'. split; [done|]. split; [by apply lookup_app_l_Some|done].
    + rewrite He in Hty. destruct (Hth Hty) as (id' & f & -> & Hs).
      rewrite Hid in Hfid. injection Hfid as ->.
      destruct (A3 _ _ Hs) as (i & t' & Hi & Hev).
      exists i, t'. split; [by eapply lookup_lt_Some|]. split; [|done].
      by apply lookup_app_l_Some.
Qed.

Lemma audit_ok_thaw w m fid : audit_ok m → audit_ok (thaw_state w m fid).1.2.
Proof.
  intros H. unfold thaw_state. destruct (frozen_states m !! fid) as [f|] eqn:E; [|done].
  pose proof (audit_ok_log w m STATE_THAWED (Some fid) (fz_pending_action f)
                None None None None "system" H) as L.
  destruct (_log_trace _ _ _ _ _ _ _ _ _ _) as [[w1 m1] t]. simpl in *.
  apply L; [done|]. intros _. eauto.
Qed.

Lemma audit_ok_request w m f : audit_ok m → audit_ok (request_approval w m f).1.2.
Proof.
  intros H. unfold request_approval.
  pose proof (audit_ok_log w m APPROVAL_REQUESTED (Some (fz_freeze_id f)) (fz_pending_action f)
                None None None None "system" H) as L.
  destruct (_log_trace _ _ _ _ _ _ _ _ _ _) as [[w1 m1] t]. simpl in *.
  destruct (now w1). simpl. apply L; done.
Qed.

Lemma decision_event_not_state d e :
  decision_event d = Some e → e ≠ STATE_FROZEN ∧ e ≠ STATE_THAWED ∧ is_decision_event e = true.
Proof. unfold decision_event. repeat case_decide; intros [= <-]; done. Qed.

Lemma audit_ok_process w m fid d fb ma ra :
  audit_ok m → audit_ok (process_human_decision w m fid d fb ma ra).1.2.
Proof.
  intros H. unfold process_human_decision.
  destruct (frozen_states m !! fid) as [f|] eqn:E; [|done].
  destruct (decision_event d) as [e|] eqn:D; [|done].
  apply decision_event_not_state in D as (D1 & D2 & _).
  pose proof (audit_ok_log w m e (Some fid) (fz_pending_action f)
                (Some d) fb ma ra "human" H D1) as L.
  destruct (_log_trace _ _ _ _ _ _ _ _ _ _) as [[w1 m1] t]. simpl in *.
  apply L. done.
Qed.

Lemma audit_ok_freeze w m lc cog ms ev ctx mps lvl reason :
  audit_ok m → audit_ok (freeze_state w m lc cog ms ev ctx mps lvl reason).1.2.
Proof.
  intros [A1 A2 A3 A4]. unfold freeze_state, _generate_freeze_id.
  destruct (now w) as [w1 ts].
  destruct (match proposed_action (get_cog w1 cog) with
            | Some a => (w1, a) | None => alloc_act w1 empty_action end) as [w2 pending].
  destruct (deepcopy_cog w2 cog) as [w3 cog'].
  destruct (deepcopy_ctx w3 ctx) as [w4 ctx'].
  unfold _log_trace, _generate_trace_id, now. simpl.
  fold (freeze_id_of (S (freeze_counter m))).
  split; simpl.
  - intros i t Hi Hfz. apply lookup_snoc_Some in Hi as [[_ Hi]|[_ <-]].
    + destruct (A1 _ _ Hi Hfz) as (k & Hk & Hid). exists k. split; [lia|done].
    + exists (S (freeze_counter m)). split; [lia|done].
  - intros i j t t' Hi Hj F0 F1 Heq.
    apply lookup_snoc_Some in Hi as [[Hli Hi]|[-> <-]];
      apply lookup_snoc_Some in Hj as [[Hlj Hj]|[-> <-]]; eauto.
    + destruct (A1 _ _ Hi F0) as (k & Hk & Hid).
      assert (freeze_id_of k = freeze_id_of (S (freeze_counter m))) as Hk'
        by (simpl in Heq; congruence).
      apply freeze_id_of_inj in Hk'. lia.
    + destruct (A1 _ _ Hj F1) as (k & Hk & Hid).
      assert (freeze_id_of (S (freeze_counter m)) = freeze_id_of k) as Hk'
        by (simpl in Heq; congruence).
      apply freeze_id_of_inj in Hk'. lia.
  - intros id f Hs. destruct (decide (freeze_id_of (S (freeze_counter m)) = id)) as [<-|Hne].
    + eexists (length (hitl_traces m)), _. split.
      * apply lookup_snoc_Some. right. split; reflexivity.
      * split; reflexivity.
    + rewrite lookup_insert_ne in Hs by done.
      destruct (A3 _ _ Hs) as (i & t0 & Hi & Hev).
      exists i, t0. split; [|done]. by apply lookup_app_l_Some.
  - intros j t0 id Hj [Hty Hfid].
    apply lookup_snoc_Some in Hj as [[_ Hj]|[-> <-]]; [|done].
    destruct (A4 j t0 id Hj (conj Hty Hfid)) as (i & t' & Hlt & Hi & Hev).
    exists i, t'. split; [done|]. split; [by apply lookup_app_l_Some|done].
Qed.

Lemma audit_ok_cleanup m fid : audit_ok m → audit_ok (cleanup_frozen_state m fid).
Proof.
  intros [A1 A2 A3 A4]. split; simpl; try done.
  intros id f Hs. apply lookup_delete_Some in Hs as [_ Hs]. eauto.
Qed.

Lemma decisions_by_human_log w m e fid pa hd hf ma dr actor :
  decisions_by_human m → (is_decision_event e = true → actor = "human") →
  decisions_by_human (_log_trace w m e fid pa hd hf ma dr actor).1.2.
Proof.
  intros H Ha t. unfold _log_trace, now. simpl.
  rewrite elem_of_app, list_elem_of_singleton. intros [Ht| ->]; [by apply H|]. simpl. done.
Qed.

(** ** Frame properties of the stages of an iteration *)

Section Frames.
Variable json_dumps : tree -> string.

Lemma cognition_frame s ctx :
  let s' := (cognition s ctx).1 in
  loop_counter s' = loop_counter s + 1 ∧ max_loops s' = max_loops s ∧
  hitl_manager s' = hitl_manager s ∧ _resume_context s' = _resume_context s.
Proof. unfold cognition. destruct_lets. simpl. repeat split; reflexivity. Qed.

Lemma control_frame s cog :
  let s' := (control json_dumps s cog).1 in
  loop_counter s' = loop_counter s ∧ max_loops s' = max_loops s ∧
  hitl_manager s' = hitl_manager s ∧ _resume_context s' = _resume_context s.
Proof. unfold control. destruct_lets. simpl. repeat split; reflexivity. Qed.

Lemma action_frame s cog m :
  let s' := (action json_dumps s cog m).1 in
  loop_counter s' = loop_counter s ∧ max_loops s' = max_loops s ∧
  hitl_manager s' = hitl_manager s ∧ _resume_context s' = _resume_context s.
Proof.
  unfold action. repeat case_match; destruct_lets; simpl; repeat split; reflexivity.
Qed.

Lemma hitl_check_frame s cog ctx :
  let s' := (hitl_check s cog ctx).1 in
  loop_counter s' = loop_counter s ∧ max_loops s' = max_loops s.
Proof.
  unfold hitl_check. repeat (case_match || destruct_lets); simpl; repeat split; reflexivity.
Qed.

Lemma retrieval_frame s task :
  let s' := (retrieval s task).1 in
  loop_counter s' = loop_counter s ∧ max_loops s' = max_loops s ∧
  hitl_manager s' = hitl_manager s.
Proof. unfold retrieval. destruct_lets. simpl. repeat split; reflexivity. Qed.

Lemma run_start_frame s task :
  let s' := (run_start s task).1 in
  loop_counter s' = loop_counter s ∧ max_loops s' = max_loops s ∧
  hitl_manager s' = hitl_manager s ∧
  ((run_start s task).2 < length (ctxs (world s')))%nat.
Proof.
  unfold run_start, alloc_ctx.
  pose proof (retrieval_frame s task) as R.
  destruct (retrieval s task) as [s1 plan]. simpl in *.
  destruct R as (R1 & R2 & R3). repeat split; try done. rewrite length_app. simpl. lia.
Qed.

Lemma merge_resume_frame s ctx :
  let s' := merge_resume_context s ctx in
  loop_counter s' = loop_counter s ∧ max_loops s' = max_loops s ∧
  hitl_manager s' = hitl_manager s.
Proof. unfold merge_resume_context. case_match; simpl; repeat split; reflexivity. Qed.

Lemma iteration_counter merge s ctx :
  let s' := (iteration json_dumps merge s ctx).1 in
  loop_counter s' = loop_counter s + 1 ∧ max_loops s' = max_loops s.
Proof.
  unfold iteration.
  set (s0 := if merge then merge_resume_context s ctx else s).
  assert (loop_counter s0 = loop_counter s ∧ max_loops s0 = max_loops s) as [E0 M0].
  { subst s0. destruct merge; [|done]. destruct (merge_resume_frame s ctx) as (?&?&?); done. }
  pose proof (cognition_frame s0 ctx) as C.
  destruct (cognition s0 ctx) as [s1 cog]. simpl in C. destruct C as (C1 & C2 & _).
  set (s2 := set_world s1 _).
  pose proof (control_frame s2 cog) as K.
  destruct (control json_dumps s2 cog) as [s3 [v msg]]. simpl in K. destruct K as (K1 & K2 & _).
  destruct v; simpl; [|split; congruence].
  pose proof (hitl_check_frame s3 cog ctx) as Hc.
  destruct (hitl_check s3 cog ctx) as [s4 [p md]]. simpl in Hc. destruct Hc as (Hc1 & Hc2).
  destruct p; simpl.
  - pose proof (action_frame s4 cog (modified_arg md)) as A.
    destruct (action json_dumps s4 cog (modified_arg md)) as [s5 r]. simpl in A.
    destruct A as (A1 & A2 & _).
    case_match; simpl; split; congruence.
  - destruct md; simpl; split; congruence.
Qed.

(** ** Lifting an invariant of the manager to the loop *)

Section ManagerInvariant.
Variable Q : HITLManager → Prop.
Hypothesis Q_freeze : ∀ w m lc cog ms ev ctx mps lvl reason,
  Q m → Q (freeze_state w m lc cog ms ev ctx mps lvl reason).1.2.
Hypothesis Q_thaw : ∀ w m fid, Q m → Q (thaw_state w m fid).1.2.
Hypothesis Q_request : ∀ w m f, Q m → Q (request_approval w m f).1.2.
Hypothesis Q_process : ∀ w m fid d fb ma ra,
  Q m → Q (process_human_decision w m fid d fb ma ra).1.2.

Lemma manager_inv_handle h w m rq : Q m → Q (handle_intervention h w m rq).1.2.
Proof.
  intros H. unfold handle_intervention, _auto_approve, _interactive_prompt.
  repeat (case_match || destruct_lets); by apply Q_process.
Qed.

Lemma manager_inv_hitl_check s cog ctx :
  Q (hitl_manager s) → Q (hitl_manager (hitl_check s cog ctx).1).
Proof.
  intros HQ0. unfold hitl_check.
  case_decide; [done|].
  destruct (check_intervention _ _ _ _ _) as [lvl reason].
  case_decide; [done|].
  pose proof (Q_freeze (world s) (hitl_manager s) (loop_counter s) cog
                (get_snapshot (memory s)) (get_evidence_snapshot (memory s)) ctx
                (get_state (metaprompt s)) lvl reason HQ0) as HQ1.
  destruct (freeze_state _ _ _ _ _ _ _ _ _ _) as [[w1 m1] f]. simpl in HQ1.
  pose proof (Q_request w1 m1 f HQ1) as HQ2.
  destruct (request_approval w1 m1 f) as [[w2 m2] rq]. simpl in HQ2.
  assert (∀ w3 m3 r,
    match hitl_handler s with
    | Some h => Some (handle_intervention h w2 m2 rq)
    | None => if decide (lvl = NOTIFY)
              then Some (process_human_decision w2 m2 (fz_freeze_id f) "approve" None None
                           (Some "Auto-approved (notify level)"))
              else None
    end = Some (w3, m3, r) → Q m3) as HQ3.
  { intros w3 m3 r E. destruct (hitl_handler s) as [h|].
    - injection E as E. pose proof (manager_inv_handle h w2 m2 rq HQ2) as X. by rewrite E in X.
    - case_decide; [|done]. injection E as E.
      pose proof (Q_process w2 m2 (fz_freeze_id f) "approve" None None
                    (Some "Auto-approved (notify level)") HQ2) as X. by rewrite E in X. }
  destruct (match hitl_handler s with Some _ => _ | None => _ end) as [[[w3 m3] r]|];
    [|done].
  specialize (HQ3 w3 m3 r eq_refl).
  destruct (now w3) as [w4 ts].
  destruct r as [e|d tid fid na]; [done|].
  pose proof (Q_thaw w4 m3 (fz_freeze_id f) HQ3) as HQ4.
  destruct na; destruct (thaw_state w4 m3 (fz_freeze_id f)) as [[w5 m4] ?];
    [destruct (same_action _ _ _)|]; simpl in *; done.
Qed.

Lemma manager_inv_iteration merge s ctx :
  Q (hitl_manager s) → Q (hitl_manager (iteration json_dumps merge s ctx).1).
Proof.
  intros H. unfold iteration.
  set (s0 := if merge then merge_resume_context s ctx else s).
  assert (hitl_manager s0 = hitl_manager s) as E0.
  { subst s0. destruct merge; [|done]. destruct (merge_resume_frame s ctx) as (?&?&?); done. }
  pose proof (cognition_frame s0 ctx) as C.
  destruct (cognition s0 ctx) as [s1 cog]. simpl in C. destruct C as (_ & _ & C3 & _).
  set (s2 := set_world s1 _).
  pose proof (control_frame s2 cog) as K.
  destruct (control json_dumps s2 cog) as [s3 [v msg]]. simpl in K. destruct K as (_ & _ & K3 & _).
  assert (Q (hitl_manager s3)) as H3 by (rewrite K3; subst s2; simpl; by rewrite C3, E0).
  destruct v; simpl; [|done].
  pose proof (manager_inv_hitl_check s3 cog ctx H3) as H4.
  destruct (hitl_check s3 cog ctx) as [s4 [p md]]. simpl in H4.
  destruct p; simpl.
  - pose proof (action_frame s4 cog (modified_arg md)) as A.
    destruct (action json_dumps s4 cog (modified_arg md)) as [s5 r]. simpl in A.
    destruct A as (_ & _ & A3 & _).
    case_match; simpl; by rewrite A3.
  - destruct md; done.
Qed.

Lemma manager_inv_ccam_loop merge fuel s ctx :
  Q (hitl_manager s) → Q (hitl_manager (ccam_loop json_dumps merge fuel s ctx).1).
Proof.
  revert s. induction fuel as [|fuel IH]; intros s H; simpl; [done|].
  case_match; [|done].
  pose proof (manager_inv_iteration merge s ctx H) as H1.
  destruct (iteration json_dumps merge s ctx) as [s' [e|]]; simpl in *; [done|].
  by apply IH.
Qed.

Lemma manager_inv_run s task :
  Q (hitl_manager s) → Q (hitl_manager (run json_dumps s task).1).
Proof.
  intros H. unfold run, run_exit.
  pose proof (run_start_frame s task) as R.
  destruct (run_start s task) as [s2 c]. simpl in R. destruct R as (_ & _ & R3 & _).
  pose proof (manager_inv_ccam_loop true (loop_fuel s2) s2 c) as X.
  destruct (ccam_loop json_dumps true (loop_fuel s2) s2 c). simpl in *.
  apply X. by rewrite R3.
Qed.

Lemma manager_inv_continue s ctx :
  Q (hitl_manager s) → Q (hitl_manager (_continue_execution json_dumps s ctx).1).
Proof.
  intros H. unfold _continue_execution.
  pose proof (manager_inv_ccam_loop false (loop_fuel s) s ctx H) as X.
  destruct (ccam_loop _ _ _ _ _). done.
Qed.

Lemma manager_inv_resume_continue s f na fb :
  Q (hitl_manager s) → Q (hitl_manager (resume_continue json_dumps s f na fb).1).
Proof.
  intros H. unfold resume_continue.
  pose proof (Q_thaw (world s) (hitl_manager s) (fz_freeze_id f) H) as H2.
  destruct (thaw_state _ _ _) as [[w2 m2] ?]. simpl in H2.
  destruct na.
  - match goal with |- context [action json_dumps ?s0 ?c ?m] =>
      pose proof (action_frame s0 c m) as A; destruct (action json_dumps s0 c m) as [s2 r]
    end. simpl in A. destruct A as (_ & _ & A3 & _).
    destruct (negb _); simpl.
    + apply manager_inv_continue. simpl. by rewrite A3.
    + by rewrite A3.
  - apply manager_inv_continue. done.
Qed.

Lemma manager_inv_resume s fid d fb ma ra :
  Q (hitl_manager s) →
  Q (hitl_manager (resume_from_freeze json_dumps s fid d fb ma ra).1).
Proof.
  intros H. unfold resume_from_freeze.
  pose proof (Q_process (world s) (hitl_manager s) fid d fb ma ra H) as H1.
  destruct (process_human_decision _ _ _ _ _ _ _) as [[w1 m1] r]. simpl in H1.
  destruct r as [e|d' tid fid' na]; simpl; [done|].
  destruct (frozen_states m1 !! fid) as [f|]; simpl; [|done].
  match goal with |- context [resume_continue json_dumps ?s0 f na fb] =>
    pose proof (manager_inv_resume_continue s0 f na fb) as X;
    destruct (resume_continue json_dumps s0 f na fb)
  end. simpl in *. by apply X.
Qed.

End ManagerInvariant.
End Frames.

(** ** Contexts stay allocated *)


Lemma deepcopy_items_ctxs w kvs : ctxs (deepcopy_items w kvs).1 = ctxs w.
Proof.
  revert w. induction kvs as [|[k v] kvs IH]; intros w; simpl; [done|].
  destruct v as [t|a]; simpl.
  - specialize (IH w). destruct (deepcopy_items w kvs). simpl in *. done.
  - specialize (IH (alloc_act w (get_act w a)).1). simpl in IH.
    destruct (deepcopy_items _ kvs). simpl in *. done.
Qed.


Lemma deepcopy_cog_ctxs w c : ctxs (deepcopy_cog w c).1 = ctxs w.
Proof. unfold deepcopy_cog. case_match; done. Qed.


Lemma thaw_state_ctxs w m fid : ctxs (thaw_state w m fid).1.1 = ctxs w.
Proof. unfold thaw_state, _log_trace, _generate_trace_id, now. case_match; done. Qed.




Section Surfacing.
Variable json_dumps : tree -> string.




Lemma control_world s cog :
  ctxs (world (control json_dumps s cog).1) = ctxs (world s)
  ∧ ∀ t, t ∈ history (memory s) → t ∈ history (memory (control json_dumps s cog).1).
Proof.
  unfold control, now. destruct_lets. simpl. split.
  - destruct (is_final_action _); done.
  - intros t Ht. rewrite elem_of_app. by left.
Qed.

Lemma cognition_world s ctx :
  ctxs (world (cognition s ctx).1) = ctxs (world s)
  ∧ ∃ t, t ∈ history (memory (cognition s ctx).1)
         ∧ lt_module t = "Cognition" ∧ lt_input_state t = SVCtx ctx.
Proof.
  unfold cognition, now, alloc_response, alloc_act, alloc_cog.
  destruct (cv_proposed_action _); simpl; (split; [done|]);
    eexists; (split; [apply elem_of_app; right; apply list_elem_of_here|]); done.
Qed.

Lemma merge_resume_world s ctx :
  length (ctxs (world (merge_resume_context s ctx))) = length (ctxs (world s))
  ∧ pending_resume (merge_resume_context s ctx) = None.
Proof.
  unfold merge_resume_context. destruct (pending_resume s) eqn:E; simpl.
  - split; [apply length_insert|done].
  - done.
Qed.

Lemma clear_rejection_ctxs w ctx : length (ctxs (clear_rejection w ctx)) = length (ctxs w).
Proof. unfold clear_rejection, ctx_pop. simpl. by rewrite !length_insert. Qed.

End Surfacing.

(** ** The intervention policy and the decision operation *)

Lemma audit_ok_init p : audit_ok (HITLManager_init p).
Proof. split; simpl; intros *; try rewrite lookup_nil; try rewrite lookup_empty; done. Qed.

(** C4: [evaluate] returns the outcome of the first rule of the policy's
    table whose guard holds (high-risk tool, always-confirm tool, final
    action, loop count, low confidence, missing evidence, custom handler)
    and the default [none] when no guard holds; in particular a tool of the
    high-risk set is answered with [approve] whatever the confidence, the
    loop counter, the evidence or the registered handlers. *)
Theorem evaluate_first_match_wins p w cog ctx loop_counter :
  evaluate p w cog ctx loop_counter
    = first_match (spec_rules p w cog ctx loop_counter) (NONE, "")
  ∧ (default "" (tool_name (cog_action w (get_cog w cog))) ∈ high_risk_tools (policies p) →
     (evaluate p w cog ctx loop_counter).1 = APPROVE).
Proof.
  unfold evaluate, spec_rules, first_match. split.
  - repeat case_bool_decide; try done;
      destruct (confirm_on_final_action (policies p)), (is_final_action (get_cog w cog));
      simpl; try done;
      destruct (confirm_after_n_loops (policies p) <=? loop_counter); try done;
      destruct (Qltb _ _); try done;
      destruct (confirm_on_missing_evidence (policies p)), (has_evidence_refs (get_cog w cog));
      simpl; try done;
      destruct (custom_handlers p !! _) eqn:E; try done;
      try (exfalso; by eapply is_Some_None); 
      try (exfalso; naive_solver).
  - intros H. rewrite bool_decide_eq_true_2 by done. done.
Qed.

Lemma evaluate_first_match_wins_witness :
  let w := (alloc_response demo_world (demo_response "send_email" false)).1 in
  "send_email" ∈ high_risk_tools (policies HITLPolicy_init)
  ∧ (evaluate HITLPolicy_init w 0%nat 0%nat 0).1 = APPROVE.
Proof.
  split.
  - vm_compute. apply list_elem_of_here.
  - apply (evaluate_first_match_wins HITLPolicy_init
             (alloc_response demo_world (demo_response "send_email" false)).1 0%nat 0%nat 0).
    vm_compute. apply list_elem_of_here.
Defined.

Lemma process_human_decision_ok w m fid d fb ma ra f e :
  frozen_states m !! fid = Some f →
  decision_event d = Some e →
  ∃ w1 m1 tid na,
    process_human_decision w m fid d fb ma ra = (w1, m1, DProcessed d tid fid na)
    ∧ frozen_states m1 = frozen_states m
    ∧ ∃ t, hitl_traces m1 = hitl_traces m ++ [t] ∧ is_event e fid t ∧ tr_actor t = "human".
Proof.
  intros Hf He. unfold process_human_decision. rewrite Hf, He.
  unfold _log_trace, _generate_trace_id, now. simpl.
  eexists _, _, _, _. split; [reflexivity|]. split; [reflexivity|].
  eexists. split; [reflexivity|]. repeat split.
Qed.

(** C1, as stated, fails: after a successful decision on a stored
    snapshot, the same call succeeds a second time. *)
Lemma decision_succeeds_twice : ¬ decision_at_most_once.
Proof.
  intros H.
  specialize (H live_frozen.1.1 live_frozen.1.2 "FREEZE-0001" "approve" None None None).
  vm_compute in H. specialize (H eq_refl). discriminate.
Qed.

(** C1, amended: for a stored snapshot and a decision among approve,
    reject and modify, [process_human_decision] succeeds, appends one
    decision event about that snapshot and leaves the snapshot store as it
    was, so that the same decision on the same identifier succeeds again
    every time. *)
Theorem decision_repeatable w m fid d fb ma ra f e :
  frozen_states m !! fid = Some f →
  decision_event d = Some e →
  let '(w1, m1, r1) := process_human_decision w m fid d fb ma ra in
  is_processed r1 = true
  ∧ frozen_states m1 = frozen_states m
  ∧ (∃ t, hitl_traces m1 = hitl_traces m ++ [t] ∧ is_event e fid t)
  ∧ ∀ fb' ma' ra', is_processed (process_human_decision w1 m1 fid d fb' ma' ra').2 = true.
Proof.
  intros Hf He. unfold process_human_decision at 1. rewrite Hf, He.
  unfold _log_trace, _generate_trace_id, now. simpl.
  repeat split.
  - eexists. split; [reflexivity|]. split; reflexivity.
  - intros fb' ma' ra'. unfold process_human_decision. simpl. rewrite Hf, He.
    unfold _log_trace, _generate_trace_id, now. simpl. reflexivity.
Qed.

Lemma decision_repeatable_witness :
  let '(w1, m1, r1) :=
    process_human_decision live_frozen.1.1 live_frozen.1.2 "FREEZE-0001" "reject"
                           (Some "wrong recipient") None None in
  is_processed r1 = true
  ∧ frozen_states m1 = frozen_states live_frozen.1.2
  ∧ (∃ t, hitl_traces m1 = hitl_traces live_frozen.1.2 ++ [t]
          ∧ is_event REJECTED "FREEZE-0001" t)
  ∧ ∀ fb' ma' ra',
      is_processed (process_human_decision w1 m1 "FREEZE-0001" "reject" fb' ma' ra').2 = true.
Proof.
  apply (decision_repeatable live_frozen.1.1 live_frozen.1.2 "FREEZE-0001" "reject"
           (Some "wrong recipient") None None live_frozen.2 REJECTED).
  - vm_compute. reflexivity.
  - reflexivity.
Defined.

(** C7: a decision about an identifier that is not in the snapshot store,
    or with a value other than approve, reject and modify, returns an
    error and leaves the object store, the clock, the snapshot store and
    the audit log as they were; [resume_from_freeze] hands the same error
    to its caller and leaves the loop unchanged. *)
Theorem failed_decision_mutates_nothing json_dumps s fid d fb ma ra :
  frozen_states (hitl_manager s) !! fid = None
  ∨ (d ≠ "approve" ∧ d ≠ "reject" ∧ d ≠ "modify") →
  ∃ e,
    process_human_decision (world s) (hitl_manager s) fid d fb ma ra
      = (world s, hitl_manager s, DError e)
    ∧ resume_from_freeze json_dumps s fid d fb ma ra = (s, inr e).
Proof.
  intros H.
  assert (∃ e, process_human_decision (world s) (hitl_manager s) fid d fb ma ra
               = (world s, hitl_manager s, DError e)) as [e He].
  { unfold process_human_decision.
    destruct (frozen_states (hitl_manager s) !! fid) as [f|] eqn:E; [|eauto].
    destruct H as [?|(H1 & H2 & H3)]; [done|].
    unfold decision_event. rewrite !decide_False by done. eauto. }
  exists e. split; [done|].
  unfold resume_from_freeze. rewrite He. destruct s. reflexivity.
Qed.

Lemma failed_decision_mutates_nothing_witness :
  let s := demo_scl "get_weather" true "auto" 5 in
  (frozen_states (hitl_manager s) !! "FREEZE-0042" = None
   ∨ ("approve" ≠ "approve" ∧ "approve" ≠ "reject" ∧ "approve" ≠ "modify"))
  ∧ ∃ e,
      process_human_decision (world s) (hitl_manager s) "FREEZE-0042" "approve" None None None
        = (world s, hitl_manager s, DError e)
      ∧ resume_from_freeze demo_json s "FREEZE-0042" "approve" None None None = (s, inr e).
Proof.
  split.
  - left. reflexivity.
  - apply (failed_decision_mutates_nothing demo_json (demo_scl "get_weather" true "auto" 5)
             "FREEZE-0042" "approve" None None None).
    left. reflexivity.
Defined.

(** ** Validation, resumption and the audit log of a run *)

Section LoopProperties.
Variable json_dumps : tree -> string.

(** C6: [control] sets the control-validated flag of a final cognition
    output before the governance rules are evaluated, so that the rule on
    unvalidated final actions finds nothing to report; and when the key
    derived from the tool name and the parameters is in the evidence
    cache, the result is the duplicate-call rejection whatever the rules
    said.  Otherwise the result is that of the rules on the marked
    output. *)
Theorem control_marks_final_and_rejects_duplicates s cog :
  let co := get_cog (world s) cog in
  let '(s', (valid, msg)) := control json_dumps s cog in
  let co' := get_cog (world s') cog in
  (is_final_action co = true →
     control_validated co' = true
     ∧ "Final action without Control validation" ∉ issues (metaprompt s) co')
  ∧ (∀ k, duplicate_key json_dumps (world s) co = Some k →
          has_evidence (memory s) k = true →
          (valid, msg) = (false, "REJECTED: Redundant tool call (evidence already in Memory)"))
  ∧ ((∀ k, duplicate_key json_dumps (world s) co = Some k →
           has_evidence (memory s) k = false) →
     (valid, msg) = validate (metaprompt s) co').
Proof.
  intros co. unfold control.
  set (w1 := if is_final_action (get_cog (world s) cog) then _ else _).
  assert (duplicate_key json_dumps w1 (get_cog w1 cog) = duplicate_key json_dumps (world s) co)
    as Hkey.
  { subst w1 co. destruct (is_final_action (get_cog (world s) cog)) eqn:F; [|done].
    unfold get_cog in *. destruct (cogs (world s) !! cog) as [c|] eqn:E; [|done].
    simpl. rewrite list_lookup_insert_eq by (by eapply lookup_lt_Some). done. }
  assert (is_final_action co = true → control_validated (get_cog w1 cog) = true) as Hval.
  { subst w1 co. intros F. rewrite F.
    unfold get_cog in *. destruct (cogs (world s) !! cog) as [c|] eqn:E; [|done].
    simpl. rewrite list_lookup_insert_eq by (by eapply lookup_lt_Some). done. }
  assert (is_final_action co = true →
          control_validated (get_cog w1 cog) = true
          ∧ "Final action without Control validation" ∉ issues (metaprompt s) (get_cog w1 cog))
    as Hiss.
  { intros F. split; [by apply Hval|]. unfold issues. rewrite (Hval F).
    rewrite andb_false_r, app_nil_r.
    case_match; [apply not_elem_of_cons; split; [done|]|]; apply not_elem_of_nil. }
  destruct (validate (metaprompt s) (get_cog w1 cog)) as [v0 m0] eqn:V.
  rewrite Hkey. unfold now.
  destruct (duplicate_key json_dumps (world s) co) as [k|] eqn:K.
  - destruct (has_evidence (memory s) k) eqn:Hev; simpl.
    + split; [exact Hiss|]. split; [done|].
      intros Hno. specialize (Hno k eq_refl). congruence.
    + split; [exact Hiss|]. split; [|symmetry; exact V].
      intros k' [= <-] ?. congruence.
  - simpl. split; [exact Hiss|]. split; [|symmetry; exact V]. intros k' [=].
Qed.

Lemma ccam_loop_counter_mono merge fuel s ctx :
  loop_counter s ≤ loop_counter (ccam_loop json_dumps merge fuel s ctx).1
  ∧ max_loops (ccam_loop json_dumps merge fuel s ctx).1 = max_loops s.
Proof.
  revert s. induction fuel as [|fuel IH]; intros s; simpl; [split; [lia|done]|].
  case_match; [|split; [simpl; lia|done]].
  pose proof (iteration_counter json_dumps merge s ctx) as I.
  destruct (iteration json_dumps merge s ctx) as [s' [e|]]; simpl in *.
  - split; [lia|tauto].
  - destruct (IH s') as [IH1 IH2]. split; [lia|]. rewrite IH2. tauto.
Qed.

(** C5: after a successful decision, [resume_from_freeze] continues from
    the state in which the working store, the evidence cache and the loop
    counter are those of the snapshot, taken as they are; and through the
    loop the counter never decreases: an iteration adds one to it. *)
Theorem resume_restores_snapshot_verbatim s fid d fb ma ra f e :
  frozen_states (hitl_manager s) !! fid = Some f →
  decision_event d = Some e →
  let '(w1, m1, r) := process_human_decision (world s) (hitl_manager s) fid d fb ma ra in
  let restored := restore_from (set_world (set_hitl_manager s m1) w1) f in
  (∃ tid na, r = DProcessed d tid fid na
     ∧ resume_from_freeze json_dumps s fid d fb ma ra
       = (let '(s2, report) := resume_continue json_dumps restored f na fb in (s2, inl report)))
  ∧ store (memory restored) = default ∅ (ms_store (fz_memory_snapshot f))
  ∧ evidence_cache (memory restored) = fz_evidence_cache f
  ∧ loop_counter restored = fz_loop_counter f
  ∧ (∀ merge fuel s0 ctx,
       loop_counter s0 ≤ loop_counter (ccam_loop json_dumps merge fuel s0 ctx).1)
  ∧ (∀ merge s0 ctx,
       loop_counter (iteration json_dumps merge s0 ctx).1 = loop_counter s0 + 1)
  ∧ (∀ s0 task, loop_counter s0 ≤ loop_counter (run json_dumps s0 task).1).
Proof.
  intros Hf He.
  destruct (process_human_decision_ok (world s) (hitl_manager s) fid d fb ma ra f e Hf He)
    as (w1 & m1 & tid & na & P & Hfs & _).
  rewrite P.
  split; [|repeat split].
  - unfold resume_from_freeze. rewrite P.
    eexists _, _. split; [reflexivity|]. simpl. rewrite Hfs, Hf. reflexivity.
  - intros merge fuel s0 ctx. apply ccam_loop_counter_mono.
  - intros merge s0 ctx. apply iteration_counter.
  - intros s0 task. unfold run, run_exit.
    pose proof (run_start_frame s0 task) as Rf.
    destruct (run_start s0 task) as [s2 c]. simpl in Rf. destruct Rf as (R1 & _).
    pose proof (ccam_loop_counter_mono true (loop_fuel s2) s2 c) as X.
    destruct (ccam_loop json_dumps true (loop_fuel s2) s2 c). simpl in *. lia.
Qed.

(** C8: after a run, the audit log holds, for every stored snapshot, one
    state-frozen event with its identifier and no other, and every
    state-thawed event with that identifier comes later in the log. *)
Theorem frozen_event_once_and_before_thaw s task fid f :
  audit_ok (hitl_manager s) →
  let log := hitl_traces (hitl_manager (run json_dumps s task).1) in
  frozen_states (hitl_manager (run json_dumps s task).1) !! fid = Some f →
  ∃ i t, log !! i = Some t ∧ is_event STATE_FROZEN fid t
    ∧ (∀ k t', log !! k = Some t' → is_event STATE_FROZEN fid t' → k = i)
    ∧ (∀ j t', log !! j = Some t' → is_event STATE_THAWED fid t' → (i < j)%nat).
Proof.
  intros H log Hs. subst log.
  assert (audit_ok (hitl_manager (run json_dumps s task).1)) as [A1 A2 A3 A4].
  { apply (manager_inv_run json_dumps audit_ok); auto using audit_ok_freeze, audit_ok_thaw,
      audit_ok_request, audit_ok_process. }
  destruct (A3 _ _ Hs) as (i & t & Hi & Hev).
  exists i, t. split; [done|]. split; [done|]. split.
  - intros k t' Hk [E1 E2]. destruct Hev as [E3 E4].
    apply (A2 k i t' t); congruence.
  - intros j t' Hj Hth. destruct (A4 j t' fid Hj Hth) as (i' & t0 & Hlt & Hi' & [E1 E2]).
    destruct Hev as [E3 E4].
    assert (i' = i) as -> by (apply (A2 i' i t0 t); congruence). done.
Qed.

(** C10: a decision event appended by [process_human_decision] has the
    actor "human", whoever called it (the console operator, the automatic
    approval of the handler, or the approval of a notify-level intervention
    without a handler); hence after a run no decision event in the audit
    log has the actor "system". *)
Theorem decisions_recorded_as_human s task :
  (∀ w m fid d fb ma ra,
      hitl_traces (process_human_decision w m fid d fb ma ra).1.2 = hitl_traces m
      ∨ ∃ t, hitl_traces (process_human_decision w m fid d fb ma ra).1.2 = hitl_traces m ++ [t]
             ∧ is_decision_event (tr_event_type t) = true ∧ tr_actor t = "human")
  ∧ (decisions_by_human (hitl_manager s) →
     decisions_by_human (hitl_manager (run json_dumps s task).1)
     ∧ ∀ t, t ∈ hitl_traces (hitl_manager (run json_dumps s task).1) →
            is_decision_event (tr_event_type t) = true → tr_actor t ≠ "system").
Proof.
  split.
  - intros w m fid d fb ma ra. unfold process_human_decision.
    destruct (frozen_states m !! fid) as [f|]; [|by left].
    destruct (decision_event d) as [e|] eqn:D; [|by left].
    right. apply decision_event_not_state in D as (_ & _ & D).
    unfold _log_trace, _generate_trace_id, now. simpl. eauto.
  - intros H.
    assert (decisions_by_human (hitl_manager (run json_dumps s task).1)) as H'.
    { apply (manager_inv_run json_dumps decisions_by_human); [| | | |done].
      - intros. unfold freeze_state. destruct_lets. simpl.
        match goal with E : _log_trace ?w ?m ?e ?fid ?pa ?hd ?hf ?ma ?dr ?ac = _ |- _ =>
          pose proof (decisions_by_human_log w m e fid pa hd hf ma dr ac) as X;
          rewrite E in X end.
        apply X; [|done]. intros t Ht. simpl in Ht.
        match goal with E : _generate_freeze_id _ = _ |- _ =>
          unfold _generate_freeze_id in E; injection E as <- _ end. simpl in Ht. auto.
      - intros w m fid' Hm. unfold thaw_state. case_match; [|done]. destruct_lets. simpl.
        match goal with E : _log_trace ?w ?m ?e ?fid ?pa ?hd ?hf ?ma ?dr ?ac = _ |- _ =>
          pose proof (decisions_by_human_log w m e fid pa hd hf ma dr ac) as X;
          rewrite E in X end. apply X; done.
      - intros w m f' Hm. unfold request_approval. destruct_lets. simpl.
        match goal with E : _log_trace ?w ?m ?e ?fid ?pa ?hd ?hf ?ma ?dr ?ac = _ |- _ =>
          pose proof (decisions_by_human_log w m e fid pa hd hf ma dr ac) as X;
          rewrite E in X end. apply X; done.
      - intros w m fid' d fb ma ra Hm. unfold process_human_decision.
        repeat case_match; try done. simpl.
        match goal with E : _log_trace ?w ?m ?e ?fid ?pa ?hd ?hf ?ma ?dr ?ac = _ |- _ =>
          pose proof (decisions_by_human_log w m e fid pa hd hf ma dr ac) as X;
          rewrite E in X end. apply X; done. }
    split; [done|]. intros t Ht Hd. rewrite (H' t Ht Hd). done.
Qed.

End LoopProperties.

(** ** Runs that end on the loop counter *)

Section Exhaustion.
Variable json_dumps : tree -> string.

Lemma iteration_exit merge s ctx :
  (iteration json_dumps merge s ctx).2 ≠ Some ExitExhausted.
Proof.
  unfold iteration. repeat (case_match || destruct_lets); simpl; done.
Qed.

Lemma ccam_loop_fuel merge fuel fuel' s ctx :
  max_loops s - loop_counter s ≤ Z.of_nat fuel →
  max_loops s - loop_counter s ≤ Z.of_nat fuel' →
  ccam_loop json_dumps merge fuel s ctx = ccam_loop json_dumps merge fuel' s ctx.
Proof.
  revert fuel' s. induction fuel as [|fuel IH]; intros [|fuel'] s H1 H2; simpl; try done.
  - rewrite (proj2 (Z.ltb_ge _ _)) by lia. done.
  - rewrite (proj2 (Z.ltb_ge _ _)) by lia. done.
  - case_match; [|done]. apply Z.ltb_lt in H.
    pose proof (iteration_counter json_dumps merge s ctx) as I.
    destruct (iteration json_dumps merge s ctx) as [s' [e|]]; simpl in *; [done|].
    apply IH; lia.
Qed.

Lemma ccam_loop_exhausted merge fuel s ctx :
  max_loops s - loop_counter s ≤ Z.of_nat fuel →
  loop_counter s ≤ max_loops s →
  loop_counter (ccam_loop json_dumps merge fuel s ctx).1 ≤ max_loops s
  ∧ ((ccam_loop json_dumps merge fuel s ctx).2 = ExitExhausted →
     loop_counter (ccam_loop json_dumps merge fuel s ctx).1 = max_loops s).
Proof.
  revert s. induction fuel as [|fuel IH]; intros s H1 H2; simpl.
  - split; [done|]. intros _. lia.
  - case_match.
    + apply Z.ltb_lt in H.
      pose proof (iteration_counter json_dumps merge s ctx) as I.
      pose proof (iteration_exit merge s ctx) as X.
      destruct (iteration json_dumps merge s ctx) as [s' [e|]]; simpl in *.
      * split; [lia|]. intros ->. done.
      * destruct I as [I1 I2]. rewrite <- I2. apply IH; lia.
    + apply Z.ltb_ge in H. simpl. split; [done|]. intros _. lia.
Qed.

(** C3, amended: the report returned by [run] is built from the final
    state alone; its summary gives the loop counter as [total_loops], and
    when the loop ended on its counter that count is the configured
    maximum.  The summary has no field telling how the loop ended. *)
Theorem exhausted_run_reports_loop_count s task :
  loop_counter s ≤ max_loops s →
  let '(s', exit) := run_exit json_dumps s task in
  (run json_dumps s task).2 = _generate_audit_report s'
  ∧ total_loops (rp_summary (_generate_audit_report s')) = loop_counter s'
  ∧ (exit = ExitExhausted → loop_counter s' = max_loops s).
Proof.
  intros H. unfold run. destruct (run_exit json_dumps s task) as [s' exit] eqn:E.
  split; [done|]. split; [done|].
  unfold run_exit in E.
  pose proof (run_start_frame s task) as R.
  destruct (run_start s task) as [s2 c]. simpl in R. destruct R as (R1 & R2 & _).
  pose proof (ccam_loop_exhausted true (loop_fuel s2) s2 c) as X. rewrite E in X.
  simpl in X. unfold loop_fuel in X. rewrite <- R2. apply X; lia.
Qed.

End Exhaustion.

(** C3, as stated, fails: a run that ends on its counter and a run that
    completes on a final action return the same summary. *)
Lemma summary_does_not_mark_exhaustion : ¬ summary_marks_exhaustion demo_json.
Proof.
  intros [marker H].
  pose proof (H (demo_scl "get_weather" true "disabled" 1) "task") as HA.
  pose proof (H (demo_scl "get_weather" false "disabled" 1) "task") as HB.
  assert ((run_exit demo_json (demo_scl "get_weather" true "disabled" 1) "task").2
          = ExitCompleted) as EA by (vm_compute; reflexivity).
  assert ((run_exit demo_json (demo_scl "get_weather" false "disabled" 1) "task").2
          = ExitExhausted) as EB by (vm_compute; reflexivity).
  assert (rp_summary (_generate_audit_report
            (run_exit demo_json (demo_scl "get_weather" true "disabled" 1) "task").1)
          = rp_summary (_generate_audit_report
            (run_exit demo_json (demo_scl "get_weather" false "disabled" 1) "task").1)) as ES
    by (vm_compute; reflexivity).
  destruct (run_exit demo_json (demo_scl "get_weather" true "disabled" 1) "task") as [sa ea].
  destruct (run_exit demo_json (demo_scl "get_weather" false "disabled" 1) "task") as [sb eb].
  simpl in *. subst ea eb. rewrite ES in HA.
  assert (marker (rp_summary (_generate_audit_report sb)) = true) as M by (by apply HB).
  apply HA in M. discriminate.
Qed.

Lemma exhausted_run_reports_loop_count_witness :
  let s := demo_scl "get_weather" false "disabled" 3 in
  loop_counter s ≤ max_loops s
  ∧ (run_exit demo_json s "task").2 = ExitExhausted
  ∧ let '(s', exit) := run_exit demo_json s "task" in
    (run demo_json s "task").2 = _generate_audit_report s'
    ∧ total_loops (rp_summary (_generate_audit_report s')) = loop_counter s'
    ∧ (exit = ExitExhausted → loop_counter s' = max_loops s).
Proof.
  split; [vm_compute; discriminate|]. split; [vm_compute; reflexivity|].
  apply (exhausted_run_reports_loop_count demo_json (demo_scl "get_weather" false "disabled" 3)
           "task").
  vm_compute; discriminate.
Defined.

(** ** Failing actions *)

Section ActionFailure.
Variable json_dumps : tree -> string.


Lemma action_world s cog ma :
  ctxs (world (action json_dumps s cog ma).1) = ctxs (world s)
  ∧ ∀ t, t ∈ history (memory s) → t ∈ history (memory (action json_dumps s cog ma).1).
Proof.
  unfold action, now.
  repeat case_match; simpl; (split; [done|]); try done;
    intros tr Htr; rewrite elem_of_app; by left.
Qed.


(** The same holds for the action dispatched by [resume_from_freeze]: its
    result is written into the snapshot's context, which the report shows
    among the stored snapshots. *)
Lemma resumed_action_result_surfaces s f modified fb s2 result :
  frozen_states (hitl_manager s) !! fz_freeze_id f = Some f →
  (fz_context f < length (ctxs (world s)))%nat →
  action json_dumps
         (let '(w1, m1, _) := thaw_state (world s) (hitl_manager s) (fz_freeze_id f) in
          set_world (set_hitl_manager s m1) w1)
         (fz_cognition_output f) (Some modified) = (s2, result) →
  let s3 := set_world s2 (ctx_set (world s2) (fz_context f) "last_action_result"
                                  (CTree result)) in
  resume_continue json_dumps s f (NAExecute modified) fb
    = (if negb (is_final_action (get_cog (world s3) (fz_cognition_output f)))
       then _continue_execution json_dumps (set_is_resumed s3 true) (fz_context f)
       else (s3, _generate_audit_report s3))
  ∧ ∃ v, al_frozen_states (rp_hitl_log (_generate_audit_report s3)) !! fz_freeze_id f = Some v
         ∧ fv_context v !! "last_action_result" = Some (RTree result).
Proof.
  intros Hf Hctx Hact s3.
  unfold resume_continue.
  assert (ctxs (thaw_state (world s) (hitl_manager s) (fz_freeze_id f)).1.1 = ctxs (world s)
          ∧ frozen_states (thaw_state (world s) (hitl_manager s) (fz_freeze_id f)).1.2
            = frozen_states (hitl_manager s)) as [T1 T2].
  { split; [apply thaw_state_ctxs|]. unfold thaw_state. rewrite Hf.
    unfold _log_trace, _generate_trace_id, now. done. }
  destruct (thaw_state (world s) (hitl_manager s) (fz_freeze_id f)) as [[w1 m1] o].
  cbn [fst snd] in T1, T2.
  rewrite Hact. fold s3. split; [done|].
  pose proof (action_world (set_world (set_hitl_manager s m1) w1) (fz_cognition_output f)
                (Some modified)) as [L _].
  pose proof (action_frame json_dumps (set_world (set_hitl_manager s m1) w1)
                (fz_cognition_output f) (Some modified)) as (_ & _ & M & _).
  rewrite Hact in L, M. cbn [fst snd] in L, M. simpl in L, M.
  exists (frozen_to_dict (world s3) f). split.
  - unfold _generate_audit_report, get_audit_log. simpl.
    rewrite lookup_fmap, M, T2, Hf. done.
  - simpl. unfold resolve_ctx, get_ctx. simpl.
    rewrite lookup_fmap, list_lookup_insert_eq by (rewrite L, T1; done).
    simpl. rewrite lookup_insert_eq. done.
Qed.

End ActionFailure.

(** ** Snapshots and live state *)

Lemma freeze_state_pending_alias w m lc cog ms ev ctx mps lvl reason a :
  proposed_action (get_cog w cog) = Some a →
  fz_pending_action (freeze_state w m lc cog ms ev ctx mps lvl reason).2 = a.
Proof.
  intros H. unfold freeze_state, _generate_freeze_id, now.
  change (get_cog (mkWorld (acts w) (cogs w) (ctxs w) (S (clock w)) (wall_clock w)) cog)
    with (get_cog w cog).
  rewrite H. destruct_lets. done.
Qed.

Lemma freeze_then_thaw w m lc cog ms ev ctx mps lvl reason w' :
  let '(w1, m1, f) := freeze_state w m lc cog ms ev ctx mps lvl reason in
  (thaw_state w' m1 (fz_freeze_id f)).2 = Some f
  ∧ fz_memory_snapshot f = ms ∧ fz_evidence_cache f = ev ∧ fz_loop_counter f = lc.
Proof.
  unfold freeze_state, _generate_freeze_id, _log_trace, _generate_trace_id, now.
  destruct (match proposed_action _ with Some a => _ | None => _ end) as [w2 pending].
  destruct (deepcopy_cog w2 cog) as [w3 cog'].
  destruct (deepcopy_ctx w3 ctx) as [w4 ctx'].
  unfold thaw_state. simpl. rewrite lookup_insert_eq. done.
Qed.

(** C2: the snapshot stored by [freeze_state] keeps, as its pending action,
    the very dictionary the live cognition output proposes; a later
    assignment to the live proposed action shows in the stored snapshot,
    whereas the copy held inside the snapshot's cognition output does not
    change. *)
Theorem freeze_state_shares_pending_action :
  let '(w, m, f) := live_frozen in
  let mutated := set_act w 0%nat (mkAction (Some "delete_data") None) in
  frozen_states m !! "FREEZE-0001" = Some f
  ∧ proposed_action (get_cog live_world 0%nat) = Some (fz_pending_action f)
  ∧ fv_pending_action (frozen_to_dict w f)
    = mkAction (Some "send_email") (Some (TDict [("recipient", TStr "test-scl@test.com")]))
  ∧ fv_pending_action (frozen_to_dict mutated f) = mkAction (Some "delete_data") None
  ∧ cv_proposed_action (fv_cognition_output (frozen_to_dict mutated f))
    = Some (mkAction (Some "send_email")
                     (Some (TDict [("recipient", TStr "test-scl@test.com")]))).
Proof. vm_compute. repeat split; reflexivity. Qed.

Lemma freeze_state_copies_fresh w m lc cog ms ev ctx mps lvl reason :
  let '(w1, m1, f) := freeze_state w m lc cog ms ev ctx mps lvl reason in
  (length (cogs w) ≤ fz_cognition_output f)%nat ∧ (length (ctxs w) ≤ fz_context f)%nat.
Proof.
  unfold freeze_state, _generate_freeze_id, _log_trace, _generate_trace_id, now.
  set (w1 := mkWorld _ _ _ _ _).
  destruct (match proposed_action (get_cog w1 cog) with
            | Some a => (w1, a) | None => alloc_act w1 empty_action end) as [w2 pending] eqn:E.
  assert (cogs w2 = cogs w ∧ ctxs w2 = ctxs w) as [C2 X2]
    by (destruct (proposed_action _); injection E as <- _; done).
  pose proof (deepcopy_cog_ctxs w2 cog) as X3.
  assert ((deepcopy_cog w2 cog).2 = length (cogs w2)) as C3
    by (unfold deepcopy_cog, deepcopy_act, alloc_act, alloc_cog;
        destruct (proposed_action (get_cog w2 cog)); reflexivity).
  destruct (deepcopy_cog w2 cog) as [w3 cog']. simpl in X3, C3.
  assert ((deepcopy_ctx w3 ctx).2 = length (ctxs w3)) as X4.
  { unfold deepcopy_ctx.
    pose proof (deepcopy_items_ctxs w3 (map_to_list (get_ctx w3 ctx))) as D.
    destruct (deepcopy_items _ _) as [w' kvs]. simpl in *. by rewrite D. }
  destruct (deepcopy_ctx w3 ctx) as [w4 ctx']. simpl in *.
  rewrite C3, X4, C2, X3, X2. done.
Qed.


(** ** The claims at concrete inputs *)

Lemma control_marks_final_and_rejects_duplicates_witness :
  is_final_action (get_cog (world dup_scl) 0%nat) = true
  ∧ duplicate_key demo_json (world dup_scl) (get_cog (world dup_scl) 0%nat)
    = Some "evidence_get_weather_{}"
  ∧ has_evidence (memory dup_scl) "evidence_get_weather_{}" = true
  ∧ (control demo_json dup_scl 0%nat).2
    = (false, "REJECTED: Redundant tool call (evidence already in Memory)")
  ∧ control_validated (get_cog (world (control demo_json dup_scl 0%nat).1) 0%nat) = true.
Proof.
  assert (is_final_action (get_cog (world dup_scl) 0%nat) = true) as F
    by (vm_compute; reflexivity).
  assert (duplicate_key demo_json (world dup_scl) (get_cog (world dup_scl) 0%nat)
          = Some "evidence_get_weather_{}") as K by (vm_compute; reflexivity).
  assert (has_evidence (memory dup_scl) "evidence_get_weather_{}" = true) as E
    by (vm_compute; reflexivity).
  pose proof (control_marks_final_and_rejects_duplicates demo_json dup_scl 0%nat) as H.
  cbv zeta in H.
  destruct (control demo_json dup_scl 0%nat) as [s' [v msg]].
  destruct H as (H1 & H2 & _).
  split; [exact F|]. split; [exact K|]. split; [exact E|].
  split; [exact (H2 _ K E)|]. exact (proj1 (H1 F)).
Defined.

Lemma resume_restores_snapshot_verbatim_witness :
  ∃ f, frozen_states (hitl_manager blocked_scl) !! "FREEZE-0001" = Some f
    ∧ decision_event "approve" = Some APPROVED
    ∧ fz_loop_counter f = 1
    ∧ let '(w1, m1, r) :=
        process_human_decision (world blocked_scl) (hitl_manager blocked_scl)
                               "FREEZE-0001" "approve" None None None in
      let restored := restore_from (set_world (set_hitl_manager blocked_scl m1) w1) f in
      store (memory restored) = default ∅ (ms_store (fz_memory_snapshot f))
      ∧ evidence_cache (memory restored) = fz_evidence_cache f
      ∧ loop_counter restored = fz_loop_counter f.
Proof.
  assert (is_Some (frozen_states (hitl_manager blocked_scl) !! "FREEZE-0001")) as [f E]
    by (vm_compute; eexists; reflexivity).
  exists f. split; [exact E|]. split; [reflexivity|]. split.
  - assert (fz_loop_counter <$> frozen_states (hitl_manager blocked_scl) !! "FREEZE-0001"
            = Some 1) as L by (vm_compute; reflexivity).
    rewrite E in L. injection L as L. exact L.
  - pose proof (resume_restores_snapshot_verbatim demo_json blocked_scl "FREEZE-0001"
                  "approve" None None None f APPROVED E eq_refl) as H.
    destruct (process_human_decision _ _ _ _ _ _ _) as [[w1 m1] r].
    destruct H as (_ & H2 & H3 & H4 & _). split; [exact H2|]. split; [exact H3|exact H4].
Defined.

Lemma frozen_event_once_and_before_thaw_witness :
  audit_ok (hitl_manager (demo_scl "get_weather" true "auto" 5))
  ∧ ∃ f, frozen_states (hitl_manager approved_scl) !! "FREEZE-0001" = Some f
    ∧ ∃ i t, hitl_traces (hitl_manager approved_scl) !! i = Some t
        ∧ is_event STATE_FROZEN "FREEZE-0001" t
        ∧ (∀ k t', hitl_traces (hitl_manager approved_scl) !! k = Some t' →
                   is_event STATE_FROZEN "FREEZE-0001" t' → k = i)
        ∧ (∀ j t', hitl_traces (hitl_manager approved_scl) !! j = Some t' →
                   is_event STATE_THAWED "FREEZE-0001" t' → (i < j)%nat).
Proof.
  split; [apply audit_ok_init|].
  assert (is_Some (frozen_states (hitl_manager approved_scl) !! "FREEZE-0001")) as [f E]
    by (vm_compute; eexists; reflexivity).
  exists f. split; [exact E|].
  exact (frozen_event_once_and_before_thaw demo_json (demo_scl "get_weather" true "auto" 5)
           "task" "FREEZE-0001" f (audit_ok_init _) E).
Defined.

Lemma decisions_recorded_as_human_witness :
  decisions_by_human (hitl_manager (demo_scl "get_weather" true "auto" 5))
  ∧ decisions_by_human (hitl_manager approved_scl)
  ∧ ∃ t, hitl_traces (hitl_manager approved_scl) !! 2%nat = Some t
         ∧ tr_event_type t = APPROVED
         ∧ tr_decision_rationale t = Some "Auto-approved for testing"
         ∧ tr_actor t = "human".
Proof.
  assert (decisions_by_human (hitl_manager (demo_scl "get_weather" true "auto" 5))) as H0.
  { intros t Ht. apply elem_of_nil in Ht. destruct Ht. }
  destruct (decisions_recorded_as_human demo_json (demo_scl "get_weather" true "auto" 5) "task")
    as [_ H]. destruct (H H0) as [H1 _].
  split; [exact H0|]. split; [exact H1|].
  assert (is_Some (hitl_traces (hitl_manager approved_scl) !! 2%nat)) as [t E]
    by (vm_compute; eexists; reflexivity).
  exists t. split; [exact E|].
  assert ((λ t, (tr_event_type t, tr_decision_rationale t))
            <$> hitl_traces (hitl_manager approved_scl) !! 2%nat
          = Some (APPROVED, Some "Auto-approved for testing")) as L
    by (vm_compute; reflexivity).
  rewrite E in L. injection L as T R.
  split; [exact T|]. split; [exact R|].
  apply H1; [by eapply list_elem_of_lookup_2|]. rewrite T. reflexivity.
Defined.



(** * Further properties of the loop and of the suspension manager *)

(** ** The working store and the evidence cache through a run *)

Section MemoryThroughRun.
Variable json_dumps : tree -> string.

Lemma cognition_memory s ctx :
  store (memory (cognition s ctx).1) = store (memory s)
  ∧ evidence_cache (memory (cognition s ctx).1) = evidence_cache (memory s).
Proof. unfold cognition. destruct_lets. done. Qed.

Lemma control_memory s cog :
  store (memory (control json_dumps s cog).1) = store (memory s)
  ∧ evidence_cache (memory (control json_dumps s cog).1) = evidence_cache (memory s).
Proof. unfold control. destruct_lets. done. Qed.

Lemma hitl_check_memory s cog ctx :
  store (memory (hitl_check s cog ctx).1) = store (memory s)
  ∧ evidence_cache (memory (hitl_check s cog ctx).1) = evidence_cache (memory s).
Proof. unfold hitl_check. repeat (case_match || destruct_lets); done. Qed.

Lemma action_memory s cog ma :
  store (memory (action json_dumps s cog ma).1) = store (memory s)
  ∧ dom (evidence_cache (memory s)) ⊆ dom (evidence_cache (memory (action json_dumps s cog ma).1)).
Proof.
  unfold action, now. repeat case_match; simpl; (split; [done|]); try done.
  all: rewrite dom_insert_L; set_solver.
Qed.

Lemma iteration_memory merge s ctx :
  store (memory (iteration json_dumps merge s ctx).1) = store (memory s)
  ∧ dom (evidence_cache (memory s))
    ⊆ dom (evidence_cache (memory (iteration json_dumps merge s ctx).1)).
Proof.
  unfold iteration.
  set (s0 := if merge then merge_resume_context s ctx else s).
  assert (memory s0 = memory s) as E0.
  { subst s0. destruct merge; [|done]. unfold merge_resume_context. by case_match. }
  pose proof (cognition_memory s0 ctx) as C.
  destruct (cognition s0 ctx) as [s1 cog]. cbn [fst snd] in C. destruct C as [C1 C2].
  set (s2 := set_world s1 _).
  pose proof (control_memory s2 cog) as K.
  destruct (control json_dumps s2 cog) as [s3 [v msg]]. cbn [fst snd] in K.
  destruct K as [K1 K2].
  assert (store (memory s3) = store (memory s)
          ∧ evidence_cache (memory s3) = evidence_cache (memory s)) as [S3 V3].
  { rewrite K1, K2. subst s2. simpl. rewrite C1, C2, E0. done. }
  destruct v; simpl; [|by rewrite S3, V3].
  pose proof (hitl_check_memory s3 cog ctx) as Hc.
  destruct (hitl_check s3 cog ctx) as [s4 [p md]]. cbn [fst snd] in Hc.
  destruct Hc as [Hc1 Hc2].
  destruct p; simpl.
  - pose proof (action_memory s4 cog (modified_arg md)) as A.
    destruct (action json_dumps s4 cog (modified_arg md)) as [s5 r]. cbn [fst snd] in A.
    destruct A as [A1 A2]. rewrite Hc2, V3 in A2.
    case_match; simpl; (split; [congruence|done]).
  - destruct md; simpl; by rewrite Hc1, Hc2, S3, V3.
Qed.

Lemma ccam_loop_memory merge fuel s ctx :
  store (memory (ccam_loop json_dumps merge fuel s ctx).1) = store (memory s)
  ∧ dom (evidence_cache (memory s))
    ⊆ dom (evidence_cache (memory (ccam_loop json_dumps merge fuel s ctx).1)).
Proof.
  revert s. induction fuel as [|fuel IH]; intros s; simpl; [done|].
  case_match; [|done].
  pose proof (iteration_memory merge s ctx) as I.
  destruct (iteration json_dumps merge s ctx) as [s' [e|]]; cbn [fst snd] in *; [done|].
  destruct I as [I1 I2], (IH s') as [J1 J2]. split; [congruence|by etrans].
Qed.

(** X1: the loops never write the working store.  [run] leaves the store
    as it found it except for the two entries its retrieval stage writes,
    [task] and [retrieval_plan], and the report reads the task back. *)
Theorem run_writes_the_store_in_retrieval_only s task :
  (∀ merge fuel s0 ctx,
      store (memory (ccam_loop json_dumps merge fuel s0 ctx).1) = store (memory s0))
  ∧ (∃ ts1 ts2,
       store (memory (run json_dumps s task).1)
       = <["retrieval_plan" := mkStoreEntry retrieval_plan ts2 None]>
           (<["task" := mkStoreEntry (TStr task) ts1 None]> (store (memory s))))
  ∧ rp_task (run json_dumps s task).2 = Some (TStr task).
Proof.
  split; [intros; apply ccam_loop_memory|].
  unfold run, run_exit, run_start, retrieval, write, now, alloc_ctx. simpl.
  match goal with |- context [ccam_loop json_dumps true ?f ?s2 ?c] =>
    pose proof (ccam_loop_memory true f s2 c) as [X _];
    destruct (ccam_loop json_dumps true f s2 c) as [s' e] end.
  cbn [fst snd] in *. simpl in X. split.
  - eexists _, _. exact X.
  - unfold _generate_audit_report. simpl. unfold read. rewrite X.
    rewrite lookup_insert_ne by done. rewrite lookup_insert_eq. done.
Qed.

(** X2: evidence is never dropped: every key the evidence cache holds
    before [run], or before either loop, it still holds afterwards. *)
Theorem run_never_drops_evidence s task :
  dom (evidence_cache (memory s)) ⊆ dom (evidence_cache (memory (run json_dumps s task).1))
  ∧ ∀ merge fuel s0 ctx,
      dom (evidence_cache (memory s0))
      ⊆ dom (evidence_cache (memory (ccam_loop json_dumps merge fuel s0 ctx).1)).
Proof.
  split; [|intros; apply ccam_loop_memory].
  unfold run, run_exit, run_start, retrieval, write, now, alloc_ctx. simpl.
  match goal with |- context [ccam_loop json_dumps true ?f ?s2 ?c] =>
    pose proof (ccam_loop_memory true f s2 c) as [_ X];
    destruct (ccam_loop json_dumps true f s2 c) as [s' e] end.
  cbn [fst snd] in *. exact X.
Qed.

End MemoryThroughRun.

(** ** Validation and dispatch *)

Section ControlAndAction.
Variable json_dumps : tree -> string.

(** The cognition output as [control] leaves it. *)
Lemma control_result s cog :
  let co := get_cog (world s) cog in
  let co' := if is_final_action co then mark_validated co else co in
  get_cog (world (control json_dumps s cog).1) cog = co'
  ∧ (control json_dumps s cog).2
    = match duplicate_key json_dumps (world s) co with
      | Some k => if has_evidence (memory s) k
                  then (false, "REJECTED: Redundant tool call (evidence already in Memory)")
                  else validate (metaprompt s) co'
      | None => validate (metaprompt s) co'
      end.
Proof.
  intros co co'. unfold control, now.
  set (w1 := if is_final_action (get_cog (world s) cog) then _ else _).
  assert (get_cog w1 cog = co') as Hco.
  { subst w1 co' co. destruct (is_final_action (get_cog (world s) cog)) eqn:F; [|done].
    unfold get_cog in *. destruct (cogs (world s) !! cog) as [c|] eqn:E; [|done].
    simpl. rewrite list_lookup_insert_eq by (by eapply lookup_lt_Some). done. }
  assert (duplicate_key json_dumps w1 co' = duplicate_key json_dumps (world s) co) as Hkey.
  { subst w1 co' co. destruct (is_final_action (get_cog (world s) cog)); done. }
  rewrite Hco, Hkey.
  destruct (validate (metaprompt s) co') as [v0 m0].
  destruct (duplicate_key json_dumps (world s) co) as [k|];
    [destruct (has_evidence (memory s) k)|]; simpl; (split; [exact Hco|done]).
Qed.

(** X3: [control] reports success exactly when its message is PASS, and
    it has three messages only: PASS, the violation for missing evidence
    citations and the rejection of a redundant call.  The violation
    "Final action without Control validation" of [MetaPrompt.validate]
    cannot come out of [control], which marks a final action validated
    before it validates. *)
Theorem control_messages s cog :
  let '(valid, msg) := (control json_dumps s cog).2 in
  (valid = true ↔ msg = "PASS")
  ∧ (msg = "PASS"
     ∨ msg = "VIOLATIONS: Missing evidence citations"
     ∨ msg = "REJECTED: Redundant tool call (evidence already in Memory)").
Proof.
  pose proof (control_result s cog) as [_ R]. cbv zeta in R. rewrite R.
  set (co := get_cog (world s) cog).
  set (co' := if is_final_action co then mark_validated co else co).
  assert (let '(valid, msg) := validate (metaprompt s) co' in
          (valid = true ↔ msg = "PASS")
          ∧ (msg = "PASS" ∨ msg = "VIOLATIONS: Missing evidence citations")) as V.
  { unfold validate, issues.
    assert (is_final_action co' && negb (control_validated co') = false) as ->.
    { subst co'. destruct (is_final_action co) eqn:F; simpl;
        [apply andb_false_r|by rewrite F]. }
    rewrite app_nil_r.
    destruct (must_cite_stored_evidence (rules (metaprompt s)) && negb (has_evidence_refs co'));
      simpl; (split; [|auto]); split; done. }
  destruct (validate (metaprompt s) co') as [v0 m0].
  destruct (duplicate_key json_dumps (world s) co) as [k|];
    [destruct (has_evidence (memory s) k)|].
  - split; [split; done|auto].
  - destruct V as [V1 V2]. split; [done|]. destruct V2; auto.
  - destruct V as [V1 V2]. split; [done|]. destruct V2; auto.
Qed.


(** X5: a call of a tool that is not registered does not raise.
    [action] returns the error dictionary with the message of the
    registry and leaves the loop as it was: nothing is cached and no
    trace is written. *)
Theorem unregistered_tool_fails_softly s cog ma l tool :
  match truthy_act (world s) ma with
  | Some l => Some l
  | None => proposed_action (get_cog (world s) cog)
  end = Some l →
  truthy_name (get_act (world s) l) = Some tool →
  keyword_arguments (default (TDict []) (parameters (get_act (world s) l))) →
  tools s !! tool = None →
  action json_dumps s cog ma
  = (s, TDict [("status", TStr "error");
               ("message",
                TStr ("Action execution failed: Tool '" +:+ tool +:+ "' not registered"))]).
Proof.
  intros Hl Htool _ Hreg. unfold action. rewrite Hl, Htool. unfold execute. rewrite Hreg. done.
Qed.

End ControlAndAction.

(** ** The suspension manager *)

(** X6: [cleanup_frozen_state] forgets one snapshot and leaves no record
    of it: the audit events and the other snapshots stay as they were, and
    the identifier is then unknown to [thaw_state], to
    [process_human_decision] and to [resume_from_freeze], which report so
    and change nothing. *)
Theorem cleanup_forgets_snapshot_silently json_dumps s fid d fb ma ra :
  let m' := cleanup_frozen_state (hitl_manager s) fid in
  let s' := set_hitl_manager s m' in
  hitl_traces m' = hitl_traces (hitl_manager s)
  ∧ (∀ fid', fid' ≠ fid → frozen_states m' !! fid' = frozen_states (hitl_manager s) !! fid')
  ∧ thaw_state (world s) m' fid = (world s, m', None)
  ∧ process_human_decision (world s) m' fid d fb ma ra
    = (world s, m', DError ("Frozen state not found: " +:+ fid))
  ∧ resume_from_freeze json_dumps s' fid d fb ma ra
    = (s', inr ("Frozen state not found: " +:+ fid)).
Proof.
  intros m' s'.
  assert (frozen_states m' !! fid = None) as Hn by apply lookup_delete_eq.
  split; [done|]. split; [intros fid' Hne; by apply lookup_delete_ne|].
  split; [unfold thaw_state; by rewrite Hn|].
  assert (process_human_decision (world s) m' fid d fb ma ra
          = (world s, m', DError ("Frozen state not found: " +:+ fid))) as P
    by (unfold process_human_decision; by rewrite Hn).
  split; [exact P|].
  unfold resume_from_freeze. subst s'.
  change (world (set_hitl_manager s m')) with (world s).
  change (hitl_manager (set_hitl_manager s m')) with m'.
  rewrite P. destruct s. reflexivity.
Qed.

(** X7: [thaw_state] does not take the snapshot out of the store.  For an
    unknown identifier it returns [None] and changes nothing; for a known
    one it returns the snapshot, logs one state-thawed event of the system
    and keeps the stored snapshots, so that the same identifier can be
    thawed again. *)
Theorem thaw_state_keeps_the_snapshot w m fid :
  (frozen_states m !! fid = None → thaw_state w m fid = (w, m, None))
  ∧ ∀ f, frozen_states m !! fid = Some f →
      let '(w1, m1, r) := thaw_state w m fid in
      r = Some f
      ∧ frozen_states m1 = frozen_states m
      ∧ (∃ t, hitl_traces m1 = hitl_traces m ++ [t]
              ∧ is_event STATE_THAWED fid t ∧ tr_actor t = "system")
      ∧ ∀ w', (thaw_state w' m1 fid).2 = Some f.
Proof.
  split.
  - intros Hn. unfold thaw_state. by rewrite Hn.
  - intros f Hf. unfold thaw_state at 1. rewrite Hf.
    unfold _log_trace, _generate_trace_id, now. simpl.
    split; [done|]. split; [done|]. split.
    + eexists. split; [reflexivity|]. repeat split.
    + intros w'. unfold thaw_state. simpl. rewrite Hf. done.
Qed.

Lemma trace_id_of_inj a b : trace_id_of a = trace_id_of b → a = b.
Proof. unfold trace_id_of. intros H. simpl in H. injection H. apply fmt_0d_inj. Qed.

Lemma traces_numbered_log w m e fid pa hd hf ma dr actor :
  traces_numbered m → traces_numbered (_log_trace w m e fid pa hd hf ma dr actor).1.2.
Proof.
  intros [H1 H2]. unfold _log_trace, _generate_trace_id, now. simpl. split.
  - simpl. rewrite length_app. simpl. lia.
  - intros i t Hi. apply lookup_snoc_Some in Hi as [[_ Hi]|[-> <-]]; [by apply H2|].
    simpl. by rewrite H1.
Qed.

Lemma traces_numbered_freeze w m lc cog ms ev ctx mps lvl reason :
  traces_numbered m → traces_numbered (freeze_state w m lc cog ms ev ctx mps lvl reason).1.2.
Proof.
  intros H. unfold freeze_state, _generate_freeze_id.
  destruct (now w) as [w1 ts].
  destruct (match proposed_action (get_cog w1 cog) with
            | Some a => (w1, a) | None => alloc_act w1 empty_action end) as [w2 pending].
  destruct (deepcopy_cog w2 cog) as [w3 cog'].
  destruct (deepcopy_ctx w3 ctx) as [w4 ctx'].
  match goal with |- context [_log_trace ?w ?m ?e ?fid ?pa ?hd ?hf ?ma ?dr ?ac] =>
    pose proof (traces_numbered_log w m e fid pa hd hf ma dr ac) as X;
    destruct (_log_trace w m e fid pa hd hf ma dr ac) as [[w5 m3] t] end.
  apply X. exact H.
Qed.

Lemma traces_numbered_thaw w m fid :
  traces_numbered m → traces_numbered (thaw_state w m fid).1.2.
Proof.
  intros H. unfold thaw_state. destruct (frozen_states m !! fid) as [f|]; [|done].
  match goal with |- context [_log_trace ?w ?m ?e ?fid ?pa ?hd ?hf ?ma ?dr ?ac] =>
    pose proof (traces_numbered_log w m e fid pa hd hf ma dr ac H) as X;
    destruct (_log_trace w m e fid pa hd hf ma dr ac) as [[w5 m3] t] end.
  exact X.
Qed.

Lemma traces_numbered_request w m f :
  traces_numbered m → traces_numbered (request_approval w m f).1.2.
Proof.
  intros H. unfold request_approval.
  match goal with |- context [_log_trace ?w ?m ?e ?fid ?pa ?hd ?hf ?ma ?dr ?ac] =>
    pose proof (traces_numbered_log w m e fid pa hd hf ma dr ac H) as X;
    destruct (_log_trace w m e fid pa hd hf ma dr ac) as [[w5 m3] t] end.
  destruct (now w5). exact X.
Qed.

Lemma traces_numbered_process w m fid d fb ma ra :
  traces_numbered m → traces_numbered (process_human_decision w m fid d fb ma ra).1.2.
Proof.
  intros H. unfold process_human_decision.
  destruct (frozen_states m !! fid) as [f|]; [|done].
  destruct (decision_event d) as [e|]; [|done].
  match goal with |- context [_log_trace ?w ?m ?e ?fid ?pa ?hd ?hf ?ma ?dr ?ac] =>
    pose proof (traces_numbered_log w m e fid pa hd hf ma dr ac H) as X;
    destruct (_log_trace w m e fid pa hd hf ma dr ac) as [[w5 m3] t] end.
  exact X.
Qed.

Lemma traces_numbered_nodup m : traces_numbered m → NoDup (tr_trace_id <$> hitl_traces m).
Proof.
  intros [_ N]. apply NoDup_alt. intros i j x Hi Hj.
  rewrite list_lookup_fmap in Hi, Hj.
  destruct (hitl_traces m !! i) as [t|] eqn:Ei; [|done].
  destruct (hitl_traces m !! j) as [t'|] eqn:Ej; [|done].
  simpl in Hi, Hj. rewrite (N _ _ Ei) in Hi. rewrite (N _ _ Ej) in Hj.
  assert (trace_id_of (S i) = trace_id_of (S j)) as E by congruence.
  apply trace_id_of_inj in E. lia.
Qed.

(** X8: audit events are numbered in the order of the log.  If the i-th
    event is named HITL-i (four digits) before a [run] or a
    [resume_from_freeze], it is so afterwards, and no two events share an
    identifier. *)
Theorem audit_events_are_numbered_in_order json_dumps s task fid d fb ma ra :
  traces_numbered (hitl_manager s) →
  let after_run := hitl_manager (run json_dumps s task).1 in
  let after_resume := hitl_manager (resume_from_freeze json_dumps s fid d fb ma ra).1 in
  traces_numbered after_run ∧ NoDup (tr_trace_id <$> hitl_traces after_run)
  ∧ traces_numbered after_resume ∧ NoDup (tr_trace_id <$> hitl_traces after_resume).
Proof.
  intros H after_run after_resume.
  assert (traces_numbered after_run) as H1.
  { apply (manager_inv_run json_dumps traces_numbered);
      auto using traces_numbered_freeze, traces_numbered_thaw, traces_numbered_request,
        traces_numbered_process. }
  assert (traces_numbered after_resume) as H2.
  { apply (manager_inv_resume json_dumps traces_numbered);
      auto using traces_numbered_freeze, traces_numbered_thaw, traces_numbered_request,
        traces_numbered_process. }
  auto using traces_numbered_nodup.
Qed.

Lemma count_events_snoc e l t :
  count_events e (l ++ [t])
  = (count_events e l + if decide (tr_event_type t = e) then 1 else 0)%nat.
Proof.
  unfold count_events. rewrite filter_app, length_app. f_equal.
  rewrite filter_cons, filter_nil. by case_decide.
Qed.

Lemma snapshots_kept_log w m e fid pa hd hf ma dr actor :
  snapshots_kept m → e ≠ STATE_FROZEN →
  snapshots_kept (_log_trace w m e fid pa hd hf ma dr actor).1.2.
Proof.
  intros [H1 H2] Hne. unfold _log_trace, _generate_trace_id, now. split; simpl.
  - exact H1.
  - rewrite count_events_snoc.
    destruct (decide _) as [E|E]; cbn [tr_event_type] in E; [done|simpl; lia].
Qed.

Lemma snapshots_kept_freeze w m lc cog ms ev ctx mps lvl reason :
  snapshots_kept m → snapshots_kept (freeze_state w m lc cog ms ev ctx mps lvl reason).1.2.
Proof.
  intros [H1 H2]. unfold freeze_state, _generate_freeze_id.
  destruct (now w) as [w1 ts].
  destruct (match proposed_action (get_cog w1 cog) with
            | Some a => (w1, a) | None => alloc_act w1 empty_action end) as [w2 pending].
  destruct (deepcopy_cog w2 cog) as [w3 cog'].
  destruct (deepcopy_ctx w3 ctx) as [w4 ctx'].
  unfold _log_trace, _generate_trace_id, now. simpl.
  fold (freeze_id_of (S (freeze_counter m))). split; simpl.
  - intros fid. rewrite lookup_insert_is_Some, H1. split.
    + intros [<- | [_ (k & Hk & ->)]]; [exists (S (freeze_counter m))|exists k];
        (split; [lia|done]).
    + intros (k & Hk & ->). destruct (decide (k = S (freeze_counter m))) as [->|Hne].
      * by left.
      * right. split; [intros E; apply freeze_id_of_inj in E; lia|].
        exists k. split; [lia|done].
  - rewrite count_events_snoc.
    destruct (decide _) as [E|E]; cbn [tr_event_type] in E; [simpl; lia|done].
Qed.

Lemma snapshots_kept_thaw w m fid : snapshots_kept m → snapshots_kept (thaw_state w m fid).1.2.
Proof.
  intros H. unfold thaw_state. destruct (frozen_states m !! fid) as [f|]; [|done].
  match goal with |- context [_log_trace ?w ?m ?e ?fid ?pa ?hd ?hf ?ma ?dr ?ac] =>
    pose proof (snapshots_kept_log w m e fid pa hd hf ma dr ac H) as X;
    destruct (_log_trace w m e fid pa hd hf ma dr ac) as [[w5 m3] t] end.
  by apply X.
Qed.

Lemma snapshots_kept_request w m f :
  snapshots_kept m → snapshots_kept (request_approval w m f).1.2.
Proof.
  intros H. unfold request_approval.
  match goal with |- context [_log_trace ?w ?m ?e ?fid ?pa ?hd ?hf ?ma ?dr ?ac] =>
    pose proof (snapshots_kept_log w m e fid pa hd hf ma dr ac H) as X;
    destruct (_log_trace w m e fid pa hd hf ma dr ac) as [[w5 m3] t] end.
  destruct (now w5). by apply X.
Qed.

Lemma snapshots_kept_process w m fid d fb ma ra :
  snapshots_kept m → snapshots_kept (process_human_decision w m fid d fb ma ra).1.2.
Proof.
  intros H. unfold process_human_decision.
  destruct (frozen_states m !! fid) as [f|]; [|done].
  destruct (decision_event d) as [e|] eqn:D; [|done].
  apply decision_event_not_state in D as (D1 & _).
  match goal with |- context [_log_trace ?w ?m ?e ?fid ?pa ?hd ?hf ?ma ?dr ?ac] =>
    pose proof (snapshots_kept_log w m e fid pa hd hf ma dr ac H) as X;
    destruct (_log_trace w m e fid pa hd hf ma dr ac) as [[w5 m3] t] end.
  by apply X.
Qed.

Lemma snapshots_kept_size m :
  snapshots_kept m → size (frozen_states m) = freeze_counter m.
Proof.
  intros [H1 _].
  assert (dom (frozen_states m)
          = list_to_set (C := gset string) (freeze_id_of <$> seq 1 (freeze_counter m))) as D.
  { apply set_eq. intros fid. rewrite elem_of_dom, H1, elem_of_list_to_set, list_elem_of_fmap.
    split.
    - intros (k & Hk & ->). exists k. split; [done|]. apply elem_of_seq. lia.
    - intros (k & -> & Hk). apply elem_of_seq in Hk. exists k. split; [lia|done]. }
  rewrite <- size_dom, D, size_list_to_set.
  - by rewrite length_fmap, length_seq.
  - apply NoDup_fmap_2; [|apply NoDup_seq]. intros a b. apply freeze_id_of_inj.
Qed.

Lemma run_report json_dumps s task :
  (run json_dumps s task).2 = _generate_audit_report (run json_dumps s task).1.
Proof. unfold run. by destruct (run_exit json_dumps s task). Qed.

(** X9: a run deletes no snapshot.  If every identifier issued so far
    names a stored snapshot before [run], the same holds after it: the
    number of snapshots the report counts is the number of state-frozen
    events, and FREEZE-k is stored for every k up to the counter. *)
Theorem run_keeps_every_snapshot json_dumps s task :
  snapshots_kept (hitl_manager s) →
  let m' := hitl_manager (run json_dumps s task).1 in
  frozen_states_count (statistics (rp_hitl_log (run json_dumps s task).2))
  = count_events STATE_FROZEN (hitl_traces m')
  ∧ size (frozen_states m') = freeze_counter m'
  ∧ ∀ k, (1 ≤ k ≤ freeze_counter m')%nat → is_Some (frozen_states m' !! freeze_id_of k).
Proof.
  intros H m'.
  assert (snapshots_kept m') as H'.
  { apply (manager_inv_run json_dumps snapshots_kept);
      auto using snapshots_kept_freeze, snapshots_kept_thaw, snapshots_kept_request,
        snapshots_kept_process. }
  pose proof (snapshots_kept_size m' H') as Hs. destruct H' as [H1 H2].
  split; [|split; [done|]].
  - rewrite run_report. simpl. fold m'. congruence.
  - intros k Hk. apply H1. eauto.
Qed.

(** ** The object store only grows under the manager *)

Lemma world_ext_refl w : world_ext w w.
Proof. by repeat split. Qed.

Lemma world_ext_trans w1 w2 w3 : world_ext w1 w2 → world_ext w2 w3 → world_ext w1 w3.
Proof. intros (?&?&?) (?&?&?). repeat split; by etrans. Qed.

Lemma world_ext_same w w' :
  acts w' = acts w → cogs w' = cogs w → ctxs w' = ctxs w → world_ext w w'.
Proof. intros E1 E2 E3. unfold world_ext. by rewrite E1, E2, E3. Qed.

Lemma world_ext_alloc_act w a : world_ext w (alloc_act w a).1.
Proof. repeat split; simpl; try done. by apply prefix_app_r. Qed.

Lemma world_ext_alloc_cog w c : world_ext w (alloc_cog w c).1.
Proof. repeat split; simpl; try done. by apply prefix_app_r. Qed.

Lemma world_ext_alloc_ctx w c : world_ext w (alloc_ctx w c).1.
Proof. repeat split; simpl; try done. by apply prefix_app_r. Qed.

Lemma world_ext_get_act w w' a :
  world_ext w w' → (a < length (acts w))%nat → get_act w' a = get_act w a.
Proof.
  intros (H & _ & _) Hlt. unfold get_act.
  destruct (lookup_lt_is_Some_2 _ _ Hlt) as [x Hx].
  f_equal. etrans; [eapply prefix_lookup_Some; [exact Hx|exact H]|symmetry; exact Hx].
Qed.

Lemma world_ext_get_cog w w' c :
  world_ext w w' → (c < length (cogs w))%nat → get_cog w' c = get_cog w c.
Proof.
  intros (_ & H & _) Hlt. unfold get_cog.
  destruct (lookup_lt_is_Some_2 _ _ Hlt) as [x Hx].
  f_equal. etrans; [eapply prefix_lookup_Some; [exact Hx|exact H]|symmetry; exact Hx].
Qed.

Lemma world_ext_get_ctx w w' c :
  world_ext w w' → (c < length (ctxs w))%nat → get_ctx w' c = get_ctx w c.
Proof.
  intros (_ & _ & H) Hlt. unfold get_ctx.
  destruct (lookup_lt_is_Some_2 _ _ Hlt) as [x Hx].
  f_equal. etrans; [eapply prefix_lookup_Some; [exact Hx|exact H]|symmetry; exact Hx].
Qed.

Lemma world_ext_deepcopy_cog w c : world_ext w (deepcopy_cog w c).1.
Proof.
  unfold deepcopy_cog, deepcopy_act. destruct (proposed_action (get_cog w c)).
  - eapply world_ext_trans; [apply (world_ext_alloc_act w (get_act w l))|].
    apply world_ext_alloc_cog.
  - apply world_ext_alloc_cog.
Qed.

Lemma world_ext_deepcopy_items w kvs : world_ext w (deepcopy_items w kvs).1.
Proof.
  revert w. induction kvs as [|[k v] kvs IH]; intros w; simpl; [apply world_ext_refl|].
  destruct v as [t|a]; simpl.
  - specialize (IH w). by destruct (deepcopy_items w kvs).
  - specialize (IH (alloc_act w (get_act w a)).1).
    unfold deepcopy_act. simpl in *.
    destruct (deepcopy_items _ kvs). simpl in *.
    eapply world_ext_trans; [apply (world_ext_alloc_act w (get_act w a))|exact IH].
Qed.

Lemma world_ext_deepcopy_ctx w c : world_ext w (deepcopy_ctx w c).1.
Proof.
  unfold deepcopy_ctx.
  pose proof (world_ext_deepcopy_items w (map_to_list (get_ctx w c))) as H.
  destruct (deepcopy_items _ _) as [w1 kvs]. simpl in *.
  eapply world_ext_trans; [exact H|apply world_ext_alloc_ctx].
Qed.

(** What [freeze_state] returns and leaves behind. *)
Lemma freeze_state_spec w m lc cog ms ev ctx mps lvl reason :
  let '(w', m', f) := freeze_state w m lc cog ms ev ctx mps lvl reason in
  world_ext w w'
  ∧ fz_freeze_id f = freeze_id_of (S (freeze_counter m))
  ∧ fz_loop_counter f = lc ∧ fz_memory_snapshot f = ms ∧ fz_evidence_cache f = ev
  ∧ (∀ a, proposed_action (get_cog w cog) = Some a → fz_pending_action f = a)
  ∧ frozen_states m' = <[fz_freeze_id f := f]> (frozen_states m)
  ∧ ∃ t, hitl_traces m' = hitl_traces m ++ [t]
         ∧ is_event STATE_FROZEN (fz_freeze_id f) t ∧ tr_actor t = "system".
Proof.
  unfold freeze_state, _generate_freeze_id, _log_trace, _generate_trace_id, now.
  set (w1 := mkWorld _ _ _ _ _).
  assert (world_ext w w1) as X1 by (by apply world_ext_same).
  change (get_cog w1 cog) with (get_cog w cog).
  destruct (match proposed_action (get_cog w cog) with
            | Some a => (w1, a) | None => alloc_act w1 empty_action end) as [w2 pending] eqn:E.
  assert (world_ext w1 w2 ∧ ∀ a, proposed_action (get_cog w cog) = Some a → pending = a)
    as [X2 P].
  { destruct (proposed_action (get_cog w cog)); injection E as <- <-.
    - split; [apply world_ext_refl|]. by intros a [= ->].
    - split; [apply (world_ext_alloc_act w1 empty_action)|done]. }
  pose proof (world_ext_deepcopy_cog w2 cog) as X3.
  destruct (deepcopy_cog w2 cog) as [w3 cog'].
  pose proof (world_ext_deepcopy_ctx w3 ctx) as X4.
  destruct (deepcopy_ctx w3 ctx) as [w4 ctx']. simpl in *.
  split.
  { eapply world_ext_trans; [exact X1|]. eapply world_ext_trans; [exact X2|].
    eapply world_ext_trans; [exact X3|]. eapply world_ext_trans; [exact X4|].
    by apply world_ext_same. }
  repeat (split; [done|]).
  eexists. split; [reflexivity|]. repeat split.
Qed.

Lemma request_approval_spec w m f :
  let '(w', m', rq) := request_approval w m f in
  acts w' = acts w ∧ cogs w' = cogs w ∧ ctxs w' = ctxs w
  ∧ frozen_states m' = frozen_states m
  ∧ rq_freeze_id rq = fz_freeze_id f ∧ rq_pending_action rq = fz_pending_action f
  ∧ ∃ t, hitl_traces m' = hitl_traces m ++ [t]
         ∧ is_event APPROVAL_REQUESTED (fz_freeze_id f) t ∧ tr_actor t = "system".
Proof.
  unfold request_approval, _log_trace, _generate_trace_id, now. simpl.
  repeat (split; [done|]). eexists. split; [reflexivity|]. repeat split.
Qed.

(** What a successful decision returns and leaves behind. *)
Lemma process_human_decision_spec w m fid d fb ma ra f e :
  frozen_states m !! fid = Some f →
  decision_event d = Some e →
  let '(w', m', r) := process_human_decision w m fid d fb ma ra in
  acts w' = acts w ∧ cogs w' = cogs w ∧ ctxs w' = ctxs w
  ∧ frozen_states m' = frozen_states m
  ∧ (∃ tid, r = DProcessed d tid fid (_determine_next_action w' d f ma))
  ∧ ∃ t, hitl_traces m' = hitl_traces m ++ [t] ∧ is_event e fid t
         ∧ tr_human_feedback t = fb ∧ tr_actor t = "human"
         ∧ tr_decision_rationale t = ra.
Proof.
  intros Hf He. unfold process_human_decision. rewrite Hf, He.
  unfold _log_trace, _generate_trace_id, now. simpl.
  repeat (split; [done|]). split; [by eexists|].
  eexists. split; [reflexivity|]. repeat split.
Qed.

Lemma thaw_state_spec w m fid f :
  frozen_states m !! fid = Some f →
  let '(w', m', r) := thaw_state w m fid in
  acts w' = acts w ∧ cogs w' = cogs w ∧ ctxs w' = ctxs w
  ∧ frozen_states m' = frozen_states m
  ∧ ∃ t, hitl_traces m' = hitl_traces m ++ [t] ∧ is_event STATE_THAWED fid t
         ∧ tr_actor t = "system".
Proof.
  intros Hf. unfold thaw_state. rewrite Hf.
  unfold _log_trace, _generate_trace_id, now. simpl.
  repeat (split; [done|]). eexists. split; [reflexivity|]. repeat split.
Qed.

(** ** The paths through [hitl_check] *)

(** The snapshot and the two events every intervention starts with. *)
Lemma hitl_check_suspends s cog ctx lvl reason :
  let '(w1, m1, f) :=
    freeze_state (world s) (hitl_manager s) (loop_counter s) cog
                 (get_snapshot (memory s)) (get_evidence_snapshot (memory s)) ctx
                 (get_state (metaprompt s)) lvl reason in
  let '(w2, m2, rq) := request_approval w1 m1 f in
  world_ext (world s) w2
  ∧ fz_freeze_id f = freeze_id_of (S (freeze_counter (hitl_manager s)))
  ∧ fz_loop_counter f = loop_counter s
  ∧ fz_memory_snapshot f = get_snapshot (memory s)
  ∧ fz_evidence_cache f = evidence_cache (memory s)
  ∧ (∀ a, proposed_action (get_cog (world s) cog) = Some a → fz_pending_action f = a)
  ∧ frozen_states m2 = <[fz_freeze_id f := f]> (frozen_states (hitl_manager s))
  ∧ rq_freeze_id rq = fz_freeze_id f ∧ rq_pending_action rq = fz_pending_action f
  ∧ ∃ tf tr, hitl_traces m2 = hitl_traces (hitl_manager s) ++ [tf; tr]
      ∧ is_event STATE_FROZEN (fz_freeze_id f) tf
      ∧ is_event APPROVAL_REQUESTED (fz_freeze_id f) tr.
Proof.
  pose proof (freeze_state_spec (world s) (hitl_manager s) (loop_counter s) cog
                (get_snapshot (memory s)) (get_evidence_snapshot (memory s)) ctx
                (get_state (metaprompt s)) lvl reason) as Hfz.
  destruct (freeze_state _ _ _ _ _ _ _ _ _ _) as [[w1 m1] f].
  destruct Hfz as (X & Hid & Hlc & Hms & Hev & Hpa & Hfs & tf & Htf & Ef & _).
  pose proof (request_approval_spec w1 m1 f) as Hrq.
  destruct (request_approval w1 m1 f) as [[w2 m2] rq].
  destruct Hrq as (A & C & K & Hfs2 & Hrid & Hrpa & tr & Htr & Er & _).
  split; [eapply world_ext_trans; [exact X|by apply world_ext_same]|].
  repeat (split; [done|]).
  split; [by rewrite Hfs2|]. repeat (split; [done|]).
  exists tf, tr. rewrite Htr, Htf, <- app_assoc. done.
Qed.

(** X10: without a handler, an intervention above the NOTIFY level
    blocks.  [hitl_check] returns [(False, None)]; it stores a snapshot
    of the loop counter, the working store and the evidence cache under
    the next identifier, logs the state-frozen and approval-requested
    events and nothing else, and leaves the memory, history included, and
    the resume context as they were. *)
Theorem hitl_check_blocks_without_handler s cog ctx :
  hitl_mode s ≠ "disabled" →
  hitl_handler s = None →
  (check_intervention (hitl_manager s) (world s) cog ctx (loop_counter s)).1 ≠ NONE →
  (check_intervention (hitl_manager s) (world s) cog ctx (loop_counter s)).1 ≠ NOTIFY →
  let '(s', r) := hitl_check s cog ctx in
  let m := hitl_manager s in
  let m' := hitl_manager s' in
  let fid := freeze_id_of (S (freeze_counter m)) in
  r = (false, MNone)
  ∧ memory s' = memory s ∧ loop_counter s' = loop_counter s
  ∧ _resume_context s' = _resume_context s
  ∧ ∃ f tf tr,
      frozen_states m' = <[fid := f]> (frozen_states m)
      ∧ fz_loop_counter f = loop_counter s
      ∧ fz_memory_snapshot f = get_snapshot (memory s)
      ∧ fz_evidence_cache f = evidence_cache (memory s)
      ∧ hitl_traces m' = hitl_traces m ++ [tf; tr]
      ∧ is_event STATE_FROZEN fid tf ∧ is_event APPROVAL_REQUESTED fid tr.
Proof.
  intros Hmode Hh Hn1 Hn2. unfold hitl_check.
  rewrite decide_False by done.
  destruct (check_intervention _ _ _ _ _) as [lvl reason]. simpl in Hn1, Hn2.
  rewrite decide_False by done.
  pose proof (hitl_check_suspends s cog ctx lvl reason) as H.
  destruct (freeze_state _ _ _ _ _ _ _ _ _ _) as [[w1 m1] f].
  destruct (request_approval w1 m1 f) as [[w2 m2] rq].
  destruct H as (X & Hid & Hlc & Hms & Hev & Hpa & Hfs & Hrid & Hrpa & tf & tr & Htr & Ef & Er).
  rewrite Hh, decide_False by done. simpl.
  repeat (split; [done|]).
  exists f, tf, tr. rewrite <- Hid. done.
Qed.

(** X11: an auto-approving handler neither blocks nor modifies.  For a
    cognition output that proposes an action, [hitl_check] returns
    [(True, None)] and leaves store, evidence and resume context alone;
    the audit log either stays as it was or grows by the four events
    frozen, requested, approved (by "human", with the rationale
    "Auto-approved for testing") and thawed. *)
Theorem auto_approval_never_blocks s cog ctx h a :
  hitl_handler s = Some h → auto_approve h = true →
  (cog < length (cogs (world s)))%nat →
  proposed_action (get_cog (world s) cog) = Some a →
  let '(s', r) := hitl_check s cog ctx in
  r = (true, MNone)
  ∧ store (memory s') = store (memory s)
  ∧ evidence_cache (memory s') = evidence_cache (memory s)
  ∧ _resume_context s' = _resume_context s
  ∧ (hitl_manager s' = hitl_manager s
     ∨ ∃ fid tf tr ta tt,
         hitl_traces (hitl_manager s') = hitl_traces (hitl_manager s) ++ [tf; tr; ta; tt]
         ∧ is_event STATE_FROZEN fid tf ∧ is_event APPROVAL_REQUESTED fid tr
         ∧ is_event APPROVED fid ta ∧ tr_actor ta = "human"
         ∧ tr_decision_rationale ta = Some "Auto-approved for testing"
         ∧ is_event STATE_THAWED fid tt).
Proof.
  intros Hh Hauto Hcog Hprop. unfold hitl_check.
  destruct (decide (hitl_mode s = "disabled")); [by repeat split; try left|].
  destruct (check_intervention _ _ _ _ _) as [lvl reason].
  destruct (decide (lvl = NONE)); [by repeat split; try left|].
  pose proof (hitl_check_suspends s cog ctx lvl reason) as H.
  destruct (freeze_state _ _ _ _ _ _ _ _ _ _) as [[w1 m1] f].
  destruct (request_approval w1 m1 f) as [[w2 m2] rq].
  destruct H as (X & Hid & Hlc & Hms & Hev & Hpa & Hfs & Hrid & Hrpa & tf & tr & Htr & Ef & Er).
  rewrite Hh. unfold handle_intervention, _auto_approve. rewrite Hauto, Hrid.
  assert (frozen_states m2 !! fz_freeze_id f = Some f) as Hin
    by (by rewrite Hfs, lookup_insert_eq).
  pose proof (process_human_decision_spec w2 m2 (fz_freeze_id f) "approve" None None
                (Some "Auto-approved for testing") f APPROVED Hin eq_refl) as Hp.
  destruct (process_human_decision _ _ _ _ _ _ _) as [[w3 m3] r].
  destruct Hp as (A3 & C3 & K3 & Hfs3 & [tid ->] & ta & Hta & Ea & _ & Eact & Era).
  unfold _determine_next_action. rewrite decide_True by done.
  unfold now. cbn [fst snd].
  set (w4 := mkWorld _ _ _ _ _).
  assert (frozen_states m3 !! fz_freeze_id f = Some f) as Hin3 by (by rewrite Hfs3).
  pose proof (thaw_state_spec w4 m3 (fz_freeze_id f) f Hin3) as Ht.
  destruct (thaw_state w4 m3 (fz_freeze_id f)) as [[w5 m4] o].
  destruct Ht as (A5 & C5 & K5 & Hfs5 & tt & Htt & Et & _).
  assert (world_ext (world s) w5) as X5.
  { eapply world_ext_trans; [exact X|]. apply world_ext_same; by etrans. }
  rewrite (world_ext_get_cog _ _ _ X5 Hcog), Hprop, (Hpa a Hprop).
  unfold same_action. rewrite bool_decide_eq_true_2 by done. simpl.
  repeat (split; [done|]). right.
  exists (fz_freeze_id f), tf, tr, ta, tt.
  rewrite Htt, Hta, Htr, <- !app_assoc. simpl. by repeat (split; [assumption || reflexivity|]).
Qed.

Lemma hitl_check_rejection s cog ctx h fb :
  hitl_mode s ≠ "disabled" →
  (check_intervention (hitl_manager s) (world s) cog ctx (loop_counter s)).1 ≠ NONE →
  hitl_handler s = Some h → auto_approve h = false →
  (∀ t rq, h_input h t rq = HReject fb) →
  let '(s', r) := hitl_check s cog ctx in
  world_ext (world s) (world s')
  ∧ r = (false, MVirtualRejection)
  ∧ (∃ previous,
       _resume_context s'
       = Some (<["human_rejected" := CTree (TBool true)]>
                 (<["rejection_reason" := CTree (TStr "Human rejected the action")]>
                    (<["previous_proposal" := CAct previous]>
                       (<["retry_guidance" :=
                            CTree (TStr "Consider alternative approaches based on human feedback")]>
                          ∅))))
       ∧ ∀ a, proposed_action (get_cog (world s) cog) = Some a → previous = a)
  ∧ ∃ fid tf tr tj tt,
      hitl_traces (hitl_manager s') = hitl_traces (hitl_manager s) ++ [tf; tr; tj; tt]
      ∧ is_event STATE_FROZEN fid tf ∧ is_event APPROVAL_REQUESTED fid tr
      ∧ is_event REJECTED fid tj ∧ tr_actor tj = "human"
      ∧ tr_human_feedback tj = Some fb
      ∧ is_event STATE_THAWED fid tt
      ∧ is_Some (frozen_states (hitl_manager s') !! fid).
Proof.
  intros Hmode Hn Hh Hauto Hin. unfold hitl_check.
  rewrite decide_False by done.
  destruct (check_intervention _ _ _ _ _) as [lvl reason]. simpl in Hn.
  rewrite decide_False by done.
  pose proof (hitl_check_suspends s cog ctx lvl reason) as H.
  destruct (freeze_state _ _ _ _ _ _ _ _ _ _) as [[w1 m1] f].
  destruct (request_approval w1 m1 f) as [[w2 m2] rq].
  destruct H as (X & Hid & Hlc & Hms & Hev & Hpa & Hfs & Hrid & Hrpa & tf & tr & Htr & Ef & Er).
  rewrite Hh. unfold handle_intervention, _interactive_prompt. rewrite Hauto, Hin, Hrid.
  assert (frozen_states m2 !! fz_freeze_id f = Some f) as Hin2
    by (by rewrite Hfs, lookup_insert_eq).
  pose proof (process_human_decision_spec w2 m2 (fz_freeze_id f) "reject" (Some fb) None
                (Some "Human rejected action") f REJECTED Hin2 eq_refl) as Hp.
  destruct (process_human_decision _ _ _ _ _ _ _) as [[w3 m3] r].
  destruct Hp as (A3 & C3 & K3 & Hfs3 & [tid ->] & tj & Htj & Ej & Efb & Eact & _).
  unfold _determine_next_action.
  rewrite (decide_False (P := "reject" = "approve")) by done.
  rewrite (decide_False (P := "reject" = "modify")) by done.
  unfold now. cbn [fst snd].
  set (w4 := mkWorld _ _ _ _ _).
  assert (frozen_states m3 !! fz_freeze_id f = Some f) as Hin3 by (by rewrite Hfs3).
  pose proof (thaw_state_spec w4 m3 (fz_freeze_id f) f Hin3) as Ht.
  destruct (thaw_state w4 m3 (fz_freeze_id f)) as [[w5 m4] o].
  destruct Ht as (A5 & C5 & K5 & Hfs5 & tt & Htt & Et & _).
  simpl. split.
  { eapply world_ext_trans; [exact X|]. apply world_ext_same; by etrans. }
  split; [done|]. split.
  { exists (fz_pending_action f). split; [done|]. intros a Ha. by apply Hpa. }
  exists (fz_freeze_id f), tf, tr, tj, tt.
  rewrite Htt, Htj, Htr, <- !app_assoc. simpl.
  repeat (split; [assumption || reflexivity|]).
  by rewrite Hfs5, Hfs3, Hin2.
Qed.

(** X12: when the operator rejects, [hitl_check] returns the virtual
    rejection and keeps a context patch for the next cognition whose
    reason is the fixed text "Human rejected the action"; what the
    operator typed is recorded only in the REJECTED audit event.  The
    patch refers to the rejected proposal itself, and the snapshot stays
    stored. *)
Theorem rejection_feedback_stays_in_the_audit_trail s cog ctx h fb :
  hitl_mode s ≠ "disabled" →
  (check_intervention (hitl_manager s) (world s) cog ctx (loop_counter s)).1 ≠ NONE →
  hitl_handler s = Some h → auto_approve h = false →
  (∀ t rq, h_input h t rq = HReject fb) →
  let '(s', r) := hitl_check s cog ctx in
  r = (false, MVirtualRejection)
  ∧ (∃ previous,
       _resume_context s'
       = Some (<["human_rejected" := CTree (TBool true)]>
                 (<["rejection_reason" := CTree (TStr "Human rejected the action")]>
                    (<["previous_proposal" := CAct previous]>
                       (<["retry_guidance" :=
                            CTree (TStr "Consider alternative approaches based on human feedback")]>
                          ∅))))
       ∧ ∀ a, proposed_action (get_cog (world s) cog) = Some a → previous = a)
  ∧ ∃ fid tf tr tj tt,
      hitl_traces (hitl_manager s') = hitl_traces (hitl_manager s) ++ [tf; tr; tj; tt]
      ∧ is_event STATE_FROZEN fid tf ∧ is_event APPROVAL_REQUESTED fid tr
      ∧ is_event REJECTED fid tj ∧ tr_actor tj = "human"
      ∧ tr_human_feedback tj = Some fb
      ∧ is_event STATE_THAWED fid tt
      ∧ is_Some (frozen_states (hitl_manager s') !! fid).
Proof.
  intros Hmode Hn Hh Hauto Hin.
  pose proof (hitl_check_rejection s cog ctx h fb Hmode Hn Hh Hauto Hin) as H.
  destruct (hitl_check s cog ctx) as [s' r]. by destruct H as (_ & ? & ? & ?).
Qed.

Section Modify.
Variable json_dumps : tree -> string.

(** X13: when the operator modifies the parameters, the loop proceeds and
    the proposal of the cognition output is not altered.  The call
    [action] then makes is the proposed tool with the parameters of the
    operator, unless these equal the proposed parameters in Python's sense
    (up to the order of keys, and with [True] equal to [1]): then
    [hitl_check] returns no modified action and the proposed call itself
    runs.  The result is returned and cached under the key of the
    parameters used. *)
Theorem modified_action_runs_the_proposed_tool s cog ctx h p a tool :
  hitl_mode s ≠ "disabled" →
  (check_intervention (hitl_manager s) (world s) cog ctx (loop_counter s)).1 ≠ NONE →
  hitl_handler s = Some h → auto_approve h = false →
  (∀ t rq, h_input h t rq = HModify p) →
  (cog < length (cogs (world s)))%nat →
  proposed_action (get_cog (world s) cog) = Some a →
  (a < length (acts (world s)))%nat →
  truthy_name (get_act (world s) a) = Some tool →
  let used := match parameters (get_act (world s) a) with
              | Some q => if py_eq p q then q else p
              | None => p
              end in
  keyword_arguments used →
  let '(s', (proceed, md)) := hitl_check s cog ctx in
  proceed = true
  ∧ (md = MNone ↔ ∃ q, parameters (get_act (world s) a) = Some q ∧ py_eq p q = true)
  ∧ get_act (world s') a = get_act (world s) a
  ∧ tools s' = tools s
  ∧ ∀ result,
      execute (tools s) (clock (world s')) tool used = inl result →
      let '(s'', out) := action json_dumps s' cog (modified_arg md) in
      out = result
      ∧ get_evidence (memory s'') (evidence_key json_dumps tool used) = Some result.
Proof.
  intros Hmode Hn Hh Hauto Hin Hcog Hprop Ha Htool used _. unfold hitl_check.
  rewrite decide_False by done.
  destruct (check_intervention _ _ _ _ _) as [lvl reason]. simpl in Hn.
  rewrite decide_False by done.
  pose proof (hitl_check_suspends s cog ctx lvl reason) as H.
  destruct (freeze_state _ _ _ _ _ _ _ _ _ _) as [[w1 m1] f].
  destruct (request_approval w1 m1 f) as [[w2 m2] rq].
  destruct H as (X & Hid & Hlc & Hms & Hev & Hpa & Hfs & Hrid & Hrpa & tf & tr & Htr & Ef & Er).
  rewrite Hh. unfold handle_intervention, _interactive_prompt. rewrite Hauto, Hin, Hrid, Hrpa.
  rewrite (Hpa a Hprop), (world_ext_get_act _ _ _ X Ha).
  assert (tool_name (get_act (world s) a) = Some tool ∧ tool ≠ "") as [Hname Hne].
  { unfold truthy_name in Htool. destruct (tool_name _) as [t|]; [|done].
    destruct (String.eqb_spec t ""); [done|]. by injection Htool as ->. }
  rewrite Hname.
  pose proof (world_ext_alloc_act w2 (mkAction (Some tool) (Some p))) as X2.
  destruct (alloc_act w2 _) as [w2' l] eqn:Hal. cbn [fst] in X2.
  assert (get_act w2' l = mkAction (Some tool) (Some p)) as Hl.
  { unfold alloc_act in Hal. injection Hal as <- <-. unfold get_act. simpl.
    by rewrite lookup_app_r, Nat.sub_diag by done. }
  assert (l < length (acts w2'))%nat as Hlv.
  { unfold alloc_act in Hal. injection Hal as <- <-. simpl. rewrite length_app. simpl. lia. }
  assert (l ≠ a) as Hla.
  { unfold alloc_act in Hal. injection Hal as _ <-.
    destruct X as (Pf & _ & _). apply prefix_length in Pf. lia. }
  assert (frozen_states m2 !! fz_freeze_id f = Some f) as Hin2
    by (by rewrite Hfs, lookup_insert_eq).
  pose proof (process_human_decision_spec w2' m2 (fz_freeze_id f) "modify" None (Some l)
                (Some "Human modified action parameters") f MODIFIED Hin2 eq_refl) as Hp.
  destruct (process_human_decision _ _ _ _ _ _ _) as [[w3 m3] r].
  destruct Hp as (A3 & C3 & K3 & Hfs3 & [tid ->] & tj & Htj & Ej & Efb & Eact & _).
  assert (world_ext w2' w3) as X3 by (by apply world_ext_same).
  unfold _determine_next_action.
  rewrite (decide_False (P := "modify" = "approve")) by done.
  rewrite (decide_True (P := "modify" = "modify")) by done.
  unfold truthy_act. rewrite (world_ext_get_act _ _ _ X3 Hlv), Hl.
  rewrite decide_False by done. cbn [default from_option]. unfold id.
  unfold now. cbn [fst snd].
  set (w4 := mkWorld _ _ _ _ _).
  assert (frozen_states m3 !! fz_freeze_id f = Some f) as Hin3 by (by rewrite Hfs3).
  pose proof (thaw_state_spec w4 m3 (fz_freeze_id f) f Hin3) as Ht.
  destruct (thaw_state w4 m3 (fz_freeze_id f)) as [[w5 m4] o].
  destruct Ht as (A5 & C5 & K5 & Hfs5 & tt & Htt & Et & _).
  assert (world_ext w3 w5) as X5 by (apply world_ext_same; by etrans).
  assert (world_ext (world s) w5) as Xall.
  { eapply world_ext_trans; [exact X|]. eapply world_ext_trans; [exact X2|].
    eapply world_ext_trans; [exact X3|exact X5]. }
  assert (get_act w5 l = mkAction (Some tool) (Some p)) as Hl5.
  { rewrite (world_ext_get_act w2' w5); [done| |done].
    eapply world_ext_trans; [exact X3|exact X5]. }
  assert (get_act w5 a = get_act (world s) a) as Ha5 by (by apply world_ext_get_act).
  (* the call made for either answer of the comparison *)
  assert (∀ md params,
     (md = MNone ∧ parameters (get_act (world s) a) = Some params)
     ∨ (md = MAction l ∧ params = p) →
     ∀ s1, world s1 = w5 → tools s1 = tools s →
     ∀ result, execute (tools s) (clock w5) tool params = inl result →
       let '(s'', out) := action json_dumps s1 cog (modified_arg md) in
       out = result
       ∧ get_evidence (memory s'') (evidence_key json_dumps tool params) = Some result) as Hact.
  { assert (truthy_name (mkAction (Some tool) (Some p)) = Some tool) as Htn.
    { unfold truthy_name. simpl. by destruct (String.eqb_spec tool ""). }
    intros md params Hmd s1 Hw Ht result Hexec. unfold action. rewrite Hw, Ht.
    rewrite (world_ext_get_cog _ _ _ Xall Hcog), Hprop.
    destruct Hmd as [[-> Heq]|[-> ->]]; simpl.
    - rewrite Ha5, Htool, Heq. simpl.
      rewrite Hexec. simpl. split; [done|]. unfold get_evidence. simpl.
      by rewrite lookup_insert_eq.
    - rewrite Hl5. rewrite decide_False by done. rewrite Hl5, Htn. simpl.
      rewrite Hexec. simpl. split; [done|]. unfold get_evidence. simpl.
      by rewrite lookup_insert_eq. }
  cbn beta iota.
  rewrite (world_ext_get_cog _ _ _ Xall Hcog), Hprop.
  unfold same_action, act_py_eq. rewrite Hl5, Ha5, Hname.
  rewrite (bool_decide_eq_false_2 (l = a)) by done.
  rewrite (bool_decide_eq_true_2 (tool_name _ = Some tool)) by done.
  cbn [orb andb tool_name parameters].
  subst used. destruct (parameters (get_act (world s) a)) as [q|] eqn:Hq.
  - destruct (py_eq p q) eqn:Epy; cbn [fst snd].
    + split; [done|]. split; [split; [by exists q|done]|].
      split; [done|]. split; [done|].
      intros result Hexec. apply (Hact MNone q); [by left|done|done|done].
    + split; [done|]. split; [split; [done|by intros (q' & [= <-] & ?); congruence]|].
      split; [done|]. split; [done|].
      intros result Hexec. apply (Hact (MAction l) p); [by right|done|done|done].
  - cbn [fst snd]. split; [done|]. split; [split; [done|by intros (q' & ? & ?)]|].
    split; [done|]. split; [done|].
    intros result Hexec. apply (Hact (MAction l) p); [by right|done|done|done].
Qed.

End Modify.

(** ** The intervention policy and the working store *)

(** X14: a custom handler only fills the gaps the built-in rules leave.
    A handler registered for another tool changes nothing; no built-in
    rule returns BLOCK; where a built-in rule applies, registering a
    handler for the tool does not change the verdict; and where none
    applies, the verdict is the handler's. *)
Theorem custom_handler_only_fills_gaps p t h w cog ctx lc :
  let tool := default "" (tool_name (cog_action w (get_cog w cog))) in
  let p' := register_handler p t h in
  (t ≠ tool → evaluate p' w cog ctx lc = evaluate p w cog ctx lc)
  ∧ (custom_handlers p !! tool = None →
       (evaluate p w cog ctx lc).1 ≠ BLOCK
       ∧ ((evaluate p w cog ctx lc).1 ≠ NONE →
            evaluate p' w cog ctx lc = evaluate p w cog ctx lc)
       ∧ ((evaluate p w cog ctx lc).1 = NONE → t = tool →
            evaluate p' w cog ctx lc = h w cog ctx)).
Proof.
  intros tool p'. subst p' tool. unfold evaluate, register_handler.
  cbn [policies custom_handlers].
  set (tool := default "" _).
  split.
  - intros Hne. by rewrite lookup_insert_ne.
  - intros Hnone. unfold Handler in *. rewrite Hnone.
    destruct (bool_decide (tool ∈ high_risk_tools _)); [by repeat split|].
    destruct (bool_decide (tool ∈ always_confirm_tools _)); [by repeat split|].
    destruct (confirm_on_final_action _ && _); [by repeat split|].
    destruct (_ <=? _); [by repeat split|].
    destruct (Qltb _ _); [by repeat split|].
    destruct (confirm_on_missing_evidence _ && _); [by repeat split|].
    cbn [fst]. split; [discriminate|]. split; [done|].
    intros _ ->. by rewrite lookup_insert_eq.
Qed.

(** X15: the round trips of [Memory].  A value written is the value
    read, other keys are not affected and an unknown key reads [None];
    the same holds for the evidence cache, and neither area touches the
    other or the history.  Restoring a snapshot brings back the reads and
    the evidence of the time it was taken, but keeps the history of the
    memory it is restored into. *)
Theorem memory_round_trips w mem key value eid k later :
  let mem' := (write w mem key value eid).2 in
  read mem' key = Some value
  ∧ (k ≠ key → read mem' k = read mem k)
  ∧ history mem' = history mem ∧ evidence_cache mem' = evidence_cache mem
  ∧ read Memory_init k = None
  ∧ (let mem2 := store_evidence mem key value in
     get_evidence mem2 key = Some value ∧ has_evidence mem2 key = true
     ∧ (k ≠ key → get_evidence mem2 k = get_evidence mem k
                  ∧ has_evidence mem2 k = has_evidence mem k)
     ∧ store mem2 = store mem ∧ history mem2 = history mem)
  ∧ (let restored :=
       restore_evidence (restore_snapshot later (get_snapshot mem))
                        (get_evidence_snapshot mem) in
     read restored k = read mem k ∧ get_evidence restored k = get_evidence mem k
     ∧ history restored = history later).
Proof.
  unfold write, read, store_evidence, get_evidence, has_evidence, restore_evidence,
    restore_snapshot, get_snapshot, get_evidence_snapshot, now. simpl.
  rewrite !lookup_insert_eq. simpl.
  split; [done|]. split; [by intros ?; rewrite lookup_insert_ne|].
  repeat (split; [done|]).
  split; [|done].
  split; [done|]. split; [done|].
  split; [|done]. intros ?. by rewrite lookup_insert_ne.
Qed.

(** ** The shape of the history *)

Section Traces.
Variable json_dumps : tree -> string.

Lemma cognition_trace s ctx :
  ∃ t, history (memory (cognition s ctx).1) = history (memory s) ++ [t]
       ∧ lt_module t = module_value COGNITION
       ∧ lt_loop_id t = "CCAM-" +:+ fmt_0dZ 3 (loop_counter s + 1)
       ∧ lt_validation_result t = None.
Proof.
  unfold cognition. destruct_lets. simpl. eexists. split; [reflexivity|]. done.
Qed.

Lemma control_trace s cog :
  ∃ t, history (memory (control json_dumps s cog).1) = history (memory s) ++ [t]
       ∧ lt_module t = module_value CONTROL
       ∧ lt_loop_id t = "CTL-" +:+ fmt_0dZ 3 (loop_counter s)
       ∧ lt_validation_result t = Some (control json_dumps s cog).2.1.
Proof.
  unfold control. destruct_lets. simpl. eexists. split; [reflexivity|]. done.
Qed.

Lemma hitl_check_trace s cog ctx :
  ∃ hs, history (memory (hitl_check s cog ctx).1) = history (memory s) ++ hs
        ∧ (length hs ≤ 1)%nat
        ∧ Forall (λ t, lt_module t = module_value HITL ∧ lt_validation_result t = None
                       ∧ lt_loop_id t = "HITL-" +:+ fmt_0dZ 3 (loop_counter s)) hs.
Proof.
  unfold hitl_check.
  repeat (case_match || destruct_lets); simpl;
    first [ exists []; rewrite app_nil_r; split; [reflexivity|]; split; [simpl; lia|constructor]
          | eexists [_]; split; [reflexivity|]; split; [simpl; lia|];
            repeat constructor ].
Qed.

Lemma action_trace s cog ma :
  ∃ acs, history (memory (action json_dumps s cog ma).1) = history (memory s) ++ acs
         ∧ (length acs ≤ 1)%nat
         ∧ Forall (λ t, lt_module t = module_value ACTION ∧ lt_validation_result t = None
                        ∧ lt_loop_id t = "ACT-" +:+ fmt_0dZ 3 (loop_counter s)) acs.
Proof.
  unfold action, now.
  repeat case_match; simpl;
    first [ exists []; rewrite app_nil_r; split; [reflexivity|]; split; [simpl; lia|constructor]
          | eexists [_]; split; [reflexivity|]; split; [simpl; lia|];
            repeat constructor ].
Qed.

Lemma iteration_history merge s ctx :
  ∃ seg, history (memory (iteration json_dumps merge s ctx).1) = history (memory s) ++ seg
         ∧ iteration_traces (loop_counter s + 1) seg.
Proof.
  unfold iteration.
  set (s0 := if merge then merge_resume_context s ctx else s).
  assert (memory s0 = memory s ∧ loop_counter s0 = loop_counter s) as [M0 L0].
  { subst s0. destruct merge; [|done]. unfold merge_resume_context. by case_match. }
  destruct (cognition_trace s0 ctx) as (c & Hc & Cm & Cid & Cv).
  pose proof (cognition_frame s0 ctx) as CF.
  destruct (cognition s0 ctx) as [s1 cog]. simpl in Hc, CF. destruct CF as (CL & _).
  set (s2 := set_world s1 _).
  destruct (control_trace s2 cog) as (k & Hk & Km & Kid & Kv).
  pose proof (control_frame json_dumps s2 cog) as KF.
  destruct (control json_dumps s2 cog) as [s3 [v msg]]. simpl in Hk, Kv, KF.
  destruct KF as (KL & _).
  assert (loop_counter s1 = loop_counter s + 1) as L1 by lia.
  assert (loop_counter s3 = loop_counter s + 1) as L3 by lia.
  assert (history (memory s3) = history (memory s) ++ [c; k]) as H3.
  { rewrite Hk. subst s2. simpl. rewrite Hc, M0, <- app_assoc. done. }
  rewrite L0 in Cid. subst s2. simpl in Kid. rewrite L1 in Kid.
  destruct v; simpl.
  - destruct (hitl_check_trace s3 cog ctx) as (hs & Hh & Hlen & Hall).
    pose proof (hitl_check_frame s3 cog ctx) as HF.
    destruct (hitl_check s3 cog ctx) as [s4 [p md]]. simpl in Hh, HF. destruct HF as (HL & _).
    rewrite L3 in Hall.
    destruct p; simpl.
    + destruct (action_trace s4 cog (modified_arg md)) as (acs & Ha & Alen & Aall).
      rewrite HL, L3 in Aall.
      assert (∀ s5 r, action json_dumps s4 cog (modified_arg md) = (s5, r) →
                history (memory s5) = history (memory s) ++ c :: k :: hs ++ acs) as E.
      { intros s5 r Heq. rewrite Heq in Ha. simpl in Ha. rewrite Ha, Hh, H3.
        rewrite <- !app_assoc. done. }
      destruct (action json_dumps s4 cog (modified_arg md)) as [s5 r].
      specialize (E s5 r eq_refl).
      exists (c :: k :: hs ++ acs). split.
      * by case_match.
      * exists c, k, hs, acs. rewrite Kv. split_and!; eauto; done.
    + exists (c :: k :: hs ++ []). split.
      * rewrite app_nil_r. destruct md; simpl; rewrite Hh, H3, <- app_assoc; done.
      * exists c, k, hs, []. rewrite Kv.
        split_and!; eauto; try done; simpl; try lia; constructor.
  - exists [c; k]. split; [done|].
    exists c, k, [], []. rewrite Kv.
    split_and!; eauto; try done; simpl; try lia; constructor.
Qed.

Lemma ccam_loop_history merge fuel s ctx :
  ∃ segs, history (memory (ccam_loop json_dumps merge fuel s ctx).1)
          = history (memory s) ++ concat segs
          ∧ loop_traces (loop_counter s + 1) segs
          ∧ Z.of_nat (length segs)
            = loop_counter (ccam_loop json_dumps merge fuel s ctx).1 - loop_counter s.
Proof.
  revert s. induction fuel as [|fuel IH]; intros s; simpl.
  { exists []. simpl. rewrite app_nil_r. repeat split; lia. }
  case_match.
  2:{ exists []. simpl. rewrite app_nil_r. repeat split; lia. }
  destruct (iteration_history merge s ctx) as (seg & Hs & Hseg).
  pose proof (iteration_counter json_dumps merge s ctx) as [IC _].
  destruct (iteration json_dumps merge s ctx) as [s' [e|]]; simpl in *.
  - exists [seg]. simpl. rewrite app_nil_r. repeat split; [done|done|lia].
  - destruct (IH s') as (segs & Hh & Hl & Hn).
    exists (seg :: segs). simpl. rewrite Hh, Hs, <- app_assoc. rewrite IC in Hl.
    repeat split; [done|done|lia].
Qed.

End Traces.

Lemma count_module_app m h1 h2 :
  count_module m (h1 ++ h2) = (count_module m h1 + count_module m h2)%nat.
Proof. unfold count_module. by rewrite filter_app, length_app. Qed.

Lemma count_violations_app h1 h2 :
  count_violations (h1 ++ h2) = (count_violations h1 + count_violations h2)%nat.
Proof. unfold count_violations. by rewrite filter_app, length_app. Qed.

Lemma count_module_one m t :
  count_module m [t] = if decide (lt_module t = module_value m) then 1%nat else 0%nat.
Proof. unfold count_module. rewrite filter_cons, filter_nil. by case_decide. Qed.

Lemma count_violations_one t :
  count_violations [t] = if decide (lt_validation_result t = Some false) then 1%nat else 0%nat.
Proof. unfold count_violations. rewrite filter_cons, filter_nil. by case_decide. Qed.

Lemma count_module_other m m' h :
  module_value m ≠ module_value m' →
  Forall (λ t, lt_module t = module_value m') h → count_module m h = 0%nat.
Proof.
  intros Hne. induction 1 as [|t h Ht _ IH]; [done|].
  change (t :: h) with ([t] ++ h). rewrite count_module_app, count_module_one, IH.
  rewrite decide_False; [done|congruence].
Qed.

Lemma count_violations_none h :
  Forall (λ t, lt_validation_result t = None) h → count_violations h = 0%nat.
Proof.
  induction 1 as [|t h Ht _ IH]; [done|].
  change (t :: h) with ([t] ++ h). rewrite count_violations_app, count_violations_one, IH.
  rewrite decide_False; [done|congruence].
Qed.

Lemma count_module_all m h :
  Forall (λ t, lt_module t = module_value m) h → count_module m h = length h.
Proof.
  induction 1 as [|t h Ht _ IH]; [done|].
  change (t :: h) with ([t] ++ h). rewrite count_module_app, count_module_one, IH.
  by rewrite decide_True.
Qed.

(** What one pass contributes to the counts of the report. *)
Lemma iteration_traces_counts n seg :
  iteration_traces n seg →
  count_module COGNITION seg = 1%nat ∧ count_module CONTROL seg = 1%nat
  ∧ count_module RETRIEVAL seg = 0%nat
  ∧ (count_module ACTION seg + count_violations seg ≤ 1)%nat
  ∧ (count_module HITL seg + count_violations seg ≤ 1)%nat.
Proof.
  intros (c & k & hs & acs & -> & Cm & _ & Cv & Km & _ & [v Kv] & Kf & Hl & Al & Hh & Ha).
  assert (Forall (λ t, lt_module t = module_value HITL) hs) as Hh1
    by (eapply Forall_impl; [exact Hh|]; by intros ? (?&?&?)).
  assert (Forall (λ t, lt_validation_result t = None) hs) as Hh2
    by (eapply Forall_impl; [exact Hh|]; by intros ? (?&?&?)).
  assert (Forall (λ t, lt_module t = module_value ACTION) acs) as Ha1
    by (eapply Forall_impl; [exact Ha|]; by intros ? (?&?&?)).
  assert (Forall (λ t, lt_validation_result t = None) acs) as Ha2
    by (eapply Forall_impl; [exact Ha|]; by intros ? (?&?&?)).
  change (c :: k :: hs ++ acs) with ([c] ++ [k] ++ hs ++ acs).
  rewrite !count_module_app, !count_violations_app, !count_module_one, !count_violations_one.
  rewrite Cm, Km, Cv, Kv.
  rewrite (count_module_other COGNITION HITL hs), (count_module_other COGNITION ACTION acs),
    (count_module_other CONTROL HITL hs), (count_module_other CONTROL ACTION acs),
    (count_module_other RETRIEVAL HITL hs), (count_module_other RETRIEVAL ACTION acs),
    (count_module_other ACTION HITL hs), (count_module_other HITL ACTION acs),
    (count_module_all ACTION acs), (count_module_all HITL hs),
    (count_violations_none hs), (count_violations_none acs) by done.
  destruct v.
  - repeat case_decide; try done; repeat split; simpl; lia.
  - destruct (Kf Kv) as [-> ->]. repeat case_decide; try done; repeat split; simpl; lia.
Qed.

Lemma loop_traces_counts n segs :
  loop_traces n segs →
  count_module COGNITION (concat segs) = length segs
  ∧ count_module CONTROL (concat segs) = length segs
  ∧ count_module RETRIEVAL (concat segs) = 0%nat
  ∧ (count_module ACTION (concat segs) + count_violations (concat segs) ≤ length segs)%nat
  ∧ (count_module HITL (concat segs) + count_violations (concat segs) ≤ length segs)%nat.
Proof.
  revert n. induction segs as [|seg segs IH]; intros n; simpl.
  { intros _. unfold count_module, count_violations. simpl. repeat split; lia. }
  intros [Hs Hr]. destruct (IH _ Hr) as (I1 & I2 & I3 & I4 & I5).
  destruct (iteration_traces_counts n seg Hs) as (J1 & J2 & J3 & J4 & J5).
  rewrite !count_module_app, !count_violations_app. repeat split; lia.
Qed.

Lemma actions_validated_app old h n seg :
  (old ≤ length h)%nat → actions_validated old h → iteration_traces n seg →
  actions_validated old (h ++ seg).
Proof.
  intros Hold Hh (c & k & hs & acs & -> & Cm & _ & _ & Km & Kid & [v Kv] & Kf & Hl & Al & Hhs & Ha).
  intros i t Hi Hlk Ht.
  destruct (decide (i < length h)%nat) as [Hlt|Hge].
  { rewrite lookup_app_l in Hlk by done.
    destruct (Hh i t Hi Hlk Ht) as (j & k' & n' & Hj & Hij & Hjk & ?).
    exists j, k', n'. split; [done|]. split; [done|]. split; [|done].
    rewrite lookup_app_l by lia. done. }
  rewrite lookup_app_r in Hlk by lia.
  destruct (i - length h)%nat as [|[|p]] eqn:Hp.
  { simpl in Hlk. injection Hlk as <-. rewrite Cm in Ht. done. }
  { simpl in Hlk. injection Hlk as <-. rewrite Km in Ht. done. }
  simpl in Hlk.
  assert (t ∈ acs) as Hin.
  { apply list_elem_of_lookup_2 in Hlk. apply elem_of_app in Hlk as [Hin|Hin]; [|done].
    rewrite Forall_forall in Hhs. destruct (Hhs _ Hin) as (Hm & _). rewrite Hm in Ht. done. }
  assert (p < length hs + length acs)%nat as Hpl.
  { apply lookup_lt_Some in Hlk. by rewrite length_app in Hlk. }
  rewrite Forall_forall in Ha. destruct (Ha _ Hin) as (_ & _ & Tid).
  destruct v.
  - exists (S (length h)), k, n. split; [lia|]. split; [lia|].
    split; [by rewrite lookup_app_r, (Nat.sub_succ_l _ _ (Nat.le_refl _)), Nat.sub_diag by lia|].
    done.
  - destruct (Kf Kv) as [_ ->]. by apply not_elem_of_nil in Hin.
Qed.

Lemma actions_validated_concat old h n segs :
  (old ≤ length h)%nat → actions_validated old h → loop_traces n segs →
  actions_validated old (h ++ concat segs).
Proof.
  revert h n. induction segs as [|seg segs IH]; intros h n Hold Hh; simpl.
  { by rewrite app_nil_r. }
  intros [Hs Hr]. rewrite app_assoc. eapply IH; [|by eapply actions_validated_app|done].
  rewrite length_app. lia.
Qed.

Lemma actions_validated_start h : actions_validated (length h) h.
Proof. intros i t Hi Hlk. apply lookup_lt_Some in Hlk. lia. Qed.

Lemma filter_fmap_length {A B} (f : A → B) (P : B → Prop) `{∀ x, Decision (P x)} (l : list A) :
  length (filter P (f <$> l)) = length (filter (λ x, P (f x)) l).
Proof.
  induction l as [|x l IH]; [done|]. rewrite fmap_cons, !filter_cons.
  destruct (decide (P (f x))); simpl; by rewrite IH.
Qed.

Section Grammar.
Variable json_dumps : tree -> string.

Lemma run_start_history s task :
  ∃ r, history (memory (run_start s task).1) = history (memory s) ++ [r]
       ∧ lt_module r = module_value RETRIEVAL ∧ lt_validation_result r = None
       ∧ loop_counter (run_start s task).1 = loop_counter s
       ∧ max_loops (run_start s task).1 = max_loops s.
Proof.
  unfold run_start, retrieval, write, now, alloc_ctx. simpl.
  eexists. split; [reflexivity|]. done.
Qed.

Lemma ccam_loop_bound merge fuel s ctx :
  loop_counter (ccam_loop json_dumps merge fuel s ctx).1
  ≤ Z.max (loop_counter s) (max_loops s).
Proof.
  revert s. induction fuel as [|fuel IH]; intros s; simpl; [lia|].
  destruct (loop_counter s <? max_loops s) eqn:E; [|simpl; lia].
  apply Z.ltb_lt in E.
  pose proof (iteration_counter json_dumps merge s ctx) as [I1 I2].
  destruct (iteration json_dumps merge s ctx) as [s' [e|]]; simpl in *; [lia|].
  specialize (IH s'). lia.
Qed.

Lemma run_history s task :
  ∃ r segs,
    history (memory (run json_dumps s task).1) = history (memory s) ++ r :: concat segs
    ∧ lt_module r = module_value RETRIEVAL ∧ lt_validation_result r = None
    ∧ loop_traces (loop_counter s + 1) segs
    ∧ Z.of_nat (length segs) = loop_counter (run json_dumps s task).1 - loop_counter s
    ∧ loop_counter (run json_dumps s task).1 ≤ Z.max (loop_counter s) (max_loops s).
Proof.
  unfold run, run_exit.
  destruct (run_start_history s task) as (r & Hr & Rm & Rv & RL & RM).
  destruct (run_start s task) as [s2 ctx]. simpl in Hr, RL, RM.
  destruct (ccam_loop_history json_dumps true (loop_fuel s2) s2 ctx) as (segs & Hh & Hl & Hn).
  pose proof (ccam_loop_bound true (loop_fuel s2) s2 ctx) as Hex.
  destruct (ccam_loop json_dumps true (loop_fuel s2) s2 ctx) as [s' e]. simpl in *.
  exists r, segs. rewrite Hh, Hr, <- app_assoc. rewrite RL in Hl, Hn.
  repeat (split; [done|]). lia.
Qed.

End Grammar.

Section GrammarTheorems.
Variable json_dumps : tree -> string.

(** X16: the shape of the history a run writes: one Retrieval trace,
    then for each pass of the loop a Cognition and a Control trace,
    followed only if Control passed by at most one HITL and at most one
    Action trace, all numbered with the loop counter of the pass.  The
    number of passes is the advance of the loop counter, which does not
    go beyond [max_loops]. *)
Theorem run_appends_one_segment_per_loop s task :
  let s' := (run json_dumps s task).1 in
  ∃ r segs,
    history (memory s') = history (memory s) ++ r :: concat segs
    ∧ lt_module r = module_value RETRIEVAL
    ∧ loop_traces (loop_counter s + 1) segs
    ∧ Z.of_nat (length segs) = loop_counter s' - loop_counter s
    ∧ loop_counter s' ≤ Z.max (loop_counter s) (max_loops s).
Proof.
  destruct (run_history json_dumps s task) as (r & segs & H1 & H2 & _ & H3 & H4 & H5).
  exists r, segs. done.
Qed.

(** X17: the loops execute validated actions only: every Action trace
    written by [run], or by either loop, comes after a Control trace of
    the same pass that reported success, with at most the HITL trace of
    that pass in between. *)
Theorem loop_executes_only_validated_actions s task :
  actions_validated (length (history (memory s)))
                    (history (memory (run json_dumps s task).1))
  ∧ ∀ merge fuel s0 ctx,
      actions_validated (length (history (memory s0)))
                        (history (memory (ccam_loop json_dumps merge fuel s0 ctx).1)).
Proof.
  split.
  - destruct (run_history json_dumps s task) as (r & segs & H1 & H2 & _ & H3 & _).
    rewrite H1. change (r :: concat segs) with ([r] ++ concat segs). rewrite app_assoc.
    eapply actions_validated_concat; [rewrite length_app; lia| |exact H3].
    intros i t Hi Hlk Ht.
    assert (i = length (history (memory s))) as ->.
    { apply lookup_lt_Some in Hlk. rewrite length_app in Hlk. simpl in Hlk. lia. }
    rewrite lookup_app_r, Nat.sub_diag in Hlk by lia. injection Hlk as <-.
    rewrite H2 in Ht. done.
  - intros merge fuel s0 ctx.
    destruct (ccam_loop_history json_dumps merge fuel s0 ctx) as (segs & H1 & H2 & _).
    rewrite H1. eapply actions_validated_concat; [done|apply actions_validated_start|exact H2].
Qed.

(** X18: the report of a run of a freshly built loop is consistent with
    its log: [total_loops] is the number of Cognition entries, which is
    the number of Control entries; there is one Retrieval entry;
    [policy_violations] counts the entries whose validation failed, and
    the passes that were not violations bound the Action and the HITL
    entries; [total_loops] stays within [max_loops]; and [loop_count] of
    the final state is the length of the log, not the number of loops. *)
Theorem fresh_run_report_is_consistent engine registry mp pol max mode console w task :
  let s := SCL_init engine registry mp pol max mode console w in
  let r := (run json_dumps s task).2 in
  let entries m := length (filter (λ v, lv_module v = module_value m) (rp_log r)) in
  total_loops (rp_summary r) = Z.of_nat (entries COGNITION)
  ∧ entries CONTROL = entries COGNITION
  ∧ entries RETRIEVAL = 1%nat
  ∧ policy_violations (rp_summary r)
    = length (filter (λ v, lv_validation_result v = Some false) (rp_log r))
  ∧ (entries ACTION + policy_violations (rp_summary r) ≤ entries CONTROL)%nat
  ∧ (entries HITL + policy_violations (rp_summary r) ≤ entries CONTROL)%nat
  ∧ 0 ≤ total_loops (rp_summary r) ≤ Z.max 0 max
  ∧ loop_count (final_state (rp_summary r)) = length (rp_log r).
Proof.
  intros s r entries.
  destruct (run_history json_dumps s task) as (r0 & segs & H1 & H2 & Hv & H3 & H4 & H5).
  destruct (loop_traces_counts _ _ H3) as (C1 & C2 & C3 & C4 & C5).
  assert (∀ m, entries m = count_module m (history (memory (run json_dumps s task).1))) as E.
  { intros m. subst entries r. cbv beta. rewrite run_report. simpl.
    by rewrite filter_fmap_length. }
  assert (policy_violations (rp_summary r)
          = count_violations (history (memory (run json_dumps s task).1))) as V.
  { subst r. rewrite run_report. done. }
  assert (length (filter (λ v, lv_validation_result v = Some false) (rp_log r))
          = count_violations (history (memory (run json_dumps s task).1))) as V'.
  { subst r. rewrite run_report. simpl. by rewrite filter_fmap_length. }
  assert (total_loops (rp_summary r) = loop_counter (run json_dumps s task).1) as T.
  { subst r. rewrite run_report. done. }
  assert (loop_count (final_state (rp_summary r)) = length (rp_log r)) as L.
  { subst r. rewrite run_report. simpl. by rewrite length_fmap. }
  rewrite !E, V, V', T, H1. subst s. simpl in *.
  change (r0 :: concat segs) with ([r0] ++ concat segs).
  rewrite !count_module_app, !count_violations_app, !count_module_one, !count_violations_one.
  rewrite H2, Hv. repeat case_decide; try done.
  split_and!; try done; try lia.
Qed.

End GrammarTheorems.

(** ** The audit events of a run *)

(** Whatever the handler answers is a processed decision on the snapshot
    of the request. *)
Lemma handle_intervention_spec h w m rq f :
  frozen_states m !! rq_freeze_id rq = Some f →
  let '(w', m', r) := handle_intervention h w m rq in
  world_ext w w' ∧ frozen_states m' = frozen_states m
  ∧ ∃ d tid na e t,
      r = DProcessed d tid (rq_freeze_id rq) na
      ∧ hitl_traces m' = hitl_traces m ++ [t]
      ∧ is_event e (rq_freeze_id rq) t ∧ tr_actor t = "human"
      ∧ ((e = REJECTED ∧ ∃ fb vr, na = NARetry fb vr)
         ∨ ((e = APPROVED ∨ e = MODIFIED) ∧ ∃ l, na = NAExecute l)).
Proof.
  intros Hf. unfold handle_intervention, _auto_approve, _interactive_prompt.
  destruct (auto_approve h); [|destruct (h_input h (clock w) rq) as [ra|fb|p]].
  - pose proof (process_human_decision_spec w m (rq_freeze_id rq) "approve" None None
                  (Some "Auto-approved for testing") f APPROVED Hf eq_refl) as Hp.
    destruct (process_human_decision _ _ _ _ _ _ _) as [[w' m'] r].
    destruct Hp as (A & C & K & Hfs & [tid ->] & t & Ht & Et & _ & Ea & _).
    split; [by apply world_ext_same|]. split; [done|].
    eexists _, _, _, APPROVED, t. split; [reflexivity|]. repeat (split; [done|]).
    right. split; [by left|]. by eexists.
  - pose proof (process_human_decision_spec w m (rq_freeze_id rq) "approve" None None
                  ra f APPROVED Hf eq_refl) as Hp.
    destruct (process_human_decision _ _ _ _ _ _ _) as [[w' m'] r].
    destruct Hp as (A & C & K & Hfs & [tid ->] & t & Ht & Et & _ & Ea & _).
    split; [by apply world_ext_same|]. split; [done|].
    eexists _, _, _, APPROVED, t. split; [reflexivity|]. repeat (split; [done|]).
    right. split; [by left|]. by eexists.
  - pose proof (process_human_decision_spec w m (rq_freeze_id rq) "reject" (Some fb) None
                  (Some "Human rejected action") f REJECTED Hf eq_refl) as Hp.
    destruct (process_human_decision _ _ _ _ _ _ _) as [[w' m'] r].
    destruct Hp as (A & C & K & Hfs & [tid ->] & t & Ht & Et & _ & Ea & _).
    split; [by apply world_ext_same|]. split; [done|].
    eexists _, _, _, REJECTED, t. split; [reflexivity|]. repeat (split; [done|]).
    left. split; [done|]. by do 2 eexists.
  - pose proof (world_ext_alloc_act w
                  (mkAction (tool_name (get_act w (rq_pending_action rq))) (Some p))) as X.
    destruct (alloc_act w _) as [w1 l]. cbn [fst] in X.
    pose proof (process_human_decision_spec w1 m (rq_freeze_id rq) "modify" None (Some l)
                  (Some "Human modified action parameters") f MODIFIED Hf eq_refl) as Hp.
    destruct (process_human_decision _ _ _ _ _ _ _) as [[w' m'] r].
    destruct Hp as (A & C & K & Hfs & [tid ->] & t & Ht & Et & _ & Ea & _).
    split; [eapply world_ext_trans; [exact X|by apply world_ext_same]|]. split; [done|].
    eexists _, _, _, MODIFIED, t. split; [reflexivity|]. repeat (split; [done|]).
    right. split; [by right|]. by eexists.
Qed.

(** The three ways [hitl_check] can go. *)
Lemma hitl_check_cases s cog ctx :
  let '(s', (p, md)) := hitl_check s cog ctx in
  let ts := hitl_traces (hitl_manager s) in
  let ts' := hitl_traces (hitl_manager s') in
  world_ext (world s) (world s')
  ∧ ((s' = s ∧ p = true ∧ md = MNone)
     ∨ (hitl_handler s = None ∧ hitl_mode s ≠ "disabled" ∧ p = false ∧ md = MNone
        ∧ ∃ fid tf tr, ts' = ts ++ [tf; tr]
            ∧ is_event STATE_FROZEN fid tf ∧ is_event APPROVAL_REQUESTED fid tr
            ∧ is_Some (frozen_states (hitl_manager s') !! fid))
     ∨ (hitl_mode s ≠ "disabled"
        ∧ ∃ fid tf tr td tt e, ts' = ts ++ [tf; tr; td; tt]
            ∧ is_event STATE_FROZEN fid tf ∧ is_event APPROVAL_REQUESTED fid tr
            ∧ is_event e fid td ∧ tr_actor td = "human" ∧ is_event STATE_THAWED fid tt
            ∧ ((e = REJECTED ∧ p = false ∧ md = MVirtualRejection)
               ∨ ((e = APPROVED ∨ e = MODIFIED) ∧ p = true)))).
Proof.
  unfold hitl_check.
  destruct (decide (hitl_mode s = "disabled")) as [|Hmode].
  { split; [apply world_ext_refl|]. by left. }
  destruct (check_intervention _ _ _ _ _) as [lvl reason].
  destruct (decide (lvl = NONE)) as [|Hn].
  { split; [apply world_ext_refl|]. by left. }
  pose proof (hitl_check_suspends s cog ctx lvl reason) as H.
  destruct (freeze_state _ _ _ _ _ _ _ _ _ _) as [[w1 m1] f].
  destruct (request_approval w1 m1 f) as [[w2 m2] rq].
  destruct H as (X & Hid & Hlc & Hms & Hev & Hpa & Hfs & Hrid & Hrpa & tf & tr & Htr & Ef & Er).
  assert (frozen_states m2 !! fz_freeze_id f = Some f) as Hin
    by (by rewrite Hfs, lookup_insert_eq).
  assert (∀ w3 m3 d tid na e td,
            world_ext w2 w3 → frozen_states m3 = frozen_states m2 →
            hitl_traces m3 = hitl_traces m2 ++ [td] →
            is_event e (fz_freeze_id f) td → tr_actor td = "human" →
            ((e = REJECTED ∧ ∃ fb vr, na = NARetry fb vr)
             ∨ ((e = APPROVED ∨ e = MODIFIED) ∧ ∃ l, na = NAExecute l)) →
            ∀ P : SCL * (bool * Modified) → Prop,
            (∀ s' p md,
               world_ext (world s) (world s') →
               (∃ tt, hitl_traces (hitl_manager s') = hitl_traces (hitl_manager s) ++ [tf; tr; td; tt]
                      ∧ is_event STATE_THAWED (fz_freeze_id f) tt) →
               ((e = REJECTED ∧ p = false ∧ md = MVirtualRejection)
                ∨ ((e = APPROVED ∨ e = MODIFIED) ∧ p = true)) →
               P (s', (p, md))) →
            P (let '(w4, ts) := now w3 in
               let hitl_trace :=
                 mkLoopTrace ("HITL-" +:+ fmt_0dZ 3 (loop_counter s)) ts (module_value HITL)
                   (SVTree (TDict [("freeze_id", TStr (fz_freeze_id f));
                                   ("level", TStr (level_value lvl))]))
                   (SVDecision (DProcessed d tid (fz_freeze_id f) na)) None None None
                   (Some (DProcessed d tid (fz_freeze_id f) na)) in
               let s1 := set_memory s (log_trace (memory s) hitl_trace) in
               match DProcessed d tid (fz_freeze_id f) na with
               | DProcessed _ _ _ (NAExecute modified) =>
                   let '(w5, m4, _) := thaw_state w4 m3 (fz_freeze_id f) in
                   let s2 := set_world (set_hitl_manager s1 m4) w5 in
                   if same_action w5 modified (proposed_action (get_cog w5 cog))
                   then (s2, (true, MNone))
                   else (s2, (true, MAction modified))
               | DProcessed _ _ _ (NARetry _ _) =>
                   let '(w5, m4, _) := thaw_state w4 m3 (fz_freeze_id f) in
                   let rejection_cycle :=
                     create_virtual_rejection_cycle f "Human rejected the action" in
                   (set_resume_context (set_world (set_hitl_manager s1 m4) w5)
                                       (Some (rc_context_update rejection_cycle)),
                    (false, MVirtualRejection))
               | DError _ => (set_world (set_hitl_manager s1 m3) w4, (false, MNone))
               end)) as Tail.
  { intros w3 m3 d tid na e td X3 Hfs3 Htd Ed Ea Hna P HP.
    unfold now. cbn [fst snd].
    set (w4 := mkWorld _ _ _ _ _).
    assert (frozen_states m3 !! fz_freeze_id f = Some f) as Hin3 by (by rewrite Hfs3).
    pose proof (thaw_state_spec w4 m3 (fz_freeze_id f) f Hin3) as Ht.
    destruct (thaw_state w4 m3 (fz_freeze_id f)) as [[w5 m4] o].
    destruct Ht as (A5 & C5 & K5 & Hfs5 & tt & Htt & Et & _).
    assert (world_ext (world s) w5) as X5.
    { eapply world_ext_trans; [exact X|]. eapply world_ext_trans; [exact X3|].
      by apply world_ext_same. }
    assert (hitl_traces m4 = hitl_traces (hitl_manager s) ++ [tf; tr; td; tt]) as Hall.
    { rewrite Htt, Htd, Htr, <- !app_assoc. done. }
    destruct Hna as [(-> & fb & vr & ->)|(He & l & ->)]; cbn beta iota.
    - apply HP; [done|by exists tt|by left].
    - destruct (same_action _ _ _); (apply HP; [done|by exists tt|by right]). }
  destruct (hitl_handler s) as [h|] eqn:Hh.
  - rewrite <- Hrid in Hin.
    pose proof (handle_intervention_spec h w2 m2 rq f Hin) as Hs.
    destruct (handle_intervention h w2 m2 rq) as [[w3 m3] r].
    destruct Hs as (X3 & Hfs3 & d & tid & na & e & td & -> & Htd & Ed & Ea & Hna).
    rewrite Hrid in Ed |- *.
    apply (Tail w3 m3 d tid na e td X3 Hfs3 Htd Ed Ea Hna
             (λ '(s', (p, md)), _ ∧ (_ ∨ _ ∨ _))).
    intros s' p md Hw [tt [Hts Et]] He. split; [done|]. right. right.
    split; [done|]. exists (fz_freeze_id f), tf, tr, td, tt, e. done.
  - destruct (decide (lvl = NOTIFY)) as [->|Hnn].
    + pose proof (process_human_decision_spec w2 m2 (fz_freeze_id f) "approve" None None
                    (Some "Auto-approved (notify level)") f APPROVED Hin eq_refl) as Hp.
      destruct (process_human_decision _ _ _ _ _ _ _) as [[w3 m3] r].
      destruct Hp as (A3 & C3 & K3 & Hfs3 & [tid ->] & td & Htd & Ed & _ & Ea & _).
      assert (world_ext w2 w3) as X3 by (by apply world_ext_same).
      apply (Tail w3 m3 "approve" tid _ APPROVED td X3 Hfs3 Htd Ed Ea).
      { right. split; [by left|]. unfold _determine_next_action.
        rewrite decide_True by done. by eexists. }
      intros s' p md Hw [tt [Hts Et]] He. split; [done|]. right. right.
      split; [done|]. exists (fz_freeze_id f), tf, tr, td, tt, APPROVED. done.
    + simpl. split; [done|]. right. left. repeat (split; [done|]).
      exists (fz_freeze_id f), tf, tr. repeat (split; [done|]). by rewrite Hin.
Qed.

Lemma count_decisions_snoc ts t :
  count_decisions (ts ++ [t])
  = (count_decisions ts
     + if decide (tr_event_type t = APPROVED ∨ tr_event_type t = REJECTED
                  ∨ tr_event_type t = MODIFIED) then 1 else 0)%nat.
Proof.
  unfold count_decisions. rewrite !count_events_snoc.
  destruct (tr_event_type t); repeat case_decide; try lia; exfalso; intuition congruence.
Qed.

Lemma handled_events_balance ts tf tr td tt fid e :
  is_event STATE_FROZEN fid tf → is_event APPROVAL_REQUESTED fid tr →
  is_event e fid td → is_event STATE_THAWED fid tt →
  e = REJECTED ∨ e = APPROVED ∨ e = MODIFIED →
  count_decisions (ts ++ [tf; tr; td; tt]) = S (count_decisions ts).
Proof.
  intros [E1 _] [E2 _] [E3 _] [E4 _] He.
  change [tf; tr; td; tt] with ([tf] ++ [tr] ++ [td] ++ [tt]).
  rewrite !app_assoc, !count_decisions_snoc, E1, E2, E3, E4.
  repeat case_decide; try lia; exfalso; intuition congruence.
Qed.

Lemma blocked_events_balance ts tf tr fid :
  is_event STATE_FROZEN fid tf → is_event APPROVAL_REQUESTED fid tr →
  count_decisions (ts ++ [tf; tr]) = count_decisions ts.
Proof.
  intros [E1 _] [E2 _].
  change [tf; tr] with ([tf] ++ [tr]).
  rewrite !app_assoc, !count_decisions_snoc, E1, E2.
  repeat case_decide; try lia; exfalso; intuition congruence.
Qed.

Section Events.
Variable json_dumps : tree -> string.

Lemma cognition_config s ctx :
  hitl_handler (cognition s ctx).1 = hitl_handler s
  ∧ hitl_mode (cognition s ctx).1 = hitl_mode s.
Proof. unfold cognition. destruct_lets. done. Qed.

Lemma control_config s cog :
  hitl_handler (control json_dumps s cog).1 = hitl_handler s
  ∧ hitl_mode (control json_dumps s cog).1 = hitl_mode s.
Proof. unfold control. destruct_lets. done. Qed.

Lemma action_config s cog ma :
  hitl_handler (action json_dumps s cog ma).1 = hitl_handler s
  ∧ hitl_mode (action json_dumps s cog ma).1 = hitl_mode s.
Proof. unfold action, now. repeat case_match; simpl; done. Qed.

Lemma hitl_check_config s cog ctx :
  hitl_handler (hitl_check s cog ctx).1 = hitl_handler s
  ∧ hitl_mode (hitl_check s cog ctx).1 = hitl_mode s.
Proof. unfold hitl_check. repeat (case_match || destruct_lets); done. Qed.

Lemma merge_resume_config s ctx :
  hitl_handler (merge_resume_context s ctx) = hitl_handler s
  ∧ hitl_mode (merge_resume_context s ctx) = hitl_mode s.
Proof. unfold merge_resume_context. by case_match. Qed.

Lemma run_start_config s task :
  hitl_handler (run_start s task).1 = hitl_handler s
  ∧ hitl_mode (run_start s task).1 = hitl_mode s.
Proof. unfold run_start, retrieval, write, now, alloc_ctx. simpl. done. Qed.

Lemma iteration_events merge s ctx :
  let '(s', exit) := iteration json_dumps merge s ctx in
  let ts := hitl_traces (hitl_manager s) in
  let ts' := hitl_traces (hitl_manager s') in
  hitl_handler s' = hitl_handler s ∧ hitl_mode s' = hitl_mode s
  ∧ (hitl_mode s = "disabled" → hitl_manager s' = hitl_manager s)
  ∧ (count_decisions ts ≤ count_decisions ts')%nat
  ∧ (exit ≠ Some ExitBlocked →
       (length ts' + 4 * count_decisions ts = length ts + 4 * count_decisions ts')%nat)
  ∧ (exit = Some ExitBlocked →
       hitl_handler s = None ∧ hitl_mode s ≠ "disabled"
       ∧ ∃ fid tf tr, ts' = ts ++ [tf; tr]
           ∧ is_event STATE_FROZEN fid tf ∧ is_event APPROVAL_REQUESTED fid tr
           ∧ is_Some (frozen_states (hitl_manager s') !! fid)).
Proof.
  unfold iteration.
  set (s0 := if merge then merge_resume_context s ctx else s).
  assert (hitl_manager s0 = hitl_manager s ∧ hitl_handler s0 = hitl_handler s
          ∧ hitl_mode s0 = hitl_mode s) as (M0 & H0 & D0).
  { subst s0. destruct merge; [|done].
    destruct (merge_resume_frame s ctx) as (_ & _ & ?).
    destruct (merge_resume_config s ctx). done. }
  pose proof (cognition_frame s0 ctx) as CF. pose proof (cognition_config s0 ctx) as CC.
  destruct (cognition s0 ctx) as [s1 cog]. simpl in CF, CC.
  destruct CF as (_ & _ & M1 & _). destruct CC as [H1 D1].
  set (s2 := set_world s1 _).
  pose proof (control_frame json_dumps s2 cog) as KF.
  pose proof (control_config s2 cog) as KC.
  destruct (control json_dumps s2 cog) as [s3 [v msg]]. simpl in KF, KC.
  destruct KF as (_ & _ & M3 & _). destruct KC as [H3 D3].
  assert (hitl_manager s3 = hitl_manager s) as M by congruence.
  assert (hitl_handler s3 = hitl_handler s) as Hh by congruence.
  assert (hitl_mode s3 = hitl_mode s) as Hd by congruence.
  destruct v; simpl.
  2:{ rewrite M. split_and!; try done; try lia. }
  pose proof (hitl_check_cases s3 cog ctx) as HC.
  pose proof (hitl_check_config s3 cog ctx) as HK.
  destruct (hitl_check s3 cog ctx) as [s4 [p md]]. simpl in HC, HK.
  destruct HK as [H4 D4]. destruct HC as [_ HC].
  assert (∀ s5, hitl_manager s5 = hitl_manager s4 →
     (hitl_mode s = "disabled" → hitl_manager s5 = hitl_manager s)
     ∧ (count_decisions (hitl_traces (hitl_manager s))
        ≤ count_decisions (hitl_traces (hitl_manager s5)))%nat
     ∧ (¬ (p = false ∧ md ≠ MVirtualRejection) →
          (length (hitl_traces (hitl_manager s5))
           + 4 * count_decisions (hitl_traces (hitl_manager s))
           = length (hitl_traces (hitl_manager s))
             + 4 * count_decisions (hitl_traces (hitl_manager s5)))%nat)
     ∧ (p = false → md ≠ MVirtualRejection →
          hitl_handler s = None ∧ hitl_mode s ≠ "disabled"
          ∧ ∃ fid tf tr, hitl_traces (hitl_manager s5) = hitl_traces (hitl_manager s) ++ [tf; tr]
              ∧ is_event STATE_FROZEN fid tf ∧ is_event APPROVAL_REQUESTED fid tr
              ∧ is_Some (frozen_states (hitl_manager s5) !! fid))) as Core.
  { intros s5 ->. rewrite <- M, <- Hh, <- Hd.
    destruct HC as [(-> & -> & ->)|[(Hn & Hm & -> & -> & fid & tf & tr & Hts & Ef & Er & Hs)
                                   |(Hm & fid & tf & tr & td & tt & e & Hts & Ef & Er & Ed & _ & Et & He)]].
    - split; [done|]. split; [lia|]. split; [lia|]. done.
    - split; [done|]. rewrite Hts, (blocked_events_balance _ _ _ _ Ef Er).
      split; [lia|]. split; [intros X; destruct X; done|].
      intros _ _. repeat (split; [done|]). by exists fid, tf, tr.
    - split; [done|]. rewrite Hts.
      rewrite (handled_events_balance _ _ _ _ _ fid e Ef Er Ed Et)
        by (destruct He as [(? & _)|([?|?] & _)]; auto).
      rewrite length_app. simpl. split; [lia|]. split; [lia|].
      intros -> Hmd. destruct He as [(_ & _ & ->)|(_ & ?)]; done. }
  destruct p; simpl.
  - pose proof (action_frame json_dumps s4 cog (modified_arg md)) as AF.
    pose proof (action_config s4 cog (modified_arg md)) as AC.
    destruct (action json_dumps s4 cog (modified_arg md)) as [s5 r]. simpl in AF, AC.
    destruct AF as (_ & _ & M5 & _). destruct AC as [H5 D5].
    destruct (Core s5 M5) as (Q1 & Q2 & Q3 & _).
    assert (hitl_handler s5 = hitl_handler s ∧ hitl_mode s5 = hitl_mode s) as [? ?]
      by (split; congruence).
    destruct (is_final_action _); simpl;
      (split_and!; try done; intros _; apply Q3; by intros []).
  - destruct (Core s4 eq_refl) as (Q1 & Q2 & Q3 & Q4).
    assert (hitl_handler s4 = hitl_handler s ∧ hitl_mode s4 = hitl_mode s) as [? ?]
      by (split; congruence).
    destruct md; simpl; split_and!; try done.
    + intros _. by apply Q4.
    + intros _. by apply Q4.
    + intros _. apply Q3. by intros [_ ?].
Qed.

Lemma ccam_loop_events merge fuel s ctx :
  let '(s', exit) := ccam_loop json_dumps merge fuel s ctx in
  let ts := hitl_traces (hitl_manager s) in
  let ts' := hitl_traces (hitl_manager s') in
  (hitl_mode s = "disabled" → hitl_manager s' = hitl_manager s)
  ∧ (count_decisions ts ≤ count_decisions ts')%nat
  ∧ (length ts' + 4 * count_decisions ts
     = length ts + 4 * count_decisions ts'
       + match exit with ExitBlocked => 2 | _ => 0 end)%nat
  ∧ (exit = ExitBlocked →
       hitl_handler s = None ∧ hitl_mode s ≠ "disabled"
       ∧ ∃ fid tf tr pre, ts' = pre ++ [tf; tr]
           ∧ is_event STATE_FROZEN fid tf ∧ is_event APPROVAL_REQUESTED fid tr
           ∧ is_Some (frozen_states (hitl_manager s') !! fid)).
Proof.
  revert s. induction fuel as [|fuel IH]; intros s; simpl.
  { split_and!; (done || lia). }
  destruct (loop_counter s <? max_loops s).
  2:{ split_and!; (done || lia). }
  pose proof (iteration_events merge s ctx) as I.
  destruct (iteration json_dumps merge s ctx) as [s1 [e|]]; simpl in I.
  - destruct I as (Hh & Hd & Hdis & Hle & Hnb & Hb).
    split; [done|]. split; [done|].
    destruct e.
    + specialize (Hnb ltac:(done)). split; [lia|done].
    + destruct (Hb eq_refl) as (Hn & Hm & fid & tf & tr & Hts & Ef & Er & Hs). split.
      * rewrite Hts, (blocked_events_balance _ _ _ _ Ef Er), length_app. simpl. lia.
      * intros _. repeat (split; [done|]).
        by exists fid, tf, tr, (hitl_traces (hitl_manager s)).
    + specialize (Hnb ltac:(done)). split; [lia|done].
  - destruct I as (Hh & Hd & Hdis & Hle & Hnb & _).
    specialize (IH s1). destruct (ccam_loop json_dumps merge fuel s1 ctx) as [s' e].
    simpl in IH. destruct IH as (J1 & J2 & J3 & J4).
    specialize (Hnb ltac:(done)).
    split; [intros Hx; rewrite J1, Hdis by congruence; done|].
    split; [lia|]. split; [lia|].
    intros He. destruct (J4 He) as (? & ? & ?). split; [congruence|]. split; [congruence|done].
Qed.

End Events.

Section EventTheorems.
Variable json_dumps : tree -> string.

Lemma run_exit_events s task :
  let '(s', exit) := run_exit json_dumps s task in
  let ts := hitl_traces (hitl_manager s) in
  let ts' := hitl_traces (hitl_manager s') in
  (hitl_mode s = "disabled" → hitl_manager s' = hitl_manager s)
  ∧ (count_decisions ts ≤ count_decisions ts')%nat
  ∧ (length ts' + 4 * count_decisions ts
     = length ts + 4 * count_decisions ts'
       + match exit with ExitBlocked => 2 | _ => 0 end)%nat
  ∧ (exit = ExitBlocked →
       hitl_handler s = None ∧ hitl_mode s ≠ "disabled"
       ∧ ∃ fid tf tr pre, ts' = pre ++ [tf; tr]
           ∧ is_event STATE_FROZEN fid tf ∧ is_event APPROVAL_REQUESTED fid tr
           ∧ is_Some (frozen_states (hitl_manager s') !! fid)).
Proof.
  unfold run_exit.
  pose proof (run_start_frame s task) as (_ & _ & M & _).
  pose proof (run_start_config s task) as [Hh Hd].
  destruct (run_start s task) as [s2 ctx]. simpl in M, Hh, Hd.
  pose proof (ccam_loop_events json_dumps true (loop_fuel s2) s2 ctx) as L.
  destruct (ccam_loop json_dumps true (loop_fuel s2) s2 ctx) as [s' e].
  cbn beta iota zeta in L |- *. rewrite M, Hh, Hd in L. exact L.
Qed.

(** X19: a run ends blocked only when no handler is attached and the
    mode is not "disabled"; the audit log then ends with the state-frozen
    and approval-requested events of a snapshot that is stored, the one
    to resume from. *)
Theorem run_blocks_only_without_a_handler s task :
  (run_exit json_dumps s task).2 = ExitBlocked →
  let m' := hitl_manager (run json_dumps s task).1 in
  hitl_handler s = None ∧ hitl_mode s ≠ "disabled"
  ∧ ∃ fid tf tr earlier,
      hitl_traces m' = earlier ++ [tf; tr]
      ∧ is_event STATE_FROZEN fid tf ∧ is_event APPROVAL_REQUESTED fid tr
      ∧ is_Some (frozen_states m' !! fid).
Proof.
  unfold run. pose proof (run_exit_events s task) as H.
  destruct (run_exit json_dumps s task) as [s' e]. simpl. intros ->.
  destruct H as (_ & _ & _ & H). by apply H.
Qed.

(** X20: over a run the audit log grows by four events for each human
    decision (frozen, requested, the decision, thawed) and by two more if
    the run ends blocked; [hitl_interventions] of the summary counts
    events, not interventions.  With the mode "disabled" the manager is
    not touched at all. *)
Theorem run_logs_four_events_per_decision s task :
  let st := statistics (get_audit_log (world s) (hitl_manager s)) in
  let r := (run json_dumps s task).2 in
  let st' := statistics (rp_hitl_log r) in
  let decisions x := (approvals x + rejections x + modifications x)%nat in
  (total_interventions st' + 4 * decisions st
   = total_interventions st + 4 * decisions st'
     + match (run_exit json_dumps s task).2 with ExitBlocked => 2 | _ => 0 end)%nat
  ∧ (decisions st ≤ decisions st')%nat
  ∧ hitl_interventions (rp_summary r) = total_interventions st'
  ∧ (hitl_mode s = "disabled" → hitl_manager (run json_dumps s task).1 = hitl_manager s).
Proof.
  unfold run. pose proof (run_exit_events s task) as H.
  destruct (run_exit json_dumps s task) as [s' e]. cbn beta iota zeta in H |- *.
  destruct H as (H1 & H2 & H3 & _). simpl. unfold count_decisions in *.
  split; [exact H3|]. split; [exact H2|]. split; [done|exact H1].
Qed.

End EventTheorems.

(** ** The rejection keys of the context *)

Lemma get_ctx_set w l c : (l < length (ctxs w))%nat → get_ctx (set_ctx w l c) l = c.
Proof.
  intros H. unfold get_ctx, set_ctx. simpl.
  change (default ∅ (<[l:=c]> (ctxs w) !! l) = c). by rewrite list_lookup_insert_eq.
Qed.

Lemma get_ctx_same w w' l : ctxs w' = ctxs w → get_ctx w' l = get_ctx w l.
Proof. unfold get_ctx. by intros ->. Qed.

Lemma set_ctx_length w l c : length (ctxs (set_ctx w l c)) = length (ctxs w).
Proof. unfold set_ctx. simpl. apply length_insert. Qed.

Lemma clear_rejection_get w ctx :
  (ctx < length (ctxs w))%nat →
  get_ctx (clear_rejection w ctx) ctx
  = delete "retry_guidance" (delete "rejection_reason" (delete "human_rejected" (get_ctx w ctx))).
Proof.
  intros H. unfold clear_rejection, ctx_pop.
  rewrite !get_ctx_set; [done|done| |]; rewrite ?set_ctx_length; done.
Qed.

Lemma ctx_set_get w ctx k v :
  (ctx < length (ctxs w))%nat → get_ctx (ctx_set w ctx k v) ctx = <[k := v]> (get_ctx w ctx).
Proof. intros H. unfold ctx_set. by rewrite get_ctx_set. Qed.

Section Context.
Variable json_dumps : tree -> string.

(** X21: after a pass through the loop body the keys "human_rejected",
    "rejection_reason" and "retry_guidance" are absent from the context,
    so the prompt built from it carries no rejection; apart from these
    and from "last_rejection" and "last_action_result", the pass leaves
    the keys of the context as they were after the merge at its top. *)
Theorem iteration_clears_rejection_keys (merge : bool) (s : SCL) (ctx : loc) :
  (ctx < length (ctxs (world s)))%nat →
  let before := get_ctx (world (if merge then merge_resume_context s ctx else s)) ctx in
  let s' := (iteration json_dumps merge s ctx).1 in
  let after := get_ctx (world s') ctx in
  after !! "human_rejected" = None
  ∧ after !! "rejection_reason" = None
  ∧ after !! "retry_guidance" = None
  ∧ pr_hitl_context (cognition_prompt s' ctx) = None
  ∧ ∀ k, k ∉ ["human_rejected"; "rejection_reason"; "retry_guidance";
              "last_rejection"; "last_action_result"] →
         after !! k = before !! k.
Proof.
  intros Hv before s' after.
  pose (P := λ c : gmap string cval,
          c !! "human_rejected" = None ∧ c !! "rejection_reason" = None
          ∧ c !! "retry_guidance" = None
          ∧ ∀ k, k ∉ ["human_rejected"; "rejection_reason"; "retry_guidance";
                      "last_rejection"; "last_action_result"] →
                 c !! k = before !! k).
  assert (P after) as (K1 & K2 & K3 & K4).
  2:{ repeat (split; [done|]). split; [|done].
      unfold cognition_prompt. cbn [pr_hitl_context]. fold after. by rewrite K1. }
  subst after s' before. unfold iteration.
  set (s0 := if merge then merge_resume_context s ctx else s) in *.
  assert (ctx < length (ctxs (world s0)))%nat as V0.
  { subst s0. destruct merge; [|done].
    destruct (merge_resume_world s ctx) as [-> _]. done. }
  destruct (cognition_world s0 ctx) as [C1 _].
  destruct (cognition s0 ctx) as [s1 cog]. simpl in C1.
  set (s2 := set_world s1 _).
  assert (get_ctx (world s2) ctx
          = delete "retry_guidance" (delete "rejection_reason"
              (delete "human_rejected" (get_ctx (world s0) ctx)))) as G2.
  { subst s2. unfold set_world. cbn [world]. rewrite clear_rejection_get by (by rewrite C1).
    by rewrite (get_ctx_same _ _ _ C1). }
  assert (ctx < length (ctxs (world s2)))%nat as V2.
  { subst s2. unfold set_world. cbn [world]. rewrite clear_rejection_ctxs. by rewrite C1. }
  destruct (control_world json_dumps s2 cog) as [C3 _].
  destruct (control json_dumps s2 cog) as [s3 [v msg]]. simpl in C3.
  assert (P (get_ctx (world s2) ctx)) as Keep.
  { subst P. cbv beta. rewrite G2.
    split; [by rewrite lookup_delete_ne, lookup_delete_ne, lookup_delete_eq|].
    split; [by rewrite lookup_delete_ne, lookup_delete_eq|].
    split; [by rewrite lookup_delete_eq|].
    intros k Hk. rewrite !not_elem_of_cons in Hk.
    destruct Hk as (M1 & M2 & M3 & M4 & M5 & _). by rewrite !lookup_delete_ne. }
  assert (∀ w key val, (ctx < length (ctxs w))%nat → get_ctx w ctx = get_ctx (world s2) ctx →
            key = "last_rejection" ∨ key = "last_action_result" →
            P (get_ctx (ctx_set w ctx key val) ctx)) as Hset.
  { intros w key val Vw Gw Hkey. destruct Keep as (K1 & K2 & K3 & K4).
    subst P. cbv beta. rewrite ctx_set_get, Gw by done.
    assert (key ≠ "human_rejected" ∧ key ≠ "rejection_reason" ∧ key ≠ "retry_guidance")
      as (N1 & N2 & N3) by (destruct Hkey as [-> | ->]; done).
    rewrite !lookup_insert_ne by done. repeat (split; [done|]).
    intros k Hk. rewrite <- (K4 k Hk). rewrite !not_elem_of_cons in Hk.
    destruct Hk as (M1 & M2 & M3 & M4 & M5 & _).
    rewrite lookup_insert_ne by (destruct Hkey as [-> | ->]; done). done. }
  assert (get_ctx (world s3) ctx = get_ctx (world s2) ctx) as G3 by (by apply get_ctx_same).
  assert (ctx < length (ctxs (world s3)))%nat as V3 by (by rewrite C3).
  destruct v; simpl.
  2:{ apply Hset; [done|done|by left]. }
  pose proof (hitl_check_cases s3 cog ctx) as HC.
  destruct (hitl_check s3 cog ctx) as [s4 [p md]]. simpl in HC. destruct HC as [X4 _].
  assert (get_ctx (world s4) ctx = get_ctx (world s2) ctx) as G4
    by (by rewrite (world_ext_get_ctx _ _ _ X4 V3)).
  assert (ctx < length (ctxs (world s4)))%nat as V4.
  { destruct X4 as (_ & _ & Pf). apply prefix_length in Pf. lia. }
  destruct p; simpl.
  - destruct (action_world json_dumps s4 cog (modified_arg md)) as [C5 _].
    destruct (action json_dumps s4 cog (modified_arg md)) as [s5 r]. simpl in C5.
    assert (P (get_ctx (ctx_set (world s5) ctx "last_action_result" (CTree r)) ctx)) as Fin.
    { apply Hset; [by rewrite C5|by rewrite (get_ctx_same _ _ _ C5)|by right]. }
    by destruct (is_final_action _).
  - rewrite <- G4 in Keep. by destruct md.
Qed.

End Context.

(** X22: a rejection by the operator reaches the reasoning step through
    the merge at the top of the next pass of [run] only.  [hitl_check]
    itself leaves the context as it was; once the pending patch is
    merged, the prompt carries the fixed reason and the retry guidance,
    the context refers to the rejected proposal, and the patch is
    consumed. *)
Theorem rejection_reaches_the_next_prompt_of_run s cog ctx h fb :
  hitl_mode s ≠ "disabled" →
  (check_intervention (hitl_manager s) (world s) cog ctx (loop_counter s)).1 ≠ NONE →
  hitl_handler s = Some h → auto_approve h = false →
  (∀ t rq, h_input h t rq = HReject fb) →
  (ctx < length (ctxs (world s)))%nat →
  let s' := (hitl_check s cog ctx).1 in
  let merged := merge_resume_context s' ctx in
  get_ctx (world s') ctx = get_ctx (world s) ctx
  ∧ _resume_context merged = None
  ∧ pr_hitl_context (cognition_prompt merged ctx)
    = Some (Some (RTree (TStr "Human rejected the action")),
            Some (RTree (TStr "Consider alternative approaches based on human feedback")))
  ∧ ∀ a, proposed_action (get_cog (world s) cog) = Some a →
         get_ctx (world merged) ctx !! "previous_proposal" = Some (CAct a).
Proof.
  intros Hmode Hn Hh Hauto Hin Hv.
  pose proof (hitl_check_rejection s cog ctx h fb Hmode Hn Hh Hauto Hin) as H.
  destruct (hitl_check s cog ctx) as [s' r]. cbn [fst].
  destruct H as (X & _ & (prev & Hrc & Hprev) & _).
  split; [by apply world_ext_get_ctx|].
  assert (ctx < length (ctxs (world s')))%nat as V'.
  { destruct X as (_ & _ & Pf). apply prefix_length in Pf. lia. }
  set (patch := <["human_rejected" := CTree (TBool true)]> _) in Hrc.
  assert (patch !! "human_rejected" = Some (CTree (TBool true))) as P1
    by (subst patch; by rewrite lookup_insert_eq).
  assert (patch !! "rejection_reason" = Some (CTree (TStr "Human rejected the action"))) as P2
    by (subst patch; rewrite lookup_insert_ne by done; by rewrite lookup_insert_eq).
  assert (patch !! "previous_proposal" = Some (CAct prev)) as P3
    by (subst patch; rewrite !lookup_insert_ne by done; by rewrite lookup_insert_eq).
  assert (patch !! "retry_guidance"
          = Some (CTree (TStr "Consider alternative approaches based on human feedback"))) as P4
    by (subst patch; rewrite !lookup_insert_ne by done; by rewrite lookup_insert_eq).
  unfold merge_resume_context, pending_resume. rewrite Hrc.
  rewrite decide_False by (intros E; by rewrite E, lookup_empty in P1).
  cbn [_resume_context set_resume_context]. split; [done|].
  unfold cognition_prompt. cbn [pr_hitl_context world set_resume_context set_world].
  unfold ctx_update. rewrite get_ctx_set by done.
  rewrite (lookup_union_Some_l _ _ _ _ P1), (lookup_union_Some_l _ _ _ _ P2),
    (lookup_union_Some_l _ _ _ _ P4).
  split; [done|].
  intros a Ha. rewrite (Hprev a Ha) in P3. by apply lookup_union_Some_l.
Qed.

(** ** What a snapshot copies *)

Lemma copied_from_ext w0 w w' v v' :
  acts w `prefix_of` acts w' → copied_from w0 w v v' → copied_from w0 w' v v'.
Proof.
  intros Hp. destruct v, v'; simpl; try done.
  intros [? H]. split; [done|]. by eapply prefix_lookup_Some.
Qed.

Lemma copied_from_resolve w0 w W v v' :
  copied_from w0 w v v' →
  (∀ a' c, (length (acts w0) ≤ a')%nat → acts w !! a' = Some c → acts W !! a' = Some c) →
  resolve_cval W v' = resolve_cval w0 v.
Proof.
  destruct v, v'; simpl; try done; [by intros ->|].
  intros [Hle Hl] HW. f_equal. unfold get_act at 1.
  pose proof (HW _ _ Hle Hl) as HH. unfold loc in *. by rewrite HH.
Qed.

Lemma deepcopy_items_copies w0 kvs :
  ∀ w, acts w0 `prefix_of` acts w →
       (∀ k a, (k, CAct a) ∈ kvs → (a < length (acts w0))%nat) →
       let '(w', kvs') := deepcopy_items w kvs in
       acts w `prefix_of` acts w' ∧ cogs w' = cogs w ∧ ctxs w' = ctxs w
       ∧ Forall2 (λ p p', p.1 = p'.1 ∧ copied_from w0 w' p.2 p'.2) kvs kvs'.
Proof.
  induction kvs as [|[k v] kvs IH]; intros w Hp Hv; simpl.
  { repeat split; try done; constructor. }
  destruct v as [t|a]; simpl.
  - specialize (IH w Hp).
    destruct (deepcopy_items w kvs) as [w2 kvs'].
    destruct IH as (P & C & K & F).
    { intros k' a' Hin. apply (Hv k' a'). by apply list_elem_of_further. }
    repeat (split; [done|]). constructor; [by split|done].
  - unfold deepcopy_act. cbn [alloc_act fst snd].
    set (w1 := mkWorld _ _ _ _ _).
    assert (acts w `prefix_of` acts w1) as P1 by (by apply prefix_app_r).
    assert (a < length (acts w0))%nat as Ha by (apply (Hv k a), list_elem_of_here).
    specialize (IH w1 ltac:(by etrans)).
    destruct (deepcopy_items w1 kvs) as [w2 kvs'].
    destruct IH as (P & C & K & F).
    { intros k' a' Hin. apply (Hv k' a'). by apply list_elem_of_further. }
    split; [by etrans|]. split; [done|]. split; [done|].
    constructor; [|done]. split; [done|]. simpl. split.
    + apply prefix_length in Hp. lia.
    + eapply prefix_lookup_Some; [|exact P]. subst w1. simpl.
      rewrite lookup_app_r, Nat.sub_diag by done. simpl. f_equal.
      unfold get_act. f_equal.
      destruct (lookup_lt_is_Some_2 _ _ Ha) as [x Hx].
      etrans; [eapply prefix_lookup_Some; [exact Hx|exact Hp]|symmetry; exact Hx].
Qed.

Lemma copied_items_resolve w0 w W (kvs kvs' : list (string * cval)) :
  Forall2 (λ p p', p.1 = p'.1 ∧ copied_from w0 w p.2 p'.2) kvs kvs' →
  (∀ a' c, (length (acts w0) ≤ a')%nat → acts w !! a' = Some c → acts W !! a' = Some c) →
  prod_map id (resolve_cval W) <$> kvs' = prod_map id (resolve_cval w0) <$> kvs.
Proof.
  intros F HW. induction F as [|[k v] [k' v'] kvs kvs' [Hk Hc] _ IH]; [done|].
  simpl in Hk, Hc. subst k'. rewrite !fmap_cons. f_equal; [|exact IH].
  unfold prod_map. simpl. f_equal. by eapply copied_from_resolve.
Qed.

(** X23: [freeze_state] copies the cognition output and the context but
    not the pending action.  The snapshot shows both as they were when it
    was taken, and keeps showing them so after any assignment to an action
    dictionary that existed then; the pending action it shows is the
    assigned one when that dictionary is the proposed action. *)
Theorem freeze_state_copies_all_but_the_pending_action w m lc cog ms ev ctx mps lvl reason :
  (∀ k a, get_ctx w ctx !! k = Some (CAct a) → (a < length (acts w))%nat) →
  let '(w1, m1, f) := freeze_state w m lc cog ms ev ctx mps lvl reason in
  fv_cognition_output (frozen_to_dict w1 f) = resolve_cog w cog
  ∧ fv_context (frozen_to_dict w1 f) = resolve_ctx w ctx
  ∧ ∀ a x, (a < length (acts w))%nat →
      let changed := frozen_to_dict (set_act w1 a x) f in
      fv_cognition_output changed = resolve_cog w cog
      ∧ fv_context changed = resolve_ctx w ctx
      ∧ (proposed_action (get_cog w cog) = Some a → fv_pending_action changed = x).
Proof.
  intros Hv.
  unfold freeze_state, _generate_freeze_id, _log_trace, _generate_trace_id, now.
  set (w1 := mkWorld _ _ _ _ _).
  assert (acts w1 = acts w ∧ cogs w1 = cogs w ∧ ctxs w1 = ctxs w) as (A1 & C1 & K1) by done.
  change (get_cog w1 cog) with (get_cog w cog).
  destruct (match proposed_action (get_cog w cog) with
            | Some a => (w1, a) | None => alloc_act w1 empty_action end) as [w2 pending] eqn:E.
  assert (acts w `prefix_of` acts w2 ∧ cogs w2 = cogs w ∧ ctxs w2 = ctxs w
          ∧ (∀ a, proposed_action (get_cog w cog) = Some a → pending = a ∧ acts w2 = acts w))
    as (P2 & C2 & K2 & Hpend).
  { destruct (proposed_action (get_cog w cog)) as [a0|]; injection E as <- <-.
    - split; [done|]. split; [done|]. split; [done|]. by intros a1 [= ->].
    - simpl. split; [by apply prefix_app_r|]. done. }
  (* the copy of the cognition output *)
  assert (∃ co', deepcopy_cog w2 cog = ((deepcopy_cog w2 cog).1, length (cogs w))
                 ∧ acts w2 `prefix_of` acts (deepcopy_cog w2 cog).1
                 ∧ cogs (deepcopy_cog w2 cog).1 = cogs w ++ [co']
                 ∧ ctxs (deepcopy_cog w2 cog).1 = ctxs w
                 ∧ reasoning co' = reasoning (get_cog w cog)
                 ∧ evidence_refs co' = evidence_refs (get_cog w cog)
                 ∧ is_final_action co' = is_final_action (get_cog w cog)
                 ∧ confidence co' = confidence (get_cog w cog)
                 ∧ control_validated co' = control_validated (get_cog w cog)
                 ∧ match proposed_action (get_cog w cog), proposed_action co' with
                   | Some a, Some a' =>
                       (length (acts w) ≤ a')%nat
                       ∧ acts (deepcopy_cog w2 cog).1 !! a' = Some (get_act w a)
                   | None, None => True
                   | _, _ => False
                   end) as (co' & E3 & P3 & C3 & K3 & R1 & R2 & R3 & R4 & R5 & R6).
  { unfold deepcopy_cog, deepcopy_act, alloc_act, alloc_cog.
    assert (get_cog w2 cog = get_cog w cog) as -> by (unfold get_cog; by rewrite C2).
    destruct (proposed_action (get_cog w cog)) as [a|] eqn:Hprop; simpl.
    - destruct (Hpend a eq_refl) as [_ A2].
      eexists. rewrite C2, K2. split; [reflexivity|]. split; [by apply prefix_app_r|].
      split; [reflexivity|]. split; [done|]. simpl. repeat (split; [done|]).
      split; [rewrite A2; lia|].
      rewrite lookup_app_r, Nat.sub_diag by done. simpl. f_equal.
      unfold get_act. by rewrite A2.
    - eexists. rewrite C2, K2. split; [reflexivity|]. split; [done|].
      split; [reflexivity|]. split; [done|]. rewrite Hprop. done. }
  rewrite E3. set (w3 := (deepcopy_cog w2 cog).1) in *.
  (* the copy of the context *)
  assert (get_ctx w3 ctx = get_ctx w ctx) as G3 by (unfold get_ctx; by rewrite K3).
  unfold deepcopy_ctx. rewrite G3.
  pose proof (deepcopy_items_copies w (map_to_list (get_ctx w ctx)) w3
                ltac:(by etrans)) as D.
  destruct (deepcopy_items w3 (map_to_list (get_ctx w ctx))) as [w4 kvs'].
  destruct D as (P4 & C4 & K4 & F).
  { intros k a Hin. apply (Hv k a). by apply elem_of_map_to_list in Hin. }
  unfold alloc_ctx. cbn [fst snd]. rewrite K4, K3.
  set (W := mkWorld (acts w4) (cogs w4) (ctxs w ++ [list_to_map kvs']) _ _).
  set (f := mkFrozen _ _ _ _ _ _ _ _ _ _ _).
  cbn beta iota zeta.
  assert (∀ X : World,
            cogs X = cogs w ++ [co'] → ctxs X = ctxs w ++ [list_to_map kvs'] →
            (∀ a' c, (length (acts w) ≤ a')%nat → acts w4 !! a' = Some c →
                     acts X !! a' = Some c) →
            fv_cognition_output (frozen_to_dict X f) = resolve_cog w cog
            ∧ fv_context (frozen_to_dict X f) = resolve_ctx w ctx) as Views.
  { intros X CX KX HX. split.
    - subst f. unfold frozen_to_dict, resolve_cog. cbn [fv_cognition_output fz_cognition_output].
      assert (get_cog X (length (cogs w)) = co') as ->.
      { unfold get_cog. by rewrite CX, lookup_app_r, Nat.sub_diag. }
      rewrite R1, R2, R3, R4, R5. f_equal.
      destruct (proposed_action (get_cog w cog)) as [a|], (proposed_action co') as [a'|];
        try done.
      destruct R6 as [Hle Hl]. simpl. f_equal. unfold get_act at 1.
      assert (acts X !! a' = Some (get_act w a)) as HH
        by (apply HX; [done|]; by eapply prefix_lookup_Some).
      unfold loc in *. by rewrite HH.
    - subst f. unfold frozen_to_dict, resolve_ctx. cbn [fv_context fz_context].
      assert (get_ctx X (length (ctxs w)) = list_to_map kvs') as ->.
      { unfold get_ctx. by rewrite KX, lookup_app_r, Nat.sub_diag. }
      rewrite <- (list_to_map_to_list (get_ctx w ctx)) at 1.
      rewrite <- !list_to_map_fmap. f_equal.
      by eapply copied_items_resolve. }
  split; [apply Views; try done; subst W; by rewrite ?C4|].
  split; [apply Views; try done; subst W; by rewrite ?C4|].
  intros a x Ha.
  assert (∀ a' c, (length (acts w) ≤ a')%nat → acts w4 !! a' = Some c →
                  acts (set_act W a x) !! a' = Some c) as HX.
  { intros a' c Hle Hl. unfold set_act. cbn [acts]. subst W. cbn [acts].
    rewrite list_lookup_insert_ne by lia. done. }
  destruct (Views (set_act W a x)) as [V1 V2]; [by subst W; simpl; rewrite ?C4|done|done|].
  split; [exact V1|]. split; [exact V2|].
  intros Hprop. destruct (Hpend a Hprop) as [-> A2].
  subst f. unfold frozen_to_dict. cbn [fv_pending_action fz_pending_action].
  unfold get_act, set_act. cbn [acts]. subst W. cbn [acts].
  rewrite list_lookup_insert_eq; [done|].
  apply prefix_length in P4. apply prefix_length in P3. apply prefix_length in P2. lia.
Qed.

(** ** The further properties at concrete inputs *)


Lemma unregistered_tool_fails_softly_witness :
  let s := proposal_scl "launch_rocket" "disabled" (λ _ _, HApprove None) in
  tools s !! "launch_rocket" = None
  ∧ action demo_json s 0%nat None
    = (s, TDict [("status", TStr "error");
                 ("message",
                  TStr "Action execution failed: Tool 'launch_rocket' not registered")]).
Proof.
  intros s.
  assert (tools s !! "launch_rocket" = None) as H3 by (vm_compute; reflexivity).
  split; [exact H3|].
  apply (unregistered_tool_fails_softly demo_json s 0%nat None 0%nat "launch_rocket");
    [vm_compute; reflexivity|vm_compute; reflexivity| |exact H3].
  exists []. split; [vm_compute; reflexivity|]. split; apply not_elem_of_nil.
Defined.

Lemma traces_numbered_init p : traces_numbered (HITLManager_init p).
Proof. split; [reflexivity|]. intros i t H. simpl in H. by rewrite lookup_nil in H. Defined.

Lemma snapshots_kept_init p : snapshots_kept (HITLManager_init p).
Proof.
  split; [|reflexivity]. intros fid. simpl. split.
  - intros [x Hx]. by rewrite lookup_empty in Hx.
  - intros (k & Hk & _). lia.
Defined.

Lemma audit_events_are_numbered_in_order_witness :
  let s := demo_scl "send_email" true "auto" 5 in
  traces_numbered (hitl_manager s)
  ∧ NoDup (tr_trace_id <$> hitl_traces (hitl_manager (run demo_json s "task").1)).
Proof.
  intros s. split; [apply traces_numbered_init|].
  apply (audit_events_are_numbered_in_order demo_json s "task" "FREEZE-0001" "approve"
           None None None (traces_numbered_init HITLPolicy_init)).
Defined.

Lemma run_keeps_every_snapshot_witness :
  let s := demo_scl "send_email" true "auto" 5 in
  snapshots_kept (hitl_manager s)
  ∧ size (frozen_states (hitl_manager (run demo_json s "task").1))
    = freeze_counter (hitl_manager (run demo_json s "task").1).
Proof.
  intros s. split; [apply snapshots_kept_init|].
  apply (run_keeps_every_snapshot demo_json s "task" (snapshots_kept_init HITLPolicy_init)).
Defined.

Lemma hitl_check_blocks_without_handler_witness :
  let s := proposal_scl "send_email" "manual" (λ _ _, HApprove None) in
  hitl_mode s ≠ "disabled" ∧ hitl_handler s = None
  ∧ (check_intervention (hitl_manager s) (world s) 0%nat 0%nat (loop_counter s)).1 = APPROVE
  ∧ (hitl_check s 0%nat 0%nat).2 = (false, MNone).
Proof.
  intros s.
  assert (hitl_mode s ≠ "disabled") as H1 by (vm_compute; discriminate).
  assert (hitl_handler s = None) as H2 by (vm_compute; reflexivity).
  assert ((check_intervention (hitl_manager s) (world s) 0%nat 0%nat (loop_counter s)).1
          = APPROVE) as H3 by (vm_compute; reflexivity).
  pose proof (hitl_check_blocks_without_handler s 0%nat 0%nat H1 H2
                ltac:(rewrite H3; discriminate) ltac:(rewrite H3; discriminate)) as H.
  destruct (hitl_check s 0%nat 0%nat) as [s' r]. destruct H as [H _].
  split; [exact H1|]. split; [exact H2|]. split; [exact H3|exact H].
Defined.

Lemma auto_approval_never_blocks_witness :
  let s := proposal_scl "send_email" "auto" (λ _ _, HApprove None) in
  hitl_handler s = Some (mkHandler true (λ _ _, HApprove None))
  ∧ proposed_action (get_cog (world s) 0%nat) = Some 0%nat
  ∧ (hitl_check s 0%nat 0%nat).2 = (true, MNone).
Proof.
  intros s.
  assert (hitl_handler s = Some (mkHandler true (λ _ _, HApprove None))) as H1
    by (vm_compute; reflexivity).
  assert (0 < length (cogs (world s)))%nat as H2 by (vm_compute; lia).
  assert (proposed_action (get_cog (world s) 0%nat) = Some 0%nat) as H3
    by (vm_compute; reflexivity).
  pose proof (auto_approval_never_blocks s 0%nat 0%nat _ 0%nat H1 eq_refl H2 H3) as H.
  destruct (hitl_check s 0%nat 0%nat) as [s' r]. destruct H as [H _].
  split; [exact H1|]. split; [exact H3|exact H].
Defined.

Lemma rejection_feedback_stays_in_the_audit_trail_witness :
  let s := proposal_scl "send_email" "interactive" (λ _ _, HReject "wrong recipient") in
  hitl_handler s = Some (mkHandler false (λ _ _, HReject "wrong recipient"))
  ∧ (hitl_check s 0%nat 0%nat).2 = (false, MVirtualRejection)
  ∧ ∃ patch, _resume_context (hitl_check s 0%nat 0%nat).1 = Some patch
             ∧ patch !! "rejection_reason" = Some (CTree (TStr "Human rejected the action")).
Proof.
  intros s.
  assert (hitl_mode s ≠ "disabled") as H1 by (vm_compute; discriminate).
  assert ((check_intervention (hitl_manager s) (world s) 0%nat 0%nat (loop_counter s)).1
          = APPROVE) as H2 by (vm_compute; reflexivity).
  assert (hitl_handler s = Some (mkHandler false (λ _ _, HReject "wrong recipient"))) as H3
    by (vm_compute; reflexivity).
  pose proof (rejection_feedback_stays_in_the_audit_trail s 0%nat 0%nat _ "wrong recipient"
                H1 ltac:(rewrite H2; discriminate) H3 eq_refl (λ _ _, eq_refl)) as H.
  destruct (hitl_check s 0%nat 0%nat) as [s' r].
  destruct H as (H & (prev & Hrc & _) & _).
  split; [exact H3|]. split; [exact H|].
  eexists. split; [exact Hrc|].
  rewrite lookup_insert_ne by discriminate. apply lookup_insert_eq.
Defined.

Lemma modified_action_runs_the_proposed_tool_witness :
  let s := proposal_scl "get_weather" "interactive"
                        (λ _ _, HModify (TDict [("city", TStr "Miami")])) in
  (let '(s', (proceed, md)) := hitl_check s 0%nat 0%nat in
   proceed = true ∧ md ≠ MNone
   ∧ let '(s'', out) := action demo_json s' 0%nat (modified_arg md) in
     out = TStr "sunny"
     ∧ get_evidence (memory s'') "evidence_get_weather_{...}" = Some (TStr "sunny"))
  ∧ (let '(s', (proceed, md)) := hitl_check flag_scl 0%nat 0%nat in
     proceed = true ∧ md = MNone
     ∧ let '(s'', out) := action demo_json s' 0%nat (modified_arg md) in
       out = TStr "sunny").
Proof.
  intros s. split.
  - assert (hitl_mode s ≠ "disabled") as H1 by (vm_compute; discriminate).
    assert ((check_intervention (hitl_manager s) (world s) 0%nat 0%nat (loop_counter s)).1
            = CONFIRM) as H2 by (vm_compute; reflexivity).
    assert (hitl_handler s
            = Some (mkHandler false (λ _ _, HModify (TDict [("city", TStr "Miami")])))) as H3
      by (vm_compute; reflexivity).
    assert (0 < length (cogs (world s)))%nat as H4 by (vm_compute; lia).
    assert (proposed_action (get_cog (world s) 0%nat) = Some 0%nat) as H5
      by (vm_compute; reflexivity).
    assert (0 < length (acts (world s)))%nat as H6 by (vm_compute; lia).
    assert (truthy_name (get_act (world s) 0%nat) = Some "get_weather") as H7
      by (vm_compute; reflexivity).
    assert (parameters (get_act (world s) 0%nat) = None) as H8 by (vm_compute; reflexivity).
    pose proof (modified_action_runs_the_proposed_tool demo_json s 0%nat 0%nat _
                  (TDict [("city", TStr "Miami")]) 0%nat "get_weather"
                  H1 ltac:(rewrite H2; discriminate) H3 eq_refl (λ _ _, eq_refl)
                  H4 H5 H6 H7) as H.
    cbv zeta in H. rewrite H8 in H.
    assert (keyword_arguments (TDict [("city", TStr "Miami")])) as HK.
    { exists [("city", TStr "Miami")]. split; [reflexivity|].
      split; simpl; rewrite list_elem_of_singleton; discriminate. }
    specialize (H HK).
    destruct (hitl_check s 0%nat 0%nat) as [s' [proceed md]].
    destruct H as (Hp & Hmd & _ & _ & Hex).
    split; [exact Hp|]. split.
    { intros E. destruct (proj1 Hmd E) as (q & Hq & _). discriminate Hq. }
    apply (Hex (TStr "sunny")). vm_compute. reflexivity.
  - assert (hitl_mode flag_scl ≠ "disabled") as H1 by (vm_compute; discriminate).
    assert ((check_intervention (hitl_manager flag_scl) (world flag_scl) 0%nat 0%nat
                                (loop_counter flag_scl)).1 = CONFIRM) as H2
      by (vm_compute; reflexivity).
    assert (hitl_handler flag_scl
            = Some (mkHandler false (λ _ _, HModify (TDict [("n", TBool true)])))) as H3
      by (vm_compute; reflexivity).
    assert (0 < length (cogs (world flag_scl)))%nat as H4 by (vm_compute; lia).
    assert (proposed_action (get_cog (world flag_scl) 0%nat) = Some 0%nat) as H5
      by (vm_compute; reflexivity).
    assert (0 < length (acts (world flag_scl)))%nat as H6 by (vm_compute; lia).
    assert (truthy_name (get_act (world flag_scl) 0%nat) = Some "get_weather") as H7
      by (vm_compute; reflexivity).
    assert (parameters (get_act (world flag_scl) 0%nat) = Some (TDict [("n", TInt 1)])) as H8
      by (vm_compute; reflexivity).
    pose proof (modified_action_runs_the_proposed_tool demo_json flag_scl 0%nat 0%nat _
                  (TDict [("n", TBool true)]) 0%nat "get_weather"
                  H1 ltac:(rewrite H2; discriminate) H3 eq_refl (λ _ _, eq_refl)
                  H4 H5 H6 H7) as H.
    cbv zeta in H. rewrite H8 in H.
    change (py_eq (TDict [("n", TBool true)]) (TDict [("n", TInt 1)])) with true in H.
    cbv iota in H.
    assert (keyword_arguments (TDict [("n", TInt 1)])) as HK.
    { exists [("n", TInt 1)]. split; [reflexivity|].
      split; simpl; rewrite list_elem_of_singleton; discriminate. }
    specialize (H HK).
    destruct (hitl_check flag_scl 0%nat 0%nat) as [s' [proceed md]].
    destruct H as (Hp & Hmd & _ & _ & Hex).
    split; [exact Hp|]. split.
    { apply Hmd. by exists (TDict [("n", TInt 1)]). }
    specialize (Hex (TStr "sunny") ltac:(vm_compute; reflexivity)).
    destruct (action demo_json s' 0%nat (modified_arg md)) as [s'' out]. apply Hex.
Defined.

Lemma run_blocks_only_without_a_handler_witness :
  let s := demo_scl "send_email" true "manual" 5 in
  (run_exit demo_json s "task").2 = ExitBlocked
  ∧ hitl_handler s = None ∧ hitl_mode s ≠ "disabled".
Proof.
  intros s.
  assert ((run_exit demo_json s "task").2 = ExitBlocked) as H by (vm_compute; reflexivity).
  destruct (run_blocks_only_without_a_handler demo_json s "task" H) as (H1 & H2 & _).
  split; [exact H|]. split; [exact H1|exact H2].
Defined.

Lemma iteration_clears_rejection_keys_witness :
  let s := proposal_scl "get_weather" "auto" (λ _ _, HApprove None) in
  (0 < length (ctxs (world s)))%nat
  ∧ get_ctx (world (iteration demo_json true s 0%nat).1) 0%nat !! "human_rejected" = None
  ∧ pr_hitl_context (cognition_prompt (iteration demo_json true s 0%nat).1 0%nat) = None.
Proof.
  intros s.
  assert (0 < length (ctxs (world s)))%nat as H by (vm_compute; lia).
  destruct (iteration_clears_rejection_keys demo_json true s 0%nat H) as (H1 & _ & _ & H4 & _).
  split; [exact H|]. split; [exact H1|exact H4].
Defined.

Lemma rejection_reaches_the_next_prompt_of_run_witness :
  let s := proposal_scl "send_email" "interactive" (λ _ _, HReject "wrong recipient") in
  (0 < length (ctxs (world s)))%nat
  ∧ pr_hitl_context (cognition_prompt (merge_resume_context (hitl_check s 0%nat 0%nat).1 0%nat)
                                      0%nat)
    = Some (Some (RTree (TStr "Human rejected the action")),
            Some (RTree (TStr "Consider alternative approaches based on human feedback"))).
Proof.
  intros s.
  assert (hitl_mode s ≠ "disabled") as H1 by (vm_compute; discriminate).
  assert ((check_intervention (hitl_manager s) (world s) 0%nat 0%nat (loop_counter s)).1
          = APPROVE) as H2 by (vm_compute; reflexivity).
  assert (hitl_handler s = Some (mkHandler false (λ _ _, HReject "wrong recipient"))) as H3
    by (vm_compute; reflexivity).
  assert (0 < length (ctxs (world s)))%nat as H4 by (vm_compute; lia).
  destruct (rejection_reaches_the_next_prompt_of_run s 0%nat 0%nat _ "wrong recipient"
              H1 ltac:(rewrite H2; discriminate) H3 eq_refl (λ _ _, eq_refl) H4)
    as (_ & _ & H & _).
  split; [exact H4|exact H].
Defined.

Lemma freeze_state_copies_all_but_the_pending_action_witness :
  let '(w1, m1, f) :=
    freeze_state aliased_world (HITLManager_init HITLPolicy_init) 3 0%nat
                 (mkMemorySnapshot (Some ∅) 0) ∅ 0%nat (get_state MetaPrompt_init)
                 APPROVE "High-risk tool: send_email" in
  let changed := frozen_to_dict (set_act w1 0%nat (mkAction (Some "delete_data") None)) f in
  fv_context changed = resolve_ctx aliased_world 0%nat
  ∧ fv_cognition_output changed = resolve_cog aliased_world 0%nat
  ∧ fv_pending_action changed = mkAction (Some "delete_data") None.
Proof.
  assert (∀ k a, get_ctx aliased_world 0%nat !! k = Some (CAct a) →
                 (a < length (acts aliased_world))%nat) as Hv.
  { intros k a H.
    change (get_ctx aliased_world 0%nat)
      with ({["previous_proposal" := CAct 0%nat]} : gmap string cval) in H.
    apply lookup_singleton_Some in H as [_ [= <-]]. simpl. lia. }
  pose proof (freeze_state_copies_all_but_the_pending_action
                aliased_world (HITLManager_init HITLPolicy_init) 3 0%nat
                (mkMemorySnapshot (Some ∅) 0) ∅ 0%nat (get_state MetaPrompt_init)
                APPROVE "High-risk tool: send_email" Hv) as H.
  destruct (freeze_state _ _ _ _ _ _ _ _ _ _) as [[w1 m1] f].
  destruct H as (_ & _ & H).
  destruct (H 0%nat (mkAction (Some "delete_data") None) ltac:(simpl; lia)) as (H1 & H2 & H3).
  split; [exact H2|]. split; [exact H1|]. apply H3. reflexivity.
Defined.
